(** * QRFormv4: authentication, authorization and storage layer

    A shallow embedding of the server core of the repository:
    - [server/auth.ts]    (credential hasher, passport strategy, the
                           register / login / logout / user endpoints and the
                           [requireAuth] / [requireAdmin] middleware),
    - [server/routes.ts]  (user administration and event routes),
    - [server/storage.ts] ([DatabaseStorage]),
    - [shared/schema.ts]  (tables and zod schemas).

    JavaScript objects are finite maps from property names to values; a
    table is the list of its rows in insertion order; [await]ed calls that
    may reject return a [result]; what a request draws from its environment
    (clock, random bytes, generated identifiers) is an explicit input. *)

From Stdlib Require Import Strings.Ascii Strings.String Strings.Byte.
From stdpp Require Import gmap strings list fin_maps sorting pretty.

Open Scope string_scope.
Open Scope list_scope.

(** ** Outcomes of fallible calls *)

Inductive error :=
  | TypeError          (* ERR_INVALID_ARG_TYPE and the like *)
  | RangeError         (* ERR_CRYPTO_TIMING_SAFE_EQUAL_LENGTH *)
  | ZodError           (* schema.parse rejected the input *)
  | DatabaseError      (* the statement was rejected by the database *)
  | SerializeError.    (* passport: failed to serialize user into session *)

Inductive result (A : Type) :=
  | Ok (a : A)
  | Throw (e : error).
Arguments Ok {A} a.
Arguments Throw {A} e.

(** [await] and sequencing inside a [try] block: the first rejection
    ends the block. *)
#[global] Instance result_ret : MRet result := λ A a, Ok a.
#[global] Instance result_bind : MBind result := λ A B k r,
  match r with
  | Ok a => k a
  | Throw e => Throw e
  end.

#[global] Instance error_eq_dec : EqDecision error.
Proof. solve_decision. Defined.

#[global] Instance byte_eq_dec' : EqDecision byte := byte_eq_dec.

(** ** Credential hasher ([server/auth.ts]) *)

Module Hasher.

(** [buf.toString("hex")]: two lower-case digits per byte. *)
Definition hex_digit (n : N) : ascii :=
  match n with
  | 0 => "0" | 1 => "1" | 2 => "2" | 3 => "3" | 4 => "4" | 5 => "5"
  | 6 => "6" | 7 => "7" | 8 => "8" | 9 => "9" | 10 => "a" | 11 => "b"
  | 12 => "c" | 13 => "d" | 14 => "e" | _ => "f"
  end%N%char.

Definition hex_hi (b : byte) : ascii := hex_digit (Byte.to_N b / 16).
Definition hex_lo (b : byte) : ascii := hex_digit (Byte.to_N b mod 16).

Fixpoint toString_hex (buf : list byte) : string :=
  match buf with
  | [] => EmptyString
  | b :: rest => String (hex_hi b) (String (hex_lo b) (toString_hex rest))
  end.

(** Value of a hexadecimal digit; both cases are accepted when decoding. *)
Definition hex_value (c : ascii) : option N :=
  let n := N_of_ascii c in
  if (48 <=? n)%N && (n <=? 57)%N then Some (n - 48)%N
  else if (97 <=? n)%N && (n <=? 102)%N then Some (n - 87)%N
  else if (65 <=? n)%N && (n <=? 70)%N then Some (n - 55)%N
  else None.

(** [Buffer.from(s, "hex")]: decodes pairs of digits and stops, without
    any error, at the first pair that is not hexadecimal or at a trailing
    single character. *)
Fixpoint Buffer_from_hex (s : string) : list byte :=
  match s with
  | String a (String b rest) =>
      match hex_value a, hex_value b with
      | Some x, Some y =>
          match Byte.of_N (16 * x + y) with
          | Some byt => byt :: Buffer_from_hex rest
          | None => []
          end
      | _, _ => []
      end
  | _ => []
  end.

(** [s.split(sep)] for a one-character separator: always at least one
    piece. *)
Fixpoint split (sep : ascii) (s : string) : list string :=
  match s with
  | EmptyString => [EmptyString]
  | String c rest =>
      if Ascii.eqb c sep then EmptyString :: split sep rest
      else match split sep rest with
           | piece :: pieces => String c piece :: pieces
           | [] => [String c EmptyString]
           end
  end.

(** [crypto.timingSafeEqual]: throws on buffers of different byte
    length. *)
Definition timingSafeEqual (a b : list byte) : result bool :=
  if Nat.eqb (length a) (length b) then Ok (bool_decide (a = b))
  else Throw RangeError.

Section WithScrypt.

(** [scrypt(password, salt, keylen)] of Node's crypto module, with its
    default cost parameters: a deterministic function of its
    arguments that returns [keylen] bytes. *)
Variable scrypt : string → string → nat → list byte.

(** The salt argument of [scryptAsync] may be [undefined] at run time
    (a destructured array element that does not exist); Node rejects
    it with ERR_INVALID_ARG_TYPE. *)
Definition scryptAsync (password : string) (salt : option string)
    (keylen : nat) : result (list byte) :=
  match salt with
  | Some s => Ok (scrypt password s keylen)
  | None => Throw TypeError
  end.

(** [hashPassword]; [random16] is the value of [randomBytes(16)]. *)
Definition hashPassword (random16 : list byte) (password : string)
    : result string :=
  let salt := toString_hex random16 in
  buf ← scryptAsync password (Some salt) 64;
  Ok (toString_hex buf +:+ "." +:+ salt).

Definition comparePasswords (supplied stored : string) : result bool :=
  let parts := split "." stored in
  let hashed := default EmptyString (parts !! 0%nat) in
  let salt := parts !! 1%nat in
  let hashedBuf := Buffer_from_hex hashed in
  suppliedBuf ← scryptAsync supplied salt 64;
  timingSafeEqual hashedBuf suppliedBuf.

End WithScrypt.

(** A small stand-in for the key-derivation function, used to evaluate
    the definitions on concrete inputs: the first byte is a checksum of
    password and salt, the rest is zero. *)
Definition checksum (s : string) : N :=
  fold_right (λ c acc, (N_of_ascii c + 31 * acc) mod 256)%N 7%N
             (list_ascii_of_string s).

Definition toy_scrypt (password salt : string) (keylen : nat) : list byte :=
  match keylen with
  | O => []
  | S n =>
      default x00 (Byte.of_N ((checksum password + 3 * checksum salt) mod 256))
        :: replicate n x00
  end.

End Hasher.

(** ** Values, objects and the request environment *)

(** A JavaScript value as it occurs in request bodies and table rows.
    A property that is absent (or [undefined]) is a failed lookup. Strings
    are sequences of one-byte characters, so that [String.length] is the
    [length] of JavaScript for ASCII text. *)
Inductive val :=
  | VNull
  | VBool (b : bool)
  | VNum (n : Z)
  | VStr (s : string)
  | VDate (t : Z)        (* a [Date], in milliseconds since the epoch *)
  | VDoc (d : string).   (* a JSON document the server never inspects,
                            written without the quotes of its keys *)

#[global] Instance val_eq_dec : EqDecision val.
Proof. solve_decision. Defined.

Abbreviation obj := (gmap string val).

(** ToBoolean, as applied by [if (x)] and [!x]. *)
Definition truthy (v : option val) : bool :=
  match v with
  | None | Some VNull => false
  | Some (VBool b) => b
  | Some (VNum n) => negb (n =? 0)%Z
  | Some (VStr s) => negb (String.eqb s EmptyString)
  | Some (VDate _) | Some (VDoc _) => true
  end.

(** An object literal [{ k1: e1, ..., kn: en }] as [res.json] sends it:
    a property whose value is [undefined] is left out by JSON.stringify. *)
Fixpoint literal (props : list (string * option val)) : obj :=
  match props with
  | [] => ∅
  | (k, Some v) :: rest => <[k := v]> (literal rest)
  | (_, None) :: rest => literal rest
  end.

(** What one request draws from outside: the clock ([new Date()] and
    [defaultNow()]), [gen_random_uuid()], [randomBytes(16)] and the
    identifier express-session generates for a new session. *)
Record env := {
  now : Z;
  uuid : string;
  random16 : list byte;
  sessionID : string;
}.

(** ** Tables ([shared/schema.ts]) and the statements run on them *)

Inductive coldefault :=
  | NoDefault
  | DefaultConst (v : val)
  | DefaultUuid        (* default(sql`gen_random_uuid()`) *)
  | DefaultNow.        (* defaultNow() *)

Record column := {
  col_name : string;
  col_default : coldefault;
}.

#[global] Instance coldefault_eq_dec : EqDecision coldefault.
Proof. solve_decision. Defined.

#[global] Instance column_eq_dec : EqDecision column.
Proof. solve_decision. Defined.

Definition col (name : string) (d : coldefault) : column :=
  {| col_name := name; col_default := d |}.

Definition users_table : list column :=
  [ col "id" DefaultUuid;
    col "username" NoDefault;
    col "email" NoDefault;
    col "password" NoDefault;
    col "role" (DefaultConst (VStr "user"));
    col "banned" (DefaultConst (VBool false));
    col "createdAt" DefaultNow;
    col "updatedAt" DefaultNow ].

Definition events_table : list column :=
  [ col "id" DefaultUuid;
    col "userId" NoDefault;
    col "name" NoDefault;
    col "description" NoDefault;
    col "eventDate" NoDefault;
    col "eventTime" NoDefault;
    col "qrCodeUrl" NoDefault;
    col "registrationUrl" NoDefault;
    col "isActive" (DefaultConst (VBool true));
    col "createdAt" DefaultNow;
    col "updatedAt" DefaultNow ].

Definition qrSettings_table : list column :=
  [ col "id" DefaultUuid;
    col "eventId" NoDefault;
    col "backgroundImage" NoDefault;
    col "qrSize" (DefaultConst (VNum 200));
    col "qrPosition" (DefaultConst (VDoc "{x: 0, y: 0}"));
    col "textOverlays" (DefaultConst (VDoc "[]"));
    col "customFields" (DefaultConst (VDoc "{}"));
    col "createdAt" DefaultNow;
    col "updatedAt" DefaultNow ].

Definition formSchemas_table : list column :=
  [ col "id" DefaultUuid;
    col "eventId" NoDefault;
    col "schema" NoDefault;
    col "layout" (DefaultConst (VDoc "{}"));
    col "responsiveSettings"
        (DefaultConst (VDoc "{mobile: true, tablet: true, desktop: true}"));
    col "createdAt" DefaultNow;
    col "updatedAt" DefaultNow ].

Definition registrations_table : list column :=
  [ col "id" DefaultUuid;
    col "eventId" NoDefault;
    col "name" NoDefault;
    col "phone" NoDefault;
    col "position" NoDefault;
    col "email" NoDefault;
    col "customData" (DefaultConst (VDoc "{}"));
    col "registeredAt" DefaultNow ].

Definition column_names (t : list column) : list string := col_name <$> t.

Definition default_value (e : env) (d : coldefault) : val :=
  match d with
  | NoDefault => VNull
  | DefaultConst v => v
  | DefaultUuid => VStr (uuid e)
  | DefaultNow => VDate (now e)
  end.

(** The statements below compute what the database stores and returns
    when it accepts them. Integrity constraints (NOT NULL, UNIQUE, foreign
    keys, column types) and the connection are PostgreSQL's business and
    are not part of this model; the one rejection that depends on the
    statement alone, an UPDATE that assigns no column, is. *)

(** [db.insert(t).values(o).returning()]: one value per column of the
    table, the given one or else the column default; properties of [o]
    that are not columns are ignored. *)
Definition inserted_row (e : env) (t : list column) (o : obj) : obj :=
  list_to_map
    ((λ c, (col_name c, default (default_value e (col_default c)) (o !! col_name c)))
       <$> t).

Definition db_insert (e : env) (t : list column) (o : obj) (rows : list obj)
    : list obj * obj :=
  let row := inserted_row e t o in (rows ++ [row], row).

(** The SET clause of [db.update(t).set(values)]: the properties of
    [values] that are columns of [t]. *)
Definition set_clause (t : list column) (values : obj) : obj :=
  filter (λ kv, kv.1 ∈ column_names t) values.

(** [db.update(t).set(values).where(P).returning()]: the new table and
    the updated rows. *)
Definition db_update (t : list column) (values : obj)
    (P : obj → Prop) `{!∀ r, Decision (P r)} (rows : list obj)
    : result (list obj * list obj) :=
  let set := set_clause t values in
  if decide (set = ∅) then Throw DatabaseError
  else Ok ((λ r, if decide (P r) then set ∪ r else r) <$> rows,
           (λ r, set ∪ r) <$> filter P rows).

(** [db.delete(t).where(P)]: the new table and [result.rowCount]. *)
Definition db_delete (P : obj → Prop) `{!∀ r, Decision (P r)} (rows : list obj)
    : list obj * nat :=
  (filter (λ r, ¬ P r) rows, length (filter P rows)).

(** [eq(t.column, value)]: [column = $1]. A parameter that is [null] or
    [undefined] is sent as NULL, and a comparison with NULL selects no
    row. *)
Definition eq (column : string) (value : option val) (r : obj) : Prop :=
  match value with
  | None | Some VNull => False
  | Some v => r !! column = Some v
  end.

#[global] Instance eq_dec column value r : Decision (eq column value r).
Proof. unfold eq. repeat case_match; apply _. Defined.

(** [orderBy(desc(t.column))] on a timestamp column; PostgreSQL puts NULL
    first in descending order. Rows with equal timestamps come in no
    specified order from the database; here in the order the merge sort
    leaves them in. *)
Definition timestamp_of (column : string) (r : obj) : option Z :=
  match r !! column with
  | Some (VDate t) => Some t
  | _ => None
  end.

Definition desc (column : string) (r1 r2 : obj) : Prop :=
  match timestamp_of column r1, timestamp_of column r2 with
  | None, _ => True
  | Some _, None => False
  | Some t1, Some t2 => (t2 ≤ t1)%Z
  end.

#[global] Instance desc_dec column r1 r2 : Decision (desc column r1 r2).
Proof. unfold desc. repeat case_match; apply _. Defined.

Definition orderBy (R : relation obj) `{!∀ r1 r2, Decision (R r1 r2)}
    (rows : list obj) : list obj :=
  merge_sort R rows.

(** ** The persistent state *)

Record State := {
  users : list obj;
  events : list obj;
  qrSettings : list obj;
  formSchemas : list obj;
  registrations : list obj;
  sessions : gmap string val;      (* session id ↦ serialized user id, for
                                      the sessions that carry a login;
                                      their expiry is not modelled *)
}.

Definition set_users (st : State) (rows : list obj) : State :=
  {| users := rows; events := events st; qrSettings := qrSettings st;
     formSchemas := formSchemas st; registrations := registrations st;
     sessions := sessions st |}.

Definition set_events (st : State) (rows : list obj) : State :=
  {| users := users st; events := rows; qrSettings := qrSettings st;
     formSchemas := formSchemas st; registrations := registrations st;
     sessions := sessions st |}.

Definition set_qrSettings (st : State) (rows : list obj) : State :=
  {| users := users st; events := events st; qrSettings := rows;
     formSchemas := formSchemas st; registrations := registrations st;
     sessions := sessions st |}.

Definition set_formSchemas (st : State) (rows : list obj) : State :=
  {| users := users st; events := events st; qrSettings := qrSettings st;
     formSchemas := rows; registrations := registrations st;
     sessions := sessions st |}.

Definition set_registrations (st : State) (rows : list obj) : State :=
  {| users := users st; events := events st; qrSettings := qrSettings st;
     formSchemas := formSchemas st; registrations := rows;
     sessions := sessions st |}.

Definition set_sessions (st : State) (s : gmap string val) : State :=
  {| users := users st; events := events st; qrSettings := qrSettings st;
     formSchemas := formSchemas st; registrations := registrations st;
     sessions := s |}.

(** ** [DatabaseStorage] ([server/storage.ts]) *)

Module DatabaseStorage.

Section WithToString.

(** [String(v)] for a [Date] or a document: its text depends on the
    platform (time zone, object shape). *)
Variable objectToString : val → string.

(** The text a template literal [`${x}`] puts for [x]. *)
Definition template (x : option val) : string :=
  match x with
  | None => "undefined"
  | Some VNull => "null"
  | Some (VBool true) => "true"
  | Some (VBool false) => "false"
  | Some (VNum n) => pretty n
  | Some (VStr s) => s
  | Some v => objectToString v
  end.

Definition createEvent (e : env) (insertEvent : obj) (st : State)
    : State * obj :=
  let eventData :=
    <["qrCodeUrl" := VNull]>
      (<["registrationUrl" :=
           VStr ("/register/" +:+ template (insertEvent !! "userId"))]>
         insertEvent) in
  let '(rows, event) := db_insert e events_table eventData (events st) in
  (set_events st rows, event).

End WithToString.

(** *** Users *)

Definition createUser (e : env) (insertUser : obj) (st : State)
    : State * obj :=
  let '(rows, user) := db_insert e users_table insertUser (users st) in
  (set_users st rows, user).

Definition getUser (id : option val) (st : State) : option obj :=
  head (filter (eq "id" id) (users st)).

Definition getUserByUsername (username : option val) (st : State)
    : option obj :=
  head (filter (eq "username" username) (users st)).

Definition getUserByEmail (email : option val) (st : State) : option obj :=
  head (filter (eq "email" email) (users st)).

Definition getAllUsers (st : State) : list obj :=
  orderBy (desc "createdAt") (users st).

Definition updateUser (e : env) (id : string) (userUpdate : obj) (st : State)
    : result (State * option obj) :=
  '(rows, returned) ←
    db_update users_table (<["updatedAt" := VDate (now e)]> userUpdate)
              (eq "id" (Some (VStr id))) (users st);
  Ok (set_users st rows, head returned).

Definition deleteUser (id : string) (st : State) : State * bool :=
  let '(rows, rowCount) := db_delete (eq "id" (Some (VStr id))) (users st) in
  (set_users st rows, bool_decide (0 < rowCount)).

Definition banUser (e : env) (id : string) (st : State)
    : result (State * bool) :=
  '(rows, updated) ←
    db_update users_table
              (<["updatedAt" := VDate (now e)]> {[ "banned" := VBool true ]})
              (eq "id" (Some (VStr id))) (users st);
  Ok (set_users st rows, bool_decide (0 < length updated)).

Definition unbanUser (e : env) (id : string) (st : State)
    : result (State * bool) :=
  '(rows, updated) ←
    db_update users_table
              (<["updatedAt" := VDate (now e)]> {[ "banned" := VBool false ]})
              (eq "id" (Some (VStr id))) (users st);
  Ok (set_users st rows, bool_decide (0 < length updated)).

(** *** Events *)

Definition getEvent (id : string) (st : State) : option obj :=
  head (filter (eq "id" (Some (VStr id))) (events st)).

Definition getAllEvents (st : State) : list obj :=
  orderBy (desc "createdAt") (events st).

Definition updateEvent (e : env) (id : string) (eventUpdate : obj)
    (st : State) : result (State * option obj) :=
  '(rows, returned) ←
    db_update events_table (<["updatedAt" := VDate (now e)]> eventUpdate)
              (eq "id" (Some (VStr id))) (events st);
  Ok (set_events st rows, head returned).

Definition deleteEvent (id : string) (st : State) : State * bool :=
  let '(rows, rowCount) := db_delete (eq "id" (Some (VStr id))) (events st) in
  (set_events st rows, bool_decide (0 < rowCount)).

(** *** QR settings, form schemas, registrations *)

Definition createQrSettings (e : env) (insertSettings : obj) (st : State)
    : State * obj :=
  let '(rows, settings) :=
    db_insert e qrSettings_table insertSettings (qrSettings st) in
  (set_qrSettings st rows, settings).

Definition getQrSettings (eventId : string) (st : State) : option obj :=
  head (filter (eq "eventId" (Some (VStr eventId))) (qrSettings st)).

Definition deleteQrSettings (id : string) (st : State) : State * bool :=
  let '(rows, rowCount) :=
    db_delete (eq "id" (Some (VStr id))) (qrSettings st) in
  (set_qrSettings st rows, bool_decide (0 < rowCount)).

Definition updateQrSettings (e : env) (id : string) (settingsUpdate : obj)
    (st : State) : result (State * option obj) :=
  '(rows, returned) ←
    db_update qrSettings_table
              (<["updatedAt" := VDate (now e)]> settingsUpdate)
              (eq "id" (Some (VStr id))) (qrSettings st);
  Ok (set_qrSettings st rows, head returned).


(** No timestamp is added here: the registrations table has no
    [updatedAt] column. *)
Definition updateRegistration (id : string) (registrationUpdate : obj)
    (st : State) : result (State * option obj) :=
  '(rows, returned) ←
    db_update registrations_table registrationUpdate
              (eq "id" (Some (VStr id))) (registrations st);
  Ok (set_registrations st rows, head returned).

End DatabaseStorage.

(** ** zod schemas ([shared/schema.ts]) *)

Inductive ztype :=
  | ZString (min : nat) (max : option nat)
  | ZBoolean.

Record zfield := {
  zf_name : string;
  zf_type : ztype;
  zf_nullable : bool;
  zf_optional : bool;
}.

Definition zvalid (f : zfield) (v : option val) : bool :=
  match v with
  | None => zf_optional f
  | Some VNull => zf_nullable f
  | Some (VStr s) =>
      match zf_type f with
      | ZString lo hi =>
          Nat.leb lo (String.length s)
          && match hi with Some h => Nat.leb (String.length s) h | None => true end
      | ZBoolean => false
      end
  | Some (VBool _) =>
      match zf_type f with ZBoolean => true | ZString _ _ => false end
  | Some _ => false
  end.

(** [schema.parse(input)] for an object schema: every field is checked,
    and the result keeps the schema's keys only (unknown keys are
    stripped). *)
Definition parse (schema : list zfield) (input : obj) : result obj :=
  if forallb (λ f, zvalid f (input !! zf_name f)) schema
  then Ok (filter (λ kv, kv.1 ∈ zf_name <$> schema) input)
  else Throw ZodError.

(** [schema.partial()] *)
Definition partial (schema : list zfield) : list zfield :=
  (λ f, {| zf_name := zf_name f; zf_type := zf_type f;
           zf_nullable := zf_nullable f; zf_optional := true |}) <$> schema.

Definition required (name : string) (t : ztype) : zfield :=
  {| zf_name := name; zf_type := t; zf_nullable := false; zf_optional := false |}.

Definition nullish (name : string) (t : ztype) : zfield :=
  {| zf_name := name; zf_type := t; zf_nullable := true; zf_optional := true |}.

(** [createInsertSchema(users)] without id, role, banned, createdAt and
    updatedAt, and with the password rule of [extend]. A varchar column
    bounds its string by the column length. *)
Definition registrationSchema : list zfield :=
  [ required "username" (ZString 0 (Some 255));
    required "email" (ZString 0 (Some 255));
    required "password" (ZString 6 None) ].

(** [createInsertSchema(events)] without id, qrCodeUrl, registrationUrl,
    createdAt and updatedAt. *)
Definition insertEventSchema : list zfield :=
  [ required "userId" (ZString 0 None);
    required "name" (ZString 0 None);
    nullish "description" (ZString 0 None);
    nullish "eventDate" (ZString 0 None);
    nullish "eventTime" (ZString 0 None);
    nullish "isActive" ZBoolean ].

(** ** Requests and responses *)

Inductive route :=
  | GET_users
  | PATCH_users_ban (id : string)
  | PATCH_users_unban (id : string)
  | DELETE_users (id : string)
  | GET_events
  | GET_events_id (id : string)
  | POST_events
  | PATCH_events (id : string)
  | DELETE_events (id : string)
  | POST_qr_settings
  | GET_qr_settings (eventId : string)
  | PATCH_qr_settings (id : string)
  | DELETE_qr_settings (id : string)
  | POST_register
  | POST_login
  | POST_logout
  | GET_user.

Record request := {
  req_route : route;           (* method, path and [req.params.id] *)
  req_body : obj;              (* [req.body], parsed by express.json() *)
  req_cookie : option string;  (* the session id of the connect.sid cookie *)
}.

Inductive rbody :=
  | Empty                      (* [send()] with no argument *)
  | Text (s : string)          (* [sendStatus]: the reason phrase *)
  | Json (o : obj)
  | JsonArray (l : list obj)
  | ErrorJson (e : error).     (* [{ message: err.message }] of the
                                  application's error handler *)

Record response := {
  status : nat;
  body : rbody;
}.

(** [res.status(code).json({ message: m })] *)
Definition message (code : nat) (m : string) : response :=
  {| status := code; body := Json {[ "message" := VStr m ]} |}.

(** [next(err)]: the error handler installed in [server/index.ts] answers
    with [err.status || err.statusCode || 500]; none of the errors that
    arise here carries a status. *)
Definition next_err (e : error) : response :=
  {| status := 500; body := ErrorJson e |}.

#[global] Instance rbody_eq_dec : EqDecision rbody.
Proof. solve_decision. Defined.

#[global] Instance response_eq_dec : EqDecision response.
Proof. solve_decision. Defined.

(** ** Authentication ([server/auth.ts]) and routes ([server/routes.ts]) *)

Import Hasher DatabaseStorage.

Section Server.

Variable scrypt : string → string → nat → list byte.
Variable objectToString : val → string.

(** A run-time value where [crypto] or [String.prototype] needs a
    string: anything else is a TypeError. *)
Definition as_string (v : option val) : result string :=
  match v with
  | Some (VStr s) => Ok s
  | _ => Throw TypeError
  end.

(** *** Sessions (express-session with passport) *)

(** [req.user]: passport deserializes the id stored in the session with
    [storage.getUser]; a user that no longer exists leaves the request
    unauthenticated. *)
Definition req_user (req : request) (st : State) : option obj :=
  sid ← req_cookie req;
  id ← sessions st !! sid;
  getUser (Some id) st.

(** [req.session.destroy]: the session of the request is removed from
    the store. *)
Definition session_destroy (req : request) (st : State) : State :=
  match req_cookie req with
  | Some sid => set_sessions st (delete sid (sessions st))
  | None => st
  end.

(** [req.session.regenerate]: the old session is destroyed and a new,
    empty one is started under the identifier [sessionID]; nothing is
    stored for it before a login ([saveUninitialized] is false). *)
Definition session_regenerate (req : request) (st : State) : State :=
  session_destroy req st.

(** [req.logout]: passport removes the user from the session and
    regenerates it, so that the old identifier is bound to no user. The
    middleware does not wait for the callback; the effect is taken as
    done when the response is sent. *)
Definition req_logout (req : request) (st : State) : State :=
  session_regenerate req st.

(** [req.login(user)] on the regenerated session, with
    [serializeUser((user, done) => done(null, user.id))]; passport
    refuses an id that is falsy and not 0. *)
Definition req_login (e : env) (user : obj) (st : State) : result State :=
  match user !! "id" with
  | Some id =>
      if truthy (Some id) || bool_decide (id = VNum 0)
      then Ok (set_sessions st (<[sessionID e := id]> (sessions st)))
      else Throw SerializeError
  | None => Throw SerializeError
  end.

(** The object literal every endpoint answers with for a user. *)
Definition user_json (user : obj) : obj :=
  literal [ ("id", user !! "id");
            ("username", user !! "username");
            ("email", user !! "email");
            ("role", user !! "role");
            ("banned", user !! "banned");
            ("createdAt", user !! "createdAt") ].

(** *** The local strategy *)

(** The verify callback: [Ok (Some user)] is [done(null, user)],
    [Ok None] is [done(null, false, { message: 'Invalid credentials' })]
    and [Throw err] is [done(err)]. *)
Definition verify (username password : option val) (st : State)
    : result (option obj) :=
  match getUserByUsername username st with
  | None => Ok None
  | Some user =>
      if truthy (user !! "banned") then Ok None
      else
        matches ← (stored ← as_string (user !! "password");
                   supplied ← as_string password;
                   comparePasswords scrypt supplied stored);
        if matches : bool then Ok (Some user) else Ok None
  end.

(** [passport.authenticate("local", callback)]: passport-local fails
    with "Missing credentials" when a field of the body is falsy, and
    calls [verify] otherwise; either failure reaches the callback as
    [user = false]. (The query string, which passport-local reads when
    the body lacks a field, is not part of a [request].) *)
Definition authenticate (req : request) (st : State) : result (option obj) :=
  let username := req_body req !! "username" in
  let password := req_body req !! "password" in
  if truthy username && truthy password then verify username password st
  else Ok None.

(** *** Endpoints of [setupAuth] *)

Definition invalid (m : string) : response :=
  {| status := 400;
     body := Json {[ "message" := VStr m; "errors" := VDoc "issues" ]} |}.

Definition post_register (e : env) (req : request) (st : State)
    : State * response :=
  let attempt : result (State * response) :=
    userData ← parse registrationSchema (req_body req);
    match getUserByUsername (userData !! "username") st with
    | Some _ => Ok (st, message 400 "Username already exists")
    | None =>
        match getUserByEmail (userData !! "email") st with
        | Some _ => Ok (st, message 400 "Email already exists")
        | None =>
            password ← as_string (userData !! "password");
            hashed ← hashPassword scrypt (random16 e) password;
            let '(st1, user) :=
              createUser e
                (<["banned" := VBool false]>
                   (<["role" := VStr "user"]>
                      (<["password" := VStr hashed]> userData))) st in
            let st2 := session_regenerate req st1 in
            match req_login e user st2 with
            | Throw err => Ok (st2, next_err err)
            | Ok st3 => Ok (st3, {| status := 201; body := Json (user_json user) |})
            end
        end
    end in
  match attempt with
  | Ok r => r
  | Throw ZodError => (st, invalid "Invalid user data")
  | Throw _ => (st, message 500 "Failed to create user")
  end.

Definition post_login (e : env) (req : request) (st : State)
    : State * response :=
  match authenticate req st with
  | Throw err => (st, next_err err)
  | Ok None => (st, message 401 "Invalid credentials")
  | Ok (Some user) =>
      let st1 := session_regenerate req st in
      match req_login e user st1 with
      | Throw err => (st1, next_err err)
      | Ok st2 => (st2, {| status := 200; body := Json (user_json user) |})
      end
  end.

Definition post_logout (req : request) (st : State) : State * response :=
  let st1 := req_logout req st in
  let st2 := session_destroy req st1 in
  (st2, {| status := 200; body := Text "OK" |}).

Definition get_user (req : request) (st : State) : State * response :=
  match req_user req st with
  | None => (st, {| status := 401; body := Text "Unauthorized" |})
  | Some user => (st, {| status := 200; body := Json (user_json user) |})
  end.

(** *** Middleware *)

Definition requireAuth (req : request) (next : State → State * response)
    (st : State) : State * response :=
  match req_user req st with
  | None => (st, message 401 "Authentication required")
  | Some user =>
      if truthy (user !! "banned")
      then (req_logout req st, message 403 "Access denied")
      else next st
  end.

Definition requireAdmin (req : request) (next : State → State * response)
    (st : State) : State * response :=
  match req_user req st with
  | None => (st, message 401 "Authentication required")
  | Some user =>
      if truthy (user !! "banned")
      then (req_logout req st, message 403 "Access denied")
      else if decide (user !! "role" ≠ Some (VStr "admin"))
      then (st, message 403 "Admin access required")
      else next st
  end.

(** *** Handlers of [registerRoutes] *)

Definition get_users (st : State) : State * response :=
  (st, {| status := 200; body := JsonArray (user_json <$> getAllUsers st) |}).

(** [req.user?.id === req.params.id] *)
Definition targets_self (req : request) (id : string) (st : State) : bool :=
  bool_decide ((req_user req st ≫= (.!! "id")) = Some (VStr id)).

Definition patch_users_ban (e : env) (req : request) (id : string)
    (st : State) : State * response :=
  if targets_self req id st then (st, message 400 "Cannot ban yourself")
  else match banUser e id st with
       | Ok (st1, true) => (st1, message 200 "User banned successfully")
       | Ok (st1, false) => (st1, message 404 "User not found")
       | Throw _ => (st, message 500 "Failed to ban user")
       end.

Definition patch_users_unban (e : env) (id : string) (st : State)
    : State * response :=
  match unbanUser e id st with
  | Ok (st1, true) => (st1, message 200 "User unbanned successfully")
  | Ok (st1, false) => (st1, message 404 "User not found")
  | Throw _ => (st, message 500 "Failed to unban user")
  end.

Definition delete_users (req : request) (id : string) (st : State)
    : State * response :=
  if targets_self req id st then (st, message 400 "Cannot delete yourself")
  else match deleteUser id st with
       | (st1, true) => (st1, {| status := 204; body := Empty |})
       | (st1, false) => (st1, message 404 "User not found")
       end.

Definition get_events (st : State) : State * response :=
  (st, {| status := 200; body := JsonArray (getAllEvents st) |}).

Definition get_events_id (id : string) (st : State) : State * response :=
  match getEvent id st with
  | None => (st, message 404 "Event not found")
  | Some event => (st, {| status := 200; body := Json event |})
  end.

Definition post_events (e : env) (req : request) (st : State)
    : State * response :=
  match parse insertEventSchema (req_body req) with
  | Ok eventData =>
      let '(st1, event) := createEvent objectToString e eventData st in
      (st1, {| status := 201; body := Json event |})
  | Throw ZodError => (st, invalid "Invalid event data")
  | Throw _ => (st, message 500 "Failed to create event")
  end.

Definition patch_events (e : env) (req : request) (id : string)
    (st : State) : State * response :=
  match (eventData ← parse (partial insertEventSchema) (req_body req);
         updateEvent e id eventData st) with
  | Ok (st1, Some event) => (st1, {| status := 200; body := Json event |})
  | Ok (st1, None) => (st1, message 404 "Event not found")
  | Throw ZodError => (st, invalid "Invalid event data")
  | Throw _ => (st, message 500 "Failed to update event")
  end.

Definition delete_events (id : string) (st : State) : State * response :=
  match deleteEvent id st with
  | (st1, true) => (st1, {| status := 204; body := Empty |})
  | (st1, false) => (st1, message 404 "Event not found")
  end.

Definition post_qr_settings (e : env) (req : request) (st : State)
    : State * response :=
  let '(st1, settings) := createQrSettings e (req_body req) st in
  (st1, {| status := 201; body := Json settings |}).

Definition get_qr_settings (eventId : string) (st : State) : State * response :=
  match getQrSettings eventId st with
  | None => (st, message 404 "QR settings not found")
  | Some settings => (st, {| status := 200; body := Json settings |})
  end.

Definition patch_qr_settings (e : env) (req : request) (id : string)
    (st : State) : State * response :=
  match updateQrSettings e id (req_body req) st with
  | Ok (st1, Some settings) => (st1, {| status := 200; body := Json settings |})
  | Ok (st1, None) => (st1, message 404 "QR settings not found")
  | Throw _ => (st, message 500 "Failed to update QR settings")
  end.

Definition delete_qr_settings (id : string) (st : State) : State * response :=
  match deleteQrSettings id st with
  | (st1, true) => (st1, {| status := 204; body := Empty |})
  | (st1, false) => (st1, message 404 "QR settings not found")
  end.

(** The application: each route with the middleware it is registered
    with. *)
Definition registerRoutes (e : env) (req : request) (st : State)
    : State * response :=
  match req_route req with
  | GET_users => requireAdmin req get_users st
  | PATCH_users_ban id => requireAdmin req (patch_users_ban e req id) st
  | PATCH_users_unban id => requireAdmin req (patch_users_unban e id) st
  | DELETE_users id => requireAdmin req (delete_users req id) st
  | GET_events => get_events st
  | GET_events_id id => get_events_id id st
  | POST_events => post_events e req st
  | PATCH_events id => patch_events e req id st
  | DELETE_events id => delete_events id st
  | POST_qr_settings => requireAuth req (post_qr_settings e req) st
  | GET_qr_settings eventId => requireAuth req (get_qr_settings eventId) st
  | PATCH_qr_settings id => requireAuth req (patch_qr_settings e req id) st
  | DELETE_qr_settings id => requireAuth req (delete_qr_settings id) st
  | POST_register => post_register e req st
  | POST_login => post_login e req st
  | POST_logout => post_logout req st
  | GET_user => get_user req st
  end.

End Server.

(** ** The remaining methods of [DatabaseStorage] *)

Module DatabaseStorageRest.

Definition getEventsByUser (userId : string) (st : State) : list obj :=
  orderBy (desc "createdAt")
    (filter (eq "userId" (Some (VStr userId))) (events st)).

Definition createFormSchema (e : env) (insertSchema : obj) (st : State)
    : State * obj :=
  let '(rows, schema) :=
    db_insert e formSchemas_table insertSchema (formSchemas st) in
  (set_formSchemas st rows, schema).

Definition getFormSchema (eventId : string) (st : State) : option obj :=
  head (filter (eq "eventId" (Some (VStr eventId))) (formSchemas st)).

Definition deleteFormSchema (id : string) (st : State) : State * bool :=
  let '(rows, rowCount) :=
    db_delete (eq "id" (Some (VStr id))) (formSchemas st) in
  (set_formSchemas st rows, bool_decide (0 < rowCount)).

Definition createRegistration (e : env) (insertRegistration : obj)
    (st : State) : State * obj :=
  let '(rows, registration) :=
    db_insert e registrations_table insertRegistration (registrations st) in
  (set_registrations st rows, registration).

Definition getRegistration (id : string) (st : State) : option obj :=
  head (filter (eq "id" (Some (VStr id))) (registrations st)).

Definition getRegistrationsByEvent (eventId : string) (st : State)
    : list obj :=
  orderBy (desc "registeredAt")
    (filter (eq "eventId" (Some (VStr eventId))) (registrations st)).

Definition getAllRegistrations (st : State) : list obj :=
  orderBy (desc "registeredAt") (registrations st).

Definition deleteRegistration (id : string) (st : State) : State * bool :=
  let '(rows, rowCount) :=
    db_delete (eq "id" (Some (VStr id))) (registrations st) in
  (set_registrations st rows, bool_decide (0 < rowCount)).

(** The storage object: the database and the export counter, which lives
    in the memory of the process. *)
Record Storage := {
  db : State;
  exportCount : nat;
}.

Record Stats := {
  totalEvents : nat;
  totalRegistrations : nat;
  totalUsers : nat;
  activeQRs : nat;
  exports : nat;
}.

(** [select count( * )] gives the number of rows, and [Number(n) || 0] is
    that number. *)
Definition getStats (s : Storage) : Stats :=
  {| totalEvents := length (events (db s));
     totalRegistrations := length (registrations (db s));
     totalUsers := length (users (db s));
     activeQRs :=
       length (filter (eq "isActive" (Some (VBool true))) (events (db s)));
     exports := exportCount s |}.

Definition incrementExportCount (s : Storage) : Storage :=
  {| db := db s; exportCount := S (exportCount s) |}.

End DatabaseStorageRest.

(** ** The routes of [registerRoutes] for registrations, statistics and
    export ([server/routes.ts]) *)

Import DatabaseStorageRest.

(** [createInsertSchema(registrations)] without id and registeredAt. The
    jsonb column [customData] admits any JSON value, [null] or nothing. *)
Definition insertRegistrationSchema : list zfield :=
  [ required "eventId" (ZString 0 None);
    required "name" (ZString 0 None);
    required "phone" (ZString 0 None);
    nullish "position" (ZString 0 None);
    nullish "email" (ZString 0 None) ].

Definition is_json (v : val) : bool :=
  match v with
  | VDate _ => false
  | _ => true
  end.

Definition parse_registration (schema : list zfield) (input : obj)
    : result obj :=
  parsed ← parse schema input;
  match input !! "customData" with
  | None => Ok parsed
  | Some v =>
      if is_json v then Ok (<["customData" := v]> parsed) else Throw ZodError
  end.

Inductive open_route :=
  | GET_registrations (eventId : option string)   (* [req.query.eventId] *)
  | POST_registrations
  | PATCH_registrations (id : string)
  | DELETE_registrations (id : string)
  | GET_stats
  | POST_export.

Inductive open_body :=
  | Plain (r : response)
  | StatsJson (stats : Stats).

Definition get_registrations (eventId : option string) (st : State)
    : State * response :=
  let registrations :=
    match eventId with
    | Some eventId =>
        if negb (String.eqb eventId EmptyString)
        then getRegistrationsByEvent eventId st
        else getAllRegistrations st
    | None => getAllRegistrations st
    end in
  (st, {| status := 200; body := JsonArray registrations |}).

Definition post_registrations (e : env) (input : obj) (st : State)
    : State * response :=
  match parse_registration insertRegistrationSchema input with
  | Ok registrationData =>
      let '(st1, registration) := createRegistration e registrationData st in
      (st1, {| status := 201; body := Json registration |})
  | Throw ZodError => (st, invalid "Invalid registration data")
  | Throw _ => (st, message 500 "Failed to create registration")
  end.

Definition patch_registrations (id : string) (input : obj) (st : State)
    : State * response :=
  match (registrationData ←
           parse_registration (partial insertRegistrationSchema) input;
         updateRegistration id registrationData st) with
  | Ok (st1, Some registration) =>
      (st1, {| status := 200; body := Json registration |})
  | Ok (st1, None) => (st1, message 404 "Registration not found")
  | Throw ZodError => (st, invalid "Invalid registration data")
  | Throw _ => (st, message 500 "Failed to update registration")
  end.

Definition delete_registrations (id : string) (st : State)
    : State * response :=
  match deleteRegistration id st with
  | (st1, true) => (st1, {| status := 204; body := Empty |})
  | (st1, false) => (st1, message 404 "Registration not found")
  end.

Definition get_stats (s : Storage) : Storage * open_body :=
  (s, StatsJson (getStats s)).

Definition post_export (s : Storage) : Storage * open_body :=
  (incrementExportCount s,
   Plain (message 200 "Export count incremented")).

Definition with_db (s : Storage) (r : State * response) : Storage * open_body :=
  ({| db := r.1; exportCount := exportCount s |}, Plain r.2).

(** These routes are registered without middleware: the handlers get the
    request as it comes. *)
Definition registerOpenRoutes (e : env) (r : open_route) (input : obj)
    (s : Storage) : Storage * open_body :=
  match r with
  | GET_registrations eventId => with_db s (get_registrations eventId (db s))
  | POST_registrations => with_db s (post_registrations e input (db s))
  | PATCH_registrations id => with_db s (patch_registrations id input (db s))
  | DELETE_registrations id => with_db s (delete_registrations id (db s))
  | GET_stats => get_stats s
  | POST_export => post_export s
  end.

(** ** Session settings of [setupAuth] ([server/auth.ts]) *)

Module SessionSetup.

Definition placeholder_secret : string := "dev-secret-key-change-in-production".

Record SessionOptions := {
  secret : string;
  resave : bool;
  saveUninitialized : bool;
  cookie_secure : bool;
  cookie_httpOnly : bool;
  cookie_sameSite : string;
  cookie_maxAge : Z;          (* milliseconds *)
}.

(** [!process.env.X]: the variable is unset or empty. *)
Definition unset (x : option string) : bool :=
  match x with
  | None => true
  | Some s => String.eqb s EmptyString
  end.

Definition is_production (NODE_ENV : option string) : bool :=
  bool_decide (NODE_ENV = Some "production").

(** The start of [setupAuth]: [None] is the thrown "SESSION_SECRET
    environment variable must be set ..." error, otherwise the settings
    handed to express-session. *)
Definition setupAuth (NODE_ENV SESSION_SECRET : option string)
    : option SessionOptions :=
  if is_production NODE_ENV
     && (unset SESSION_SECRET
         || bool_decide (SESSION_SECRET = Some placeholder_secret))
  then None
  else Some
    {| secret := if unset SESSION_SECRET then placeholder_secret
                 else default placeholder_secret SESSION_SECRET;
       resave := false;
       saveUninitialized := false;
       cookie_secure := is_production NODE_ENV;
       cookie_httpOnly := true;
       cookie_sameSite := "lax";
       cookie_maxAge := 24 * 60 * 60 * 1000 |}.

End SessionSetup.

(** ** The form builder (the [FormBuilder] component) *)

Module FormBuilder.

Inductive fieldType :=
  | text | email | phone | textarea | select | checkbox | radio | file.

#[global] Instance fieldType_eq_dec : EqDecision fieldType.
Proof. solve_decision. Defined.

Record Validation := {
  minLength : option Z;
  maxLength : option Z;
  pattern : option string;
}.

(** [FormField] of [shared/schema.ts]. *)
Record FormField := {
  id : string;
  type : fieldType;
  label : string;
  placeholder : option string;
  required : bool;
  options : option (list string);
  validation : option Validation;
}.

(** [Partial<FormField>]: for each property, whether the object has it
    and with which value. *)
Record Updates := {
  set_id : option string;
  set_type : option fieldType;
  set_label : option string;
  set_placeholder : option (option string);
  set_required : option bool;
  set_options : option (option (list string));
  set_validation : option (option Validation);
}.

(** [{ ...field, ...updates }] *)
Definition spread (field : FormField) (updates : Updates) : FormField :=
  {| id := default (id field) (set_id updates);
     type := default (type field) (set_type updates);
     label := default (label field) (set_label updates);
     placeholder := default (placeholder field) (set_placeholder updates);
     required := default (required field) (set_required updates);
     options := default (options field) (set_options updates);
     validation := default (validation field) (set_validation updates) |}.

(** The [FIELD_TYPES] palette, in its order. *)
Definition FIELD_TYPES : list (fieldType * string) :=
  [ (text, "Text Input"); (email, "Email"); (phone, "Phone");
    (textarea, "Text Area"); (select, "Dropdown"); (checkbox, "Checkbox");
    (radio, "Radio Button"); (file, "File Upload") ].

(** The component state that the handlers read and set. An element of
    the [fields] array is a field or [undefined] ([None]). *)
Record BuilderState := {
  fields : list (option FormField);
  selectedField : option FormField;
}.

(** [field.id] on an array element: a TypeError on [undefined]. *)
Definition id_of (field : option FormField) : result string :=
  match field with
  | Some f => Ok (id f)
  | None => Throw TypeError
  end.

(** [addField]; [nanoid] is the identifier that [nanoid()] returns. *)
Definition addField (nanoid : string) (fieldType : fieldType)
    (st : BuilderState) : BuilderState :=
  let newField :=
    {| id := nanoid;
       type := fieldType;
       label :=
         match list_find (λ f, f.1 = fieldType) FIELD_TYPES with
         | Some (_, f) => f.2 +:+ " Field"
         | None => "undefined Field"
         end;
       placeholder := Some EmptyString;
       required := false;
       options :=
         match fieldType with
         | select | radio | checkbox => Some ["Option 1"; "Option 2"]
         | _ => None
         end;
       validation :=
         Some {| minLength := None; maxLength := None; pattern := None |} |} in
  {| fields := fields st ++ [Some newField];
     selectedField := Some newField |}.

(** [fields.map(field => field.id === fieldId ? {...field, ...updates} : field)] *)
Fixpoint map_update (fieldId : string) (updates : Updates)
    (fs : list (option FormField)) : result (list (option FormField)) :=
  match fs with
  | [] => Ok []
  | field :: rest =>
      i ← id_of field;
      rest' ← map_update fieldId updates rest;
      Ok ((if String.eqb i fieldId
           then (λ f, spread f updates) <$> field else field) :: rest')
  end.

Definition updateField (fieldId : string) (updates : Updates)
    (st : BuilderState) : result BuilderState :=
  updatedFields ← map_update fieldId updates (fields st);
  Ok {| fields := updatedFields;
        selectedField :=
          match selectedField st with
          | Some selected =>
              if String.eqb (id selected) fieldId
              then Some (spread selected updates) else Some selected
          | None => None
          end |}.

(** [fields.filter(field => field.id !== fieldId)] *)
Fixpoint filter_other (fieldId : string) (fs : list (option FormField))
    : result (list (option FormField)) :=
  match fs with
  | [] => Ok []
  | field :: rest =>
      i ← id_of field;
      rest' ← filter_other fieldId rest;
      Ok (if String.eqb i fieldId then rest' else field :: rest')
  end.

Definition removeField (fieldId : string) (st : BuilderState)
    : result BuilderState :=
  updatedFields ← filter_other fieldId (fields st);
  Ok {| fields := updatedFields;
        selectedField :=
          match selectedField st with
          | Some selected =>
              if String.eqb (id selected) fieldId then None else Some selected
          | None => None
          end |}.

(** The two [splice] calls of the reorder branch: the element at [source]
    is taken out ([undefined] when there is none) and put in at
    [destination], or at the end when [destination] is beyond it. *)
Definition reorder (source destination : nat) (fs : list (option FormField))
    : list (option FormField) :=
  let reorderedField := default None (fs !! source) in
  let newFields := delete source fs in
  take destination newFields ++ reorderedField :: drop destination newFields.

Record DropResult := {
  destination : option nat;      (* [destination?.index] *)
  source : nat;                  (* [source.index] *)
  drop_type : string;
}.

Definition handleDragEnd (nanoid : string) (drop : DropResult)
    (st : BuilderState) : result BuilderState :=
  match destination drop with
  | None => Ok st
  | Some dest =>
      if String.eqb (drop_type drop) "add-field" then
        match FIELD_TYPES !! source drop with
        | Some (fieldType, _) => Ok (addField nanoid fieldType st)
        | None => Throw TypeError
        end
      else if String.eqb (drop_type drop) "reorder-fields" then
        Ok {| fields := reorder (source drop) dest (fields st);
              selectedField := selectedField st |}
      else Ok st
  end.

End FormBuilder.

(** ** Notions used to state the properties *)

(** The characters of a string, and the part of it before the first
    occurrence of a separator. *)
Definition chars (s : string) : list ascii := list_ascii_of_string s.

Fixpoint before (sep : ascii) (s : string) : string :=
  match s with
  | EmptyString => EmptyString
  | String c rest =>
      if Ascii.eqb c sep then EmptyString else String c (before sep rest)
  end.

(** The request [req] with another body. *)
Definition with_body (req : request) (b : obj) : request :=
  {| req_route := req_route req; req_body := b; req_cookie := req_cookie req |}.

(** The request [req] with another session cookie, or none. *)
Definition with_cookie (req : request) (c : option string) : request :=
  {| req_route := req_route req; req_body := req_body req; req_cookie := c |}.

(** Routes registered with [requireAuth] or [requireAdmin]. *)
Definition gated (r : route) : Prop :=
  match r with
  | GET_users | PATCH_users_ban _ | PATCH_users_unban _ | DELETE_users _
  | POST_qr_settings | GET_qr_settings _ | PATCH_qr_settings _
  | DELETE_qr_settings _ => True
  | _ => False
  end.



(** The sanitized view of a user: exactly these six properties, and so no
    password. *)
Definition sanitized (o : obj) : Prop :=
  dom o = {[ "id"; "username"; "email"; "role"; "banned"; "createdAt" ]}
  ∧ o !! "password" = None.

(** Rows as the database returns them: one property per column of the
    table, NULL included. *)
Definition row_of (t : list column) (r : obj) : Prop :=
  dom r = list_to_set (column_names t).

Definition users_wf (st : State) : Prop := Forall (row_of users_table) (users st).

(** [r'] is [r] after a partial update of a row of table [t]: the columns
    that [patch] supplies take its values, [updatedAt] takes the time stamp
    if there is one, and every other property is as in [r]. *)
Definition patched (t : list column) (patch : obj) (stamp : option val)
    (r r' : obj) : Prop :=
  ∀ k, r' !! k =
       if decide (k = "updatedAt" ∧ is_Some stamp) then stamp
       else if decide (k ∈ column_names t)
            then from_option Some (r !! k) (patch !! k)
            else r !! k.

(** What an update by id makes of a table: the rows with that id are
    patched and the others are untouched; the first patched row is
    returned, or nothing when no row has the id, and then the table is
    as before. *)
Definition update_outcome (t : list column) (patch : obj)
    (stamp : option val) (id : string) (rows rows' : list obj)
    (returned : option obj) : Prop :=
  Forall2 (λ r r', if bool_decide (r !! "id" = Some (VStr id))
                   then patched t patch stamp r r' else r' = r) rows rows'
  ∧ match head (filter (eq "id" (Some (VStr id))) rows) with
    | Some r => ∃ r', returned = Some r' ∧ patched t patch stamp r r'
    | None => returned = None ∧ rows' = rows
    end.

(** What a delete by id makes of a table: the rows with that id are gone,
    the others stay in their order, the answer tells whether a row had the
    id, and when none had the table is as before. *)
Definition delete_outcome (id : string) (rows rows' : list obj)
    (found : bool) : Prop :=
  rows' `sublist_of` rows
  ∧ (∀ r, r ∈ rows' ↔ r ∈ rows ∧ r !! "id" ≠ Some (VStr id))
  ∧ (found = true ↔ ∃ r, r ∈ rows ∧ r !! "id" = Some (VStr id))
  ∧ (found = false → rows' = rows).

(** A body that [registrationSchema] accepts: username and email are
    strings of at most 255 characters and the password is a string of at
    least 6. *)
Definition valid_registration (input : obj) : Prop :=
  ∃ username email password,
    input !! "username" = Some (VStr username)
    ∧ input !! "email" = Some (VStr email)
    ∧ input !! "password" = Some (VStr password)
    ∧ (String.length username ≤ 255)%nat
    ∧ (String.length email ≤ 255)%nat
    ∧ (6 ≤ String.length password)%nat.

(** The row that a registration stores for the parsed body [userData]. *)
Definition registered_user (scrypt : string → string → nat → list byte)
    (e : env) (userData : obj) (password : string) : obj :=
  inserted_row e users_table
    (<["banned" := VBool false]>
       (<["role" := VStr "user"]>
          (<["password" :=
               VStr (toString_hex
                       (scrypt password (toString_hex (random16 e)) 64)
                     +:+ "." +:+ toString_hex (random16 e))]> userData))).

(** The session store after [regenerate] and [login]: the session of the
    request's cookie is gone and the new identifier is bound to the user. *)
Definition sessions_after_login (e : env) (req : request) (id : val)
    (old : gmap string val) : gmap string val :=
  <[sessionID e := id]>
    (match req_cookie req with
     | Some sid => delete sid old
     | None => old
     end).

(** Routes registered with [requireAdmin]. *)
Definition admin_route (r : route) : Prop :=
  match r with
  | GET_users | PATCH_users_ban _ | PATCH_users_unban _ | DELETE_users _ => True
  | _ => False
  end.

(** The row of a user after [banUser] ([banned] true) or [unbanUser]
    ([banned] false) at the time [now e]. *)
Definition flagged (e : env) (banned : bool) (r : obj) : obj :=
  <["updatedAt" := VDate (now e)]> (<["banned" := VBool banned]> r).

(** ** Sample data for concrete evaluations *)

Definition secret1_hash : string :=
  match hashPassword toy_scrypt [x01; x02] "secret1" with
  | Ok h => h
  | Throw _ => EmptyString
  end.

Definition user_row (id username role : string) (banned : bool)
    (created : Z) : obj :=
  {[ "id" := VStr id; "username" := VStr username;
     "email" := VStr (username +:+ "@x.com");
     "password" := VStr secret1_hash; "role" := VStr role;
     "banned" := VBool banned; "createdAt" := VDate created;
     "updatedAt" := VDate created ]}.

(** An administrator, a banned user and an ordinary user, each with a
    session, one event and one registration for it. *)
Definition sample_state : State :=
  {| users := [ user_row "u-0" "root" "admin" false 1;
                user_row "u-2" "bob" "user" true 2;
                user_row "u-3" "carol" "user" false 3 ];
     events := [ {[ "id" := VStr "ev-1"; "userId" := VStr "u-3";
                    "name" := VStr "Spring Fair"; "description" := VNull;
                    "eventDate" := VNull; "eventTime" := VNull;
                    "qrCodeUrl" := VNull;
                    "registrationUrl" := VStr "/register/u-3";
                    "isActive" := VBool true; "createdAt" := VDate 5;
                    "updatedAt" := VDate 5 ]} ];
     qrSettings := []; formSchemas := [];
     registrations := [ {[ "id" := VStr "r-1"; "eventId" := VStr "ev-1";
                           "name" := VStr "Bob"; "phone" := VStr "555-0100";
                           "position" := VNull; "email" := VNull;
                           "customData" := VDoc "{}";
                           "registeredAt" := VDate 7 ]} ];
     sessions := {[ "s-0" := VStr "u-0"; "s-2" := VStr "u-2";
                    "s-3" := VStr "u-3" ]} |}.

Definition request_of (r : route) (b : obj) (c : option string) : request :=
  {| req_route := r; req_body := b; req_cookie := c |}.

Definition credentials (username password : string) : obj :=
  {[ "username" := VStr username; "password" := VStr password ]}.

Definition empty_state : State :=
  {| users := []; events := []; qrSettings := []; formSchemas := [];
     registrations := []; sessions := ∅ |}.

Definition sample_env : env :=
  {| now := 1000; uuid := "u-1"; random16 := [x01; x02]; sessionID := "s-1" |}.

Definition sample_toString (v : val) : string := "[object Object]".

(** A registration body that asks for the admin role. *)
Definition alice_body : obj :=
  {[ "username" := VStr "alice"; "email" := VStr "alice@x.com";
     "password" := VStr "secret1"; "role" := VStr "admin";
     "banned" := VBool true ]}.

Definition register_alice : request :=
  {| req_route := POST_register; req_body := alice_body; req_cookie := None |}.


(** A valid body for [POST /api/events] and for [POST /api/registrations]. *)
Definition fair_body : obj :=
  {[ "userId" := VStr "u-3"; "name" := VStr "Autumn Fair";
     "id" := VStr "ev-1"; "isActive" := VBool false ]}.

Definition attendee_body : obj :=
  {[ "eventId" := VStr "ev-1"; "name" := VStr "Dana";
     "phone" := VStr "555-0101"; "customData" := VDoc "{diet: vegan}" ]}.

Definition later_env : env :=
  {| now := 2000; uuid := "u-9"; random16 := [x03; x04]; sessionID := "s-9" |}.

Definition sample_storage : Storage :=
  {| db := sample_state; exportCount := 4 |}.

(** A registration body with a password that is too short, and one for a
    new user. *)
Definition short_password_body : obj :=
  {[ "username" := VStr "dave"; "email" := VStr "dave@x.com";
     "password" := VStr "12345" ]}.

Definition erin_body : obj :=
  {[ "username" := VStr "erin"; "email" := VStr "erin@x.com";
     "password" := VStr "secret3" ]}.

(** The same body with the empty username. *)
Definition nameless_body : obj :=
  <["username" := VStr EmptyString]> erin_body.

(** The identifiers of the fields of a form, in their order; an
    [undefined] element has none. *)
Definition field_ids (fs : list (option FormBuilder.FormField)) : list string :=
  omap (fmap FormBuilder.id) fs.

(** A form builder in order: every element of [fields] is a field, no two
    fields share an identifier, and the selected field, if there is one,
    is one of the fields. *)
Definition builder_wf (st : FormBuilder.BuilderState) : Prop :=
  Forall is_Some (FormBuilder.fields st)
  ∧ NoDup (field_ids (FormBuilder.fields st))
  ∧ ∀ f, FormBuilder.selectedField st = Some f → Some f ∈ FormBuilder.fields st.

(** Where a dropped element lands: at [destination], or at the end of the
    list when [destination] is beyond it. *)
Definition landing (destination : nat) (fs : list (option FormBuilder.FormField))
    : nat :=
  destination `min` (length fs - 1).

Definition sample_field (i : string) (t : FormBuilder.fieldType) (l : string)
    : FormBuilder.FormField :=
  {| FormBuilder.id := i; FormBuilder.type := t; FormBuilder.label := l;
     FormBuilder.placeholder := None; FormBuilder.required := true;
     FormBuilder.options := None; FormBuilder.validation := None |}.

Definition sample_builder : FormBuilder.BuilderState :=
  {| FormBuilder.fields :=
       [ Some (sample_field "f-1" FormBuilder.text "Name");
         Some (sample_field "f-2" FormBuilder.email "Email");
         Some (sample_field "f-3" FormBuilder.phone "Phone") ];
     FormBuilder.selectedField :=
       Some (sample_field "f-2" FormBuilder.email "Email") |}.

Definition sample_drop : FormBuilder.DropResult :=
  {| FormBuilder.destination := Some 2; FormBuilder.source := 0;
     FormBuilder.drop_type := "reorder-fields" |}.

Definition palette_drop : FormBuilder.DropResult :=
  {| FormBuilder.destination := Some 1; FormBuilder.source := 4;
     FormBuilder.drop_type := "add-field" |}.

Definition qr_body : obj :=
  {[ "eventId" := VStr "ev-1"; "qrSize" := VNum 300 ]}.

(** * Properties *)

(** Closed decidable facts (membership in a column list, distinctness of
    column names, shape of the sample rows) are settled by evaluation. *)
Ltac by_evaluation := apply (bool_decide_unpack _); by vm_compute.

(** ** Credential hasher *)

Module HasherFacts.
Import Hasher.

Lemma hex_pair_decodes (b : byte) (rest : string) :
  Buffer_from_hex (String (hex_hi b) (String (hex_lo b) rest))
  = b :: Buffer_from_hex rest.
Proof. destruct b; reflexivity. Qed.

(** Decoding what [toString("hex")] wrote gives the buffer back. *)
Lemma Buffer_from_hex_toString (buf : list byte) :
  Buffer_from_hex (toString_hex buf) = buf.
Proof.
  induction buf as [|b buf IH]; [reflexivity|].
  cbn [toString_hex]. rewrite hex_pair_decodes. by rewrite IH.
Qed.

Lemma toString_hex_inj (a b : list byte) :
  toString_hex a = toString_hex b → a = b.
Proof.
  intros H. rewrite <- (Buffer_from_hex_toString a), H.
  apply Buffer_from_hex_toString.
Qed.

Lemma hex_hi_not_dot (b : byte) : Ascii.eqb (hex_hi b) "." = false.
Proof. destruct b; reflexivity. Qed.

Lemma hex_lo_not_dot (b : byte) : Ascii.eqb (hex_lo b) "." = false.
Proof. destruct b; reflexivity. Qed.

Lemma split_cons_other (c : ascii) (s : string) :
  Ascii.eqb c "." = false →
  split "." (String c s)
  = match split "." s with
    | piece :: pieces => String c piece :: pieces
    | [] => [String c EmptyString]
    end.
Proof. intros H. cbn [split]. by rewrite H. Qed.

(** Splitting at the first dot after a run of hexadecimal digits. *)
Lemma split_toString_hex_app (buf : list byte) (s : string) :
  split "." (toString_hex buf +:+ "." +:+ s) = toString_hex buf :: split "." s.
Proof.
  unfold String.app.
  induction buf as [|b buf IH]; [reflexivity|].
  cbn [toString_hex String.append].
  rewrite (split_cons_other _ _ (hex_hi_not_dot b)).
  rewrite (split_cons_other _ _ (hex_lo_not_dot b)).
  by rewrite IH.
Qed.

Lemma split_toString_hex (buf : list byte) :
  split "." (toString_hex buf) = [toString_hex buf].
Proof.
  induction buf as [|b buf IH]; [reflexivity|].
  cbn [toString_hex].
  rewrite (split_cons_other _ _ (hex_hi_not_dot b)).
  rewrite (split_cons_other _ _ (hex_lo_not_dot b)).
  by rewrite IH.
Qed.

Lemma timingSafeEqual_refl (a : list byte) : timingSafeEqual a a = Ok true.
Proof.
  unfold timingSafeEqual. rewrite Nat.eqb_refl.
  by rewrite bool_decide_eq_true_2.
Qed.

Section WithScrypt.
Variable scrypt : string → string → nat → list byte.

Lemma hashPassword_eq (salt : list byte) (password : string) :
  hashPassword scrypt salt password
  = Ok (toString_hex (scrypt password (toString_hex salt) 64)
          +:+ "." +:+ toString_hex salt).
Proof. reflexivity. Qed.

(** The stored credential is taken apart into the key and the salt it
    was built from. *)
Lemma comparePasswords_hashed (supplied password : string) (salt : list byte) :
  comparePasswords scrypt supplied
    (toString_hex (scrypt password (toString_hex salt) 64)
       +:+ "." +:+ toString_hex salt)
  = timingSafeEqual (scrypt password (toString_hex salt) 64)
                    (scrypt supplied (toString_hex salt) 64).
Proof.
  unfold comparePasswords.
  rewrite split_toString_hex_app, split_toString_hex. cbn.
  by rewrite Buffer_from_hex_toString.
Qed.

Lemma hashPassword_inj_salt (s1 s2 : list byte) (password : string) :
  hashPassword scrypt s1 password = hashPassword scrypt s2 password →
  s1 = s2.
Proof.
  rewrite !hashPassword_eq. intros [= H].
  apply (f_equal (split ".")) in H.
  unfold String.app in H.
  pose proof (split_toString_hex_app (scrypt password (toString_hex s1) 64)
                (toString_hex s1)) as H1.
  pose proof (split_toString_hex_app (scrypt password (toString_hex s2) 64)
                (toString_hex s2)) as H2.
  unfold String.app in H1, H2.
  rewrite H1, H2, !split_toString_hex in H.
  injection H as _ H. by apply toString_hex_inj.
Qed.

End WithScrypt.

End HasherFacts.

Module CompareFacts.
Import Hasher HasherFacts.

Lemma split_nonempty (sep : ascii) (s : string) : split sep s ≠ [].
Proof.
  destruct s as [|c s]; cbn [split]; [done|].
  destruct (Ascii.eqb c sep); [done|]. by destruct (split sep s).
Qed.

Lemma split_first (sep : ascii) (s : string) :
  split sep s !! 0%nat = Some (before sep s).
Proof.
  induction s as [|c s IH]; [reflexivity|].
  cbn [split before]. destruct (Ascii.eqb c sep); [reflexivity|].
  destruct (split sep s) as [|piece pieces]; [discriminate|].
  cbn in *. congruence.
Qed.

Lemma split_second (sep : ascii) (s : string) :
  is_Some (split sep s !! 1%nat) ↔ sep ∈ chars s.
Proof.
  unfold chars. induction s as [|c s IH]; cbn [split list_ascii_of_string].
  - split; [intros [? [=]] | intros H; inversion H].
  - destruct (Ascii.eqb_spec c sep) as [->|Hne].
    + split; [intros _; left|intros _].
      pose proof (split_nonempty sep s).
      destruct (split sep s); [done|]. by eexists.
    + pose proof (split_nonempty sep s).
      destruct (split sep s) as [|piece pieces]; [done|].
      cbn in *. rewrite IH. split; [by right|].
      intros H'. inversion H'; subst; [done|assumption].
Qed.

Section WithScrypt.
Variable scrypt : string → string → nat → list byte.

Lemma comparePasswords_unfold (supplied stored : string) :
  comparePasswords scrypt supplied stored
  = match split "." stored !! 1%nat with
    | None => Throw TypeError
    | Some salt =>
        timingSafeEqual (Buffer_from_hex (before "." stored))
                        (scrypt supplied salt 64)
    end.
Proof.
  unfold comparePasswords. rewrite split_first. cbn [default].
  by destruct (split "." stored !! 1%nat).
Qed.

End WithScrypt.

End CompareFacts.

Import Hasher HasherFacts CompareFacts.

(** C5. For every password, verifying it against its own hash succeeds;
    and two hashes of the same password made with distinct random salts
    are distinct credential strings, each of which verifies against the
    password. *)
Theorem hash_then_verify (scrypt : string → string → nat → list byte)
    (password : string) :
  (∀ salt, ∃ h,
      hashPassword scrypt salt password = Ok h
      ∧ comparePasswords scrypt password h = Ok true)
  ∧ (∀ salt1 salt2, salt1 ≠ salt2 →
      ∃ h1 h2,
        hashPassword scrypt salt1 password = Ok h1
        ∧ hashPassword scrypt salt2 password = Ok h2
        ∧ h1 ≠ h2
        ∧ comparePasswords scrypt password h1 = Ok true
        ∧ comparePasswords scrypt password h2 = Ok true).
Proof.
  assert (Hverify : ∀ salt, ∃ h,
             hashPassword scrypt salt password = Ok h
             ∧ comparePasswords scrypt password h = Ok true).
  { intros salt. eexists. split; [apply hashPassword_eq|].
    rewrite comparePasswords_hashed. apply timingSafeEqual_refl. }
  split; [exact Hverify|].
  intros salt1 salt2 Hne.
  destruct (Hverify salt1) as (h1 & Hh1 & Hc1).
  destruct (Hverify salt2) as (h2 & Hh2 & Hc2).
  exists h1, h2. repeat split; try assumption.
  intros ->. apply Hne.
  apply (hashPassword_inj_salt scrypt salt1 salt2 password). congruence.
Qed.

Lemma hash_then_verify_witness :
  ∃ h1 h2,
    hashPassword toy_scrypt [x01; x02] "secret1" = Ok h1
    ∧ hashPassword toy_scrypt [x03; x04] "secret1" = Ok h2
    ∧ h1 ≠ h2
    ∧ comparePasswords toy_scrypt "secret1" h1 = Ok true
    ∧ comparePasswords toy_scrypt "secret1" h2 = Ok true.
Proof.
  apply (proj2 (hash_then_verify toy_scrypt "secret1") [x01; x02] [x03; x04]).
  discriminate.
Defined.

(** C7, as stated, fails: on a stored string with a key part of the
    wrong length [comparePasswords] throws a RangeError instead of
    returning false, without a delimiter it throws a TypeError, and with a
    salt that is not hexadecimal it can even return true. *)
Lemma comparePasswords_malformed_counterexample :
  comparePasswords toy_scrypt "secret1" "abcd.0102" = Throw RangeError
  ∧ comparePasswords toy_scrypt "secret1" "abcd0102" = Throw TypeError
  ∧ comparePasswords toy_scrypt "secret1"
      (toString_hex (toy_scrypt "secret1" "zz" 64) +:+ ".zz") = Ok true.
Proof. repeat split; vm_compute; reflexivity. Qed.

(** C7, amended. [comparePasswords] returns a boolean exactly when the
    stored string has a '.' and the part before the first '.' decodes to
    64 bytes; this is the case for every credential [hashPassword] makes,
    so a secret that does not match is a plain false. On any other stored
    string it throws: a TypeError when there is no '.', a RangeError when
    the decoded key is not 64 bytes long. *)
Theorem comparePasswords_outcome (scrypt : string → string → nat → list byte)
    (scrypt_length : ∀ p s n, length (scrypt p s n) = n)
    (supplied stored : string) :
  (comparePasswords scrypt supplied stored = Throw TypeError
     ↔ "."%char ∉ chars stored)
  ∧ (comparePasswords scrypt supplied stored = Throw RangeError
     ↔ "."%char ∈ chars stored
       ∧ length (Buffer_from_hex (before "." stored)) ≠ 64%nat)
  ∧ ((∃ b, comparePasswords scrypt supplied stored = Ok b)
     ↔ "."%char ∈ chars stored
       ∧ length (Buffer_from_hex (before "." stored)) = 64%nat)
  ∧ (∀ salt password h,
       hashPassword scrypt salt password = Ok h →
       ∃ b, comparePasswords scrypt supplied h = Ok b).
Proof.
  assert (Hhashed : ∀ salt password h,
             hashPassword scrypt salt password = Ok h →
             ∃ b, comparePasswords scrypt supplied h = Ok b).
  { intros salt password h Hh. rewrite hashPassword_eq in Hh.
    injection Hh as <-. rewrite comparePasswords_hashed.
    unfold timingSafeEqual. rewrite !scrypt_length, Nat.eqb_refl. eauto. }
  rewrite comparePasswords_unfold.
  pose proof (split_second "." stored) as Hsnd.
  unfold timingSafeEqual.
  destruct (split "." stored !! 1%nat) as [salt|] eqn:Hsalt.
  - assert (Hin : "."%char ∈ chars stored) by (apply Hsnd; eauto).
    rewrite scrypt_length.
    destruct (Nat.eqb_spec (length (Buffer_from_hex (before "." stored))) 64)
      as [Heq|Hneq].
    + split; [split; [discriminate|done]|].
      split; [split; [discriminate|intros [_ ?]; done]|].
      split; [split; [done|eauto]|exact Hhashed].
    + split; [split; [discriminate|done]|].
      split; [split; done|].
      split; [split; [intros [? [=]]|intros [_ ?]; done]|exact Hhashed].
  - assert (Hnin : "."%char ∉ chars stored).
    { intros Hin. apply Hsnd in Hin. destruct Hin as [? [=]]. }
    split; [split; done|].
    split; [split; [discriminate|intros [? _]; done]|].
    split; [split; [intros [? [=]]|intros [? _]; done]|exact Hhashed].
Qed.

Lemma toy_scrypt_length (p s : string) (n : nat) :
  length (toy_scrypt p s n) = n.
Proof. destruct n; [reflexivity|]. cbn. by rewrite length_replicate. Qed.

Lemma comparePasswords_outcome_witness :
  (∀ p s n, length (toy_scrypt p s n) = n)
  ∧ (comparePasswords toy_scrypt "secret1" "abcd.0102" = Throw RangeError
     ↔ "."%char ∈ chars "abcd.0102"
       ∧ length (Buffer_from_hex (before "." "abcd.0102")) ≠ 64%nat).
Proof.
  split; [exact toy_scrypt_length|].
  exact (proj1 (proj2 (comparePasswords_outcome toy_scrypt toy_scrypt_length
                         "secret1" "abcd.0102"))).
Defined.

(** ** Tables *)

Module TableFacts.

Lemma inserted_row_lookup (e : env) (t : list column) (o : obj)
    (k : string) (d : coldefault) :
  NoDup (column_names t) →
  col k d ∈ t →
  inserted_row e t o !! k = Some (default (default_value e d) (o !! k)).
Proof.
  intros Hnd Hin. unfold inserted_row.
  apply elem_of_list_to_map_1.
  - rewrite <- list_fmap_compose. exact Hnd.
  - apply list_elem_of_fmap. exists (col k d). by split.
Qed.

Lemma inserted_row_dom (e : env) (t : list column) (o : obj) :
  dom (inserted_row e t o) = list_to_set (column_names t).
Proof.
  unfold inserted_row. rewrite dom_list_to_map_L.
  by rewrite <- list_fmap_compose.
Qed.

Lemma set_clause_lookup (t : list column) (values : obj) (k : string) :
  set_clause t values !! k
  = if decide (k ∈ column_names t) then values !! k else None.
Proof.
  unfold set_clause. rewrite map_lookup_filter.
  destruct (values !! k) as [v|]; cbn; [|by case_decide].
  destruct (decide (k ∈ column_names t)) as [Hk|Hk].
  - by rewrite option_guard_True.
  - by rewrite option_guard_False.
Qed.

Lemma set_clause_dom (t : list column) (values : obj) :
  dom (set_clause t values) ⊆ list_to_set (column_names t).
Proof.
  intros k Hk. apply elem_of_dom in Hk as [v Hv].
  rewrite set_clause_lookup in Hv. case_decide; [|done].
  by apply elem_of_list_to_set.
Qed.

(** A row after [SET]: the assigned columns take the given values, all
    other properties keep theirs. *)
Lemma assigned_lookup (t : list column) (values r : obj) (k : string) :
  (set_clause t values ∪ r) !! k
  = if decide (k ∈ column_names t)
    then match values !! k with Some v => Some v | None => r !! k end
    else r !! k.
Proof.
  rewrite lookup_union, set_clause_lookup.
  case_decide; destruct (values !! k), (r !! k); done.
Qed.

Lemma assigned_dom (t : list column) (values r : obj) :
  dom r = list_to_set (column_names t) →
  dom (set_clause t values ∪ r) = list_to_set (column_names t).
Proof.
  intros Hr. rewrite dom_union_L, Hr.
  apply subseteq_union_1_L, set_clause_dom.
Qed.

Lemma set_clause_nonempty (t : list column) (values : obj) (k : string) :
  k ∈ column_names t → is_Some (values !! k) → set_clause t values ≠ ∅.
Proof.
  intros Hk [v Hv] Hempty.
  assert (set_clause t values !! k = Some v) as Hl.
  { rewrite set_clause_lookup. by case_decide. }
  by rewrite Hempty, lookup_empty in Hl.
Qed.

Section Update.
Context (t : list column) (values : obj).
Context (P : obj → Prop) `{!∀ r, Decision (P r)}.

Lemma db_update_Ok (rows : list obj) :
  set_clause t values ≠ ∅ →
  db_update t values P rows
  = Ok ((λ r, if decide (P r) then set_clause t values ∪ r else r) <$> rows,
        (λ r, set_clause t values ∪ r) <$> filter P rows).
Proof. intros Hne. unfold db_update. by case_decide. Qed.

Lemma db_update_Throw (rows : list obj) :
  set_clause t values = ∅ → db_update t values P rows = Throw DatabaseError.
Proof. intros Hne. unfold db_update. by case_decide. Qed.

(** When no row is selected the table is unchanged. *)
Lemma update_none_selected (f : obj → obj) (rows : list obj) :
  filter P rows = [] →
  (λ r, if decide (P r) then f r else r) <$> rows = rows.
Proof.
  intros Hnone. induction rows as [|r rows IH]; [done|].
  rewrite filter_cons in Hnone. cbn. case_decide; [done|].
  by rewrite IH.
Qed.

End Update.

Lemma head_filter_Some {A} (P : A → Prop) `{!∀ x, Decision (P x)}
    (l : list A) (x : A) :
  head (filter P l) = Some x → P x ∧ x ∈ l.
Proof.
  intros Hhead. apply head_Some in Hhead as [l' Hl'].
  apply (list_elem_of_filter P l x). rewrite Hl'. left.
Qed.

Lemma users_columns_NoDup : NoDup (column_names users_table).
Proof. by_evaluation. Qed.

Lemma events_columns_NoDup : NoDup (column_names events_table).
Proof. by_evaluation. Qed.

End TableFacts.

(** ** zod *)

Module ZodFacts.

Lemma parse_Ok_lookup (schema : list zfield) (input o : obj) (k : string) :
  parse schema input = Ok o →
  o !! k = if decide (k ∈ zf_name <$> schema) then input !! k else None.
Proof.
  unfold parse. case_match; [|done]. intros [= <-].
  rewrite map_lookup_filter.
  destruct (input !! k) as [v|]; cbn [mbind option_bind]; [|by case_decide].
  destruct (decide (k ∈ zf_name <$> schema)).
  - by rewrite option_guard_True.
  - by rewrite option_guard_False.
Qed.

Lemma parse_Ok_valid (schema : list zfield) (input o : obj) (f : zfield) :
  parse schema input = Ok o → f ∈ schema →
  zvalid f (input !! zf_name f) = true.
Proof.
  unfold parse. case_match eqn:Hall; [|done]. intros _ Hin.
  rewrite forallb_forall in Hall. apply Hall. by apply list_elem_of_In.
Qed.

(** A property that the schema does not name has no influence on the
    result: it is not validated and it is stripped. *)
Lemma parse_insert_unknown (schema : list zfield) (input : obj)
    (k : string) (v : val) :
  k ∉ zf_name <$> schema →
  parse schema (<[k := v]> input) = parse schema input.
Proof.
  intros Hk. unfold parse.
  assert (Hvalid :
    forallb (λ f, zvalid f (<[k := v]> input !! zf_name f)) schema
    = forallb (λ f, zvalid f (input !! zf_name f)) schema).
  { induction schema as [|f schema IH]; [done|].
    rewrite fmap_cons in Hk. apply not_elem_of_cons in Hk as [Hf Hk].
    cbn [forallb]. rewrite (IH Hk).
    by rewrite lookup_insert_ne. }
  rewrite Hvalid. case_match; [|done]. f_equal.
  apply map_eq. intros j. rewrite !map_lookup_filter.
  destruct (decide (j = k)) as [->|Hne].
  - rewrite lookup_insert_eq.
    destruct (input !! k); cbn [mbind option_bind];
      by rewrite ?option_guard_False.
  - by rewrite lookup_insert_ne.
Qed.

End ZodFacts.

(** ** Registration *)

Module SessionFacts.

Lemma users_session_destroy (req : request) (st : State) :
  users (session_destroy req st) = users st.
Proof. unfold session_destroy. by destruct (req_cookie req). Qed.

Lemma users_req_login (e : env) (user : obj) (st st' : State) :
  req_login e user st = Ok st' → users st' = users st.
Proof.
  unfold req_login. destruct (user !! "id"); [|done].
  case_match; [|done]. by intros [= <-].
Qed.

End SessionFacts.

Import TableFacts ZodFacts SessionFacts.

(** C1. Whatever the body of a registration request holds, the user
    table is left as it was or gains exactly one row, and that row has
    role "user" and banned false; a role or banned value sent by the
    client changes nothing in what the endpoint does. *)
Theorem register_forces_role_and_banned
    (scrypt : string → string → nat → list byte)
    (e : env) (req : request) (st : State) :
  (users (post_register scrypt e req st).1 = users st
   ∨ ∃ user,
       users (post_register scrypt e req st).1 = users st ++ [user]
       ∧ user !! "role" = Some (VStr "user")
       ∧ user !! "banned" = Some (VBool false))
  ∧ (∀ role banned,
       post_register scrypt e
         (with_body req (<["role" := role]> (<["banned" := banned]> (req_body req))))
         st
       = post_register scrypt e req st).
Proof.
  split.
  - unfold post_register.
    destruct (parse registrationSchema (req_body req)) as [userData|err];
      cbn [mbind result_bind]; [|destruct err; by left].
    destruct (getUserByUsername _ st); [by left|].
    destruct (getUserByEmail _ st); [by left|].
    destruct (as_string (userData !! "password")) as [password|err];
      cbn [mbind result_bind]; [|destruct err; by left].
    rewrite hashPassword_eq. cbn [mbind result_bind].
    unfold createUser, db_insert.
    set (user := inserted_row e users_table _).
    assert (Hrole : user !! "role" = Some (VStr "user")).
    { unfold user.
      rewrite (inserted_row_lookup _ _ _ "role" (DefaultConst (VStr "user")));
        [by simplify_map_eq|apply users_columns_NoDup|].
      by_evaluation. }
    assert (Hbanned : user !! "banned" = Some (VBool false)).
    { unfold user.
      rewrite (inserted_row_lookup _ _ _ "banned" (DefaultConst (VBool false)));
        [by simplify_map_eq|apply users_columns_NoDup|].
      by_evaluation. }
    right. exists user.
    destruct (req_login e user _) as [st3|err] eqn:Hlogin; cbn [fst].
    + apply users_req_login in Hlogin.
      by rewrite Hlogin, users_session_destroy.
    + by rewrite users_session_destroy.
  - intros role banned. unfold post_register, with_body.
    cbn [req_body req_cookie].
    rewrite !parse_insert_unknown; [done| |];
      by_evaluation.
Qed.

(** A registration that asks for the admin role gets a plain user. *)
Example register_with_admin_role :
  status (post_register toy_scrypt sample_env register_alice empty_state).2
    = 201%nat
  ∧ (λ u, (u !! "username", u !! "role", u !! "banned"))
      <$> users (post_register toy_scrypt sample_env register_alice empty_state).1
    = [(Some (VStr "alice"), Some (VStr "user"), Some (VBool false))].
Proof. split; vm_compute; reflexivity. Qed.

(** ** Events *)



(** ** Middleware *)

Module MiddlewareFacts.

Lemma req_user_after_destroy (req req' : request) (st : State) (sid : string) :
  req_cookie req = Some sid → req_cookie req' = Some sid →
  req_user req' (session_destroy req st) = None.
Proof.
  intros Hreq Hreq'. unfold req_user, session_destroy.
  rewrite Hreq, Hreq'. cbn. by rewrite lookup_delete_eq.
Qed.

Lemma requireAuth_unauthenticated (req : request)
    (next : State → State * response) (st : State) :
  req_user req st = None →
  requireAuth req next st = (st, message 401 "Authentication required").
Proof. intros H. unfold requireAuth. by rewrite H. Qed.

Lemma requireAdmin_unauthenticated (req : request)
    (next : State → State * response) (st : State) :
  req_user req st = None →
  requireAdmin req next st = (st, message 401 "Authentication required").
Proof. intros H. unfold requireAdmin. by rewrite H. Qed.

Lemma requireAuth_banned (req : request) (next : State → State * response)
    (st : State) (user : obj) :
  req_user req st = Some user → truthy (user !! "banned") = true →
  requireAuth req next st = (session_destroy req st, message 403 "Access denied").
Proof. intros Hu Hb. unfold requireAuth. by rewrite Hu, Hb. Qed.

Lemma requireAdmin_banned (req : request) (next : State → State * response)
    (st : State) (user : obj) :
  req_user req st = Some user → truthy (user !! "banned") = true →
  requireAdmin req next st = (session_destroy req st, message 403 "Access denied").
Proof. intros Hu Hb. unfold requireAdmin. by rewrite Hu, Hb. Qed.

Lemma requireAdmin_admin (req : request) (next : State → State * response)
    (st : State) (user : obj) :
  req_user req st = Some user → truthy (user !! "banned") = false →
  user !! "role" = Some (VStr "admin") →
  requireAdmin req next st = next st.
Proof.
  intros Hu Hb Hr. unfold requireAdmin. rewrite Hu, Hb. by case_decide.
Qed.

End MiddlewareFacts.

Import MiddlewareFacts.

(** C3. When the session of a request is bound to a banned user,
    [requireAuth] and [requireAdmin] remove that session from the store and
    answer 403 without calling the handler behind them; so does every
    gated route, and any later gated request with the same session id is
    answered 401. *)
Theorem banned_session_is_destroyed
    (scrypt : string → string → nat → list byte)
    (objectToString : val → string)
    (req : request) (st : State) (sid : string) (user : obj) :
  req_cookie req = Some sid →
  req_user req st = Some user →
  truthy (user !! "banned") = true →
  (∀ next, requireAuth req next st
           = (set_sessions st (delete sid (sessions st)),
              message 403 "Access denied"))
  ∧ (∀ next, requireAdmin req next st
             = (set_sessions st (delete sid (sessions st)),
                message 403 "Access denied"))
  ∧ (∀ e, gated (req_route req) →
          registerRoutes scrypt objectToString e req st
          = (set_sessions st (delete sid (sessions st)),
             message 403 "Access denied"))
  ∧ (∀ e req', req_cookie req' = Some sid → gated (req_route req') →
          registerRoutes scrypt objectToString e req'
            (set_sessions st (delete sid (sessions st)))
          = (set_sessions st (delete sid (sessions st)),
             message 401 "Authentication required")).
Proof.
  intros Hcookie Huser Hbanned.
  assert (Hdestroy : session_destroy req st
                     = set_sessions st (delete sid (sessions st))).
  { unfold session_destroy. by rewrite Hcookie. }
  assert (Hauth : ∀ next, requireAuth req next st
                          = (set_sessions st (delete sid (sessions st)),
                             message 403 "Access denied")).
  { intros next. by rewrite (requireAuth_banned _ _ _ user), Hdestroy. }
  assert (Hadmin : ∀ next, requireAdmin req next st
                           = (set_sessions st (delete sid (sessions st)),
                              message 403 "Access denied")).
  { intros next. by rewrite (requireAdmin_banned _ _ _ user), Hdestroy. }
  split; [exact Hauth|]. split; [exact Hadmin|]. split.
  - intros e Hgated. unfold registerRoutes.
    destruct (req_route req); try done; first [apply Hauth | apply Hadmin].
  - intros e req' Hcookie' Hgated. rewrite <- Hdestroy.
    pose proof (req_user_after_destroy req req' st sid Hcookie Hcookie') as Hnone.
    unfold registerRoutes.
    destruct (req_route req'); try done;
      first [by apply requireAuth_unauthenticated
            |by apply requireAdmin_unauthenticated].
Qed.

Lemma banned_session_is_destroyed_witness :
  registerRoutes toy_scrypt sample_toString sample_env
    (request_of (GET_qr_settings "ev-1") ∅ (Some "s-2")) sample_state
  = (set_sessions sample_state (delete "s-2" (sessions sample_state)),
     message 403 "Access denied").
Proof.
  apply (proj1 (proj2 (proj2
    (banned_session_is_destroyed toy_scrypt sample_toString
       (request_of (GET_qr_settings "ev-1") ∅ (Some "s-2")) sample_state
       "s-2" (user_row "u-2" "bob" "user" true 2)
       eq_refl ltac:(vm_compute; reflexivity) eq_refl))) sample_env).
  exact I.
Defined.

(** ** Login *)



(** The same credentials log carol in, and bob's are the right ones for
    his account. *)
Example login_succeeds_for_carol :
  status (post_login toy_scrypt sample_env
            (request_of POST_login (credentials "carol" "secret1") None)
            sample_state).2 = 200%nat
  ∧ comparePasswords toy_scrypt "secret1" secret1_hash = Ok true.
Proof. split; vm_compute; reflexivity. Qed.

(** ** User administration *)

Module AdminFacts.

Lemma set_clause_id (t : list column) (values : obj) :
  (∀ k, is_Some (values !! k) → k ∈ column_names t) →
  set_clause t values = values.
Proof.
  intros Hcols. apply map_eq. intros k. rewrite set_clause_lookup.
  case_decide as Hk; [done|].
  destruct (values !! k) eqn:Hv; [|done].
  exfalso. apply Hk, Hcols. by rewrite Hv.
Qed.

Lemma eq_id_iff (id : string) (r : obj) :
  eq "id" (Some (VStr id)) r ↔ r !! "id" = Some (VStr id).
Proof. reflexivity. Qed.

(** The user of the request is the row that [getUser] finds under the
    user's own id. *)
Lemma req_user_getUser (req : request) (st : State) (user : obj) (id : string) :
  req_user req st = Some user → user !! "id" = Some (VStr id) →
  getUser (Some (VStr id)) st = Some user.
Proof.
  unfold req_user. destruct (req_cookie req) as [sid|]; [|done]. cbn.
  destruct (sessions st !! sid) as [idv|]; [|done]. cbn.
  intros Hget Hid. pose proof Hget as Hget'. unfold getUser in Hget'.
  apply head_filter_Some in Hget' as [Heq _].
  unfold eq in Heq. destruct idv; try done; rewrite Hid in Heq; congruence.
Qed.

Lemma targets_self_true (req : request) (st : State) (user : obj) (id : string) :
  req_user req st = Some user → user !! "id" = Some (VStr id) →
  targets_self req id st = true.
Proof.
  intros Hu Hid. unfold targets_self. rewrite Hu. cbn.
  by apply bool_decide_eq_true_2.
Qed.

Lemma unban_assignment (e : env) (r : obj) :
  set_clause users_table
    (<["updatedAt" := VDate (now e)]> {[ "banned" := VBool false ]}) ∪ r
  = <["updatedAt" := VDate (now e)]> (<["banned" := VBool false]> r).
Proof.
  rewrite set_clause_id.
  - by rewrite <- insert_union_l, <- insert_union_singleton_l.
  - intros k [v Hv].
    destruct (decide (k = "updatedAt")) as [->|];
      [by_evaluation|].
    rewrite lookup_insert_ne in Hv by done.
    apply lookup_singleton_Some in Hv as [<- _].
    by_evaluation.
Qed.

Lemma unbanUser_eq (e : env) (id : string) (st : State) :
  unbanUser e id st
  = Ok (set_users st
          ((λ r, if bool_decide (r !! "id" = Some (VStr id))
                 then <["updatedAt" := VDate (now e)]>
                        (<["banned" := VBool false]> r)
                 else r) <$> users st),
        bool_decide (is_Some (getUser (Some (VStr id)) st))).
Proof.
  unfold unbanUser. rewrite db_update_Ok.
  - cbn [mbind result_bind]. f_equal. f_equal.
    + f_equal. apply list_fmap_ext. intros _ r _.
      case_decide as Hid; rewrite eq_id_iff in Hid.
      * rewrite bool_decide_eq_true_2 by done. apply unban_assignment.
      * by rewrite bool_decide_eq_false_2.
    + rewrite length_fmap. unfold getUser.
      destruct (filter _ (users st)); cbn [length head].
      * rewrite (bool_decide_eq_false_2 (0 < 0)) by lia.
        symmetry. apply bool_decide_eq_false_2. by intros [? ?].
      * rewrite bool_decide_eq_true_2 by lia.
        symmetry. by apply bool_decide_eq_true_2.
  - apply (set_clause_nonempty _ _ "banned");
      [by_evaluation|].
    by rewrite lookup_insert_ne, lookup_singleton_eq.
Qed.

End AdminFacts.

Import AdminFacts.

(** C4, as stated, fails for unban: an administrator who unbans their
    own id gets 200, and their record is written (its [updatedAt] moves to
    the time of the request). *)
Lemma self_unban_counterexample :
  (registerRoutes toy_scrypt sample_toString sample_env
     (request_of (PATCH_users_unban "u-0") ∅ (Some "s-0")) sample_state).2
  = message 200 "User unbanned successfully"
  ∧ getUser (Some (VStr "u-0")) sample_state ≫= (.!! "updatedAt")
    = Some (VDate 1)
  ∧ getUser (Some (VStr "u-0"))
      (registerRoutes toy_scrypt sample_toString sample_env
         (request_of (PATCH_users_unban "u-0") ∅ (Some "s-0")) sample_state).1
      ≫= (.!! "updatedAt")
    = Some (VDate 1000).
Proof. repeat split; vm_compute; reflexivity. Qed.

(** C4, amended. For an administrator acting on their own id, whatever
    the body of the request: ban answers 400 "Cannot ban yourself" and
    delete answers 400 "Cannot delete yourself", both leaving the state
    untouched; unban has no such guard, it answers 200 and writes banned =
    false and a new [updatedAt] into the administrator's own row, leaving
    every other row as it was. *)
Theorem self_ban_and_delete_are_rejected
    (scrypt : string → string → nat → list byte)
    (objectToString : val → string)
    (e : env) (req : request) (st : State) (user : obj) (id : string) :
  req_user req st = Some user →
  truthy (user !! "banned") = false →
  user !! "role" = Some (VStr "admin") →
  user !! "id" = Some (VStr id) →
  (req_route req = PATCH_users_ban id →
     registerRoutes scrypt objectToString e req st
     = (st, message 400 "Cannot ban yourself"))
  ∧ (req_route req = DELETE_users id →
     registerRoutes scrypt objectToString e req st
     = (st, message 400 "Cannot delete yourself"))
  ∧ (req_route req = PATCH_users_unban id →
     registerRoutes scrypt objectToString e req st
     = (set_users st
          ((λ r, if bool_decide (r !! "id" = Some (VStr id))
                 then <["updatedAt" := VDate (now e)]>
                        (<["banned" := VBool false]> r)
                 else r) <$> users st),
        message 200 "User unbanned successfully")).
Proof.
  intros Huser Hbanned Hrole Hid.
  pose proof (targets_self_true req st user id Huser Hid) as Hself.
  split; [|split]; intros Hroute; unfold registerRoutes; rewrite Hroute;
    rewrite (requireAdmin_admin _ _ _ user) by done.
  - unfold patch_users_ban. by rewrite Hself.
  - unfold delete_users. by rewrite Hself.
  - unfold patch_users_unban. rewrite unbanUser_eq.
    rewrite (req_user_getUser req st user id Huser Hid).
    by rewrite bool_decide_eq_true_2.
Qed.

Lemma self_ban_and_delete_are_rejected_witness :
  registerRoutes toy_scrypt sample_toString sample_env
    (request_of (PATCH_users_ban "u-0") (credentials "x" "y") (Some "s-0"))
    sample_state
  = (sample_state, message 400 "Cannot ban yourself").
Proof.
  apply (proj1 (self_ban_and_delete_are_rejected toy_scrypt sample_toString
                  sample_env
                  (request_of (PATCH_users_ban "u-0") (credentials "x" "y")
                     (Some "s-0"))
                  sample_state (user_row "u-0" "root" "admin" false 1) "u-0"
                  ltac:(vm_compute; reflexivity) eq_refl eq_refl eq_refl)).
  reflexivity.
Defined.

(** ** The user view *)

Module ViewFacts.

Lemma row_of_users_lookup (user : obj) (k : string) :
  row_of users_table user → k ∈ column_names users_table →
  is_Some (user !! k).
Proof.
  unfold row_of. intros Hdom Hk. apply elem_of_dom. rewrite Hdom.
  by apply elem_of_list_to_set.
Qed.

Lemma user_json_sanitized (user : obj) :
  row_of users_table user → sanitized (user_json user).
Proof.
  intros Hrow.
  assert (Hcol : ∀ k, k ∈ column_names users_table → is_Some (user !! k))
    by (intros k; by apply row_of_users_lookup).
  destruct (Hcol "id") as [v1 H1]; [by_evaluation|].
  destruct (Hcol "username") as [v2 H2]; [by_evaluation|].
  destruct (Hcol "email") as [v3 H3]; [by_evaluation|].
  destruct (Hcol "role") as [v4 H4]; [by_evaluation|].
  destruct (Hcol "banned") as [v5 H5]; [by_evaluation|].
  destruct (Hcol "createdAt") as [v6 H6]; [by_evaluation|].
  unfold user_json, sanitized. rewrite H1, H2, H3, H4, H5, H6. cbn [literal].
  split.
  - rewrite !dom_insert_L, dom_empty_L. set_solver.
  - by rewrite !lookup_insert_ne, lookup_empty.
Qed.

Lemma getUser_row (id : option val) (st : State) (user : obj) :
  users_wf st → getUser id st = Some user → row_of users_table user.
Proof.
  intros Hwf Hget. apply head_filter_Some in Hget as [_ Hin].
  unfold users_wf in Hwf. rewrite Forall_forall in Hwf. by apply Hwf.
Qed.

Lemma getUserByUsername_row (username : option val) (st : State) (user : obj) :
  users_wf st → getUserByUsername username st = Some user →
  row_of users_table user.
Proof.
  intros Hwf Hget. apply head_filter_Some in Hget as [_ Hin].
  unfold users_wf in Hwf. rewrite Forall_forall in Hwf. by apply Hwf.
Qed.

Lemma req_user_row (req : request) (st : State) (user : obj) :
  users_wf st → req_user req st = Some user → row_of users_table user.
Proof.
  intros Hwf. unfold req_user.
  destruct (req_cookie req) as [sid|]; [|done]. cbn.
  destruct (sessions st !! sid) as [id|]; [|done]. cbn.
  by apply getUser_row.
Qed.

Lemma getAllUsers_rows (st : State) :
  users_wf st → Forall (row_of users_table) (getAllUsers st).
Proof.
  intros Hwf. unfold getAllUsers, orderBy.
  by rewrite merge_sort_Permutation.
Qed.

Section WithScrypt.
Variable scrypt : string → string → nat → list byte.

Lemma verify_Some (username password : option val) (st : State) (user : obj) :
  verify scrypt username password st = Ok (Some user) →
  getUserByUsername username st = Some user.
Proof.
  unfold verify. destruct (getUserByUsername username st) as [u|]; [|done].
  destruct (truthy (u !! "banned")); [done|].
  destruct (as_string (u !! "password")) as [stored|];
    cbn [mbind result_bind]; [|done].
  destruct (as_string password) as [supplied|];
    cbn [mbind result_bind]; [|done].
  destruct (comparePasswords scrypt supplied stored) as [[]|];
    cbn [mbind result_bind]; congruence.
Qed.

Lemma authenticate_Some (req : request) (st : State) (user : obj) :
  authenticate scrypt req st = Ok (Some user) →
  getUserByUsername (req_body req !! "username") st = Some user.
Proof.
  unfold authenticate. case_match; [|done]. apply verify_Some.
Qed.

End WithScrypt.

End ViewFacts.

Import ViewFacts.

(** C9. On a database whose user rows have all their columns, every
    successful answer of register, login, get-current-user and list-users
    carries user objects with exactly the properties id, username, email,
    role, banned and createdAt, hence without the password hash. *)
Theorem user_responses_are_sanitized
    (scrypt : string → string → nat → list byte)
    (objectToString : val → string)
    (e : env) (req : request) (st : State) :
  users_wf st →
  req_route req = POST_register ∨ req_route req = POST_login
  ∨ req_route req = GET_user ∨ req_route req = GET_users →
  status (registerRoutes scrypt objectToString e req st).2 = 200%nat
  ∨ status (registerRoutes scrypt objectToString e req st).2 = 201%nat →
  match body (registerRoutes scrypt objectToString e req st).2 with
  | Json o => sanitized o
  | JsonArray l => Forall sanitized l
  | _ => False
  end.
Proof.
  intros Hwf Hroute. unfold registerRoutes.
  destruct Hroute as [-> | [-> | [-> | ->]]].
  - (* register *)
    unfold post_register.
    destruct (parse registrationSchema (req_body req)) as [userData|err];
      cbn [mbind result_bind]; [|destruct err; intros [?|?]; done].
    destruct (getUserByUsername _ st); [intros [?|?]; done|].
    destruct (getUserByEmail _ st); [intros [?|?]; done|].
    destruct (as_string (userData !! "password")) as [password|err];
      cbn [mbind result_bind]; [|destruct err; intros [?|?]; done].
    rewrite hashPassword_eq. cbn [mbind result_bind].
    unfold createUser, db_insert.
    destruct (req_login e _ _) as [st3|err]; cbn [snd status body];
      [|intros [?|?]; done].
    intros _. apply user_json_sanitized, inserted_row_dom.
  - (* login *)
    unfold post_login.
    destruct (authenticate scrypt req st) as [[user|]|err] eqn:Hauth;
      [|intros [?|?]; done..].
    destruct (req_login e user _) as [st2|err]; cbn [snd status body];
      [|intros [?|?]; done].
    intros _. apply user_json_sanitized.
    apply authenticate_Some in Hauth.
    by apply (getUserByUsername_row (req_body req !! "username") st).
  - (* current user *)
    unfold get_user.
    destruct (req_user req st) as [user|] eqn:Huser; [|intros [?|?]; done].
    intros _. cbn [snd body]. apply user_json_sanitized.
    by apply (req_user_row req st).
  - (* list of users *)
    unfold requireAdmin.
    destruct (req_user req st) as [user|]; [|intros [?|?]; done].
    destruct (truthy (user !! "banned")); [intros [?|?]; done|].
    case_decide; [intros [?|?]; done|].
    intros _. unfold get_users. cbn [snd body].
    apply Forall_fmap. eapply Forall_impl; [by apply getAllUsers_rows|].
    intros user'. apply user_json_sanitized.
Qed.

Lemma sample_state_wf : users_wf sample_state.
Proof. unfold users_wf, row_of. by_evaluation. Qed.

Lemma user_responses_are_sanitized_witness :
  users_wf sample_state
  ∧ match body (registerRoutes toy_scrypt sample_toString sample_env
                  (request_of GET_users ∅ (Some "s-0")) sample_state).2 with
    | Json o => sanitized o
    | JsonArray l => Forall sanitized l
    | _ => False
    end.
Proof.
  split; [exact sample_state_wf|].
  apply (user_responses_are_sanitized toy_scrypt sample_toString sample_env
           (request_of GET_users ∅ (Some "s-0")) sample_state
           sample_state_wf).
  - right. right. right. reflexivity.
  - left. vm_compute. reflexivity.
Defined.

(** The list an administrator gets for the sample state: three users,
    newest first, none with a password property. *)
Example list_users_sample :
  match body (registerRoutes toy_scrypt sample_toString sample_env
                (request_of GET_users ∅ (Some "s-0")) sample_state).2 with
  | JsonArray l => (λ o, (o !! "username", o !! "password")) <$> l
  | _ => []
  end
  = [ (Some (VStr "carol"), None); (Some (VStr "bob"), None);
      (Some (VStr "root"), None) ].
Proof. vm_compute. reflexivity. Qed.

(** ** Partial updates *)

Module UpdateFacts.


Lemma patched_stamped (t : list column) (patch r : obj) (stamp : val) :
  "updatedAt" ∈ column_names t →
  patched t patch (Some stamp) r
    (set_clause t (<["updatedAt" := stamp]> patch) ∪ r).
Proof.
  intros Hcol k. rewrite assigned_lookup.
  destruct (decide (k = "updatedAt")) as [->|Hne].
  - rewrite (decide_True (P := "updatedAt" = "updatedAt" ∧ is_Some (Some stamp)))
      by eauto.
    rewrite decide_True by done. by rewrite lookup_insert_eq.
  - rewrite (decide_False (P := k = "updatedAt" ∧ is_Some (Some stamp)))
      by (intros [? _]; done).
    rewrite lookup_insert_ne by done.
    case_decide; [|done]. by destruct (patch !! k).
Qed.

Lemma stamped_nonempty (t : list column) (patch : obj) (stamp : val) :
  "updatedAt" ∈ column_names t →
  set_clause t (<["updatedAt" := stamp]> patch) ≠ ∅.
Proof.
  intros Hcol. apply (set_clause_nonempty _ _ "updatedAt"); [done|].
  by rewrite lookup_insert_eq.
Qed.

Section ById.
Context (t : list column) (values patch : obj) (stamp : option val).
Context (id : string).
Hypothesis values_patch : ∀ r, patched t patch stamp r (set_clause t values ∪ r).

Lemma updated_rows (rows : list obj) :
  Forall2 (λ r r', if bool_decide (r !! "id" = Some (VStr id))
                   then patched t patch stamp r r' else r' = r)
    rows
    ((λ r, if decide (eq "id" (Some (VStr id)) r)
           then set_clause t values ∪ r else r) <$> rows).
Proof.
  induction rows as [|r rows IH]; [constructor|].
  rewrite fmap_cons. constructor; [|exact IH].
  case_decide as Hid; unfold eq in Hid.
  - by rewrite bool_decide_eq_true_2.
  - by rewrite bool_decide_eq_false_2.
Qed.

Lemma db_update_outcome (rows : list obj) :
  set_clause t values ≠ ∅ →
  ∃ rows' returned,
    db_update t values (eq "id" (Some (VStr id))) rows = Ok (rows', returned)
    ∧ update_outcome t patch stamp id rows rows' (head returned).
Proof.
  intros Hne. rewrite db_update_Ok by done.
  eexists _, _. split; [reflexivity|]. split; [apply updated_rows|].
  destruct (filter _ rows) as [|r selected] eqn:Hsel; cbn [head fmap list_fmap].
  - split; [done|]. by apply update_none_selected.
  - eauto.
Qed.

End ById.

Lemma updateEvent_outcome (e : env) (id : string) (patch : obj) (st : State) :
  ∃ rows' returned,
    updateEvent e id patch st = Ok (set_events st rows', returned)
    ∧ update_outcome events_table patch (Some (VDate (now e))) id
        (events st) rows' returned.
Proof.
  assert (Hcol : "updatedAt" ∈ column_names events_table)
    by (by_evaluation).
  destruct (db_update_outcome events_table
              (<["updatedAt" := VDate (now e)]> patch) patch
              (Some (VDate (now e))) id
              (λ r, patched_stamped _ _ r _ Hcol) (events st)
              (stamped_nonempty _ _ _ Hcol)) as (rows' & returned & Hupd & Hout).
  exists rows', (head returned). unfold updateEvent. by rewrite Hupd.
Qed.



End UpdateFacts.

Import UpdateFacts.





(** An update of carol's email at time 1000: the email and [updatedAt]
    change, the role and the creation time do not. *)
Example updateUser_sample :
  match updateUser sample_env "u-3" {[ "email" := VStr "carol@y.org" ]}
          sample_state with
  | Ok (_, Some r') =>
      (r' !! "email", r' !! "updatedAt", r' !! "role", r' !! "createdAt")
  | _ => (None, None, None, None)
  end
  = (Some (VStr "carol@y.org"), Some (VDate 1000), Some (VStr "user"),
     Some (VDate 3)).
Proof. vm_compute. reflexivity. Qed.

(** ** Event routes *)



(** ** The shape of user rows is an invariant of the application *)

Module InvariantFacts.

Lemma users_wf_same (st st' : State) :
  users st' = users st → users_wf st → users_wf st'.
Proof. unfold users_wf. by intros ->. Qed.

Lemma users_wf_session_destroy (req : request) (st : State) :
  users_wf st → users_wf (session_destroy req st).
Proof. apply users_wf_same, users_session_destroy. Qed.

Lemma users_wf_update (values : obj) (P : obj → Prop)
    `{!∀ r, Decision (P r)} (st : State) (rows returned : list obj) :
  users_wf st →
  db_update users_table values P (users st) = Ok (rows, returned) →
  users_wf (set_users st rows).
Proof.
  unfold users_wf, db_update. intros Hwf. case_decide; [done|].
  intros [= <- _]. cbn [users set_users].
  apply Forall_fmap. eapply Forall_impl; [exact Hwf|].
  intros r Hr. cbn. case_decide; [|done]. by apply assigned_dom.
Qed.

Lemma users_wf_delete (P : obj → Prop) `{!∀ r, Decision (P r)} (st : State) :
  users_wf st → users_wf (set_users st (db_delete P (users st)).1).
Proof.
  unfold users_wf, db_delete. cbn [fst users set_users].
  rewrite !Forall_forall. intros Hwf r Hr.
  apply list_elem_of_filter in Hr as [_ Hr]. by apply Hwf.
Qed.

Lemma users_wf_requireAuth (req : request)
    (next : State → State * response) (st : State) :
  (users_wf st → users_wf (next st).1) →
  users_wf st → users_wf (requireAuth req next st).1.
Proof.
  intros Hnext Hwf. unfold requireAuth.
  destruct (req_user req st) as [user|]; [|done].
  destruct (truthy (user !! "banned")); [|by apply Hnext].
  by apply users_wf_session_destroy.
Qed.

Lemma users_wf_requireAdmin (req : request)
    (next : State → State * response) (st : State) :
  (users_wf st → users_wf (next st).1) →
  users_wf st → users_wf (requireAdmin req next st).1.
Proof.
  intros Hnext Hwf. unfold requireAdmin.
  destruct (req_user req st) as [user|]; [|done].
  destruct (truthy (user !! "banned"));
    [by apply users_wf_session_destroy|].
  case_decide; [done|by apply Hnext].
Qed.

Lemma users_wf_empty : users_wf empty_state.
Proof. constructor. Qed.

(** Every request leaves the user table with rows that have all their
    columns. *)
Lemma registerRoutes_users_wf
    (scrypt : string → string → nat → list byte)
    (objectToString : val → string)
    (e : env) (req : request) (st : State) :
  users_wf st → users_wf (registerRoutes scrypt objectToString e req st).1.
Proof.
  intros Hwf. unfold registerRoutes.
  destruct (req_route req) as
    [|id|id|id| |id| |id|id| |eventId|id|id| | | |].
  - by apply users_wf_requireAdmin.
  - apply users_wf_requireAdmin; [|done]. intros _.
    unfold patch_users_ban. case_match; [done|].
    unfold banUser.
    destruct (db_update _ _ _ _) as [[rows updated]|err] eqn:Hupd;
      cbn [mbind result_bind]; [|done].
    apply users_wf_update in Hupd; [|done]. by case_match.
  - apply users_wf_requireAdmin; [|done]. intros _.
    unfold patch_users_unban, unbanUser.
    destruct (db_update _ _ _ _) as [[rows updated]|err] eqn:Hupd;
      cbn [mbind result_bind]; [|done].
    apply users_wf_update in Hupd; [|done]. by case_match.
  - apply users_wf_requireAdmin; [|done]. intros _.
    unfold delete_users. case_match; [done|].
    unfold deleteUser.
    pose proof (users_wf_delete (eq "id" (Some (VStr id))) st Hwf) as Hdel.
    destruct (db_delete _ _) as [rows rowCount]. by case_match.
  - done.
  - unfold get_events_id. by case_match.
  - unfold post_events. repeat case_match; try done.
    unfold createEvent, db_insert in *. by simplify_eq.
  - unfold patch_events.
    destruct (parse _ _) as [eventData|err]; cbn [mbind result_bind];
      [|by destruct err].
    unfold updateEvent.
    destruct (db_update _ _ _ _) as [[rows returned]|err];
      cbn [mbind result_bind]; [by case_match|by destruct err].
  - unfold delete_events, deleteEvent.
    destruct (db_delete _ _) as [rows rowCount]. by case_match.
  - apply users_wf_requireAuth; [|done]. intros _.
    unfold post_qr_settings, createQrSettings, db_insert. done.
  - apply users_wf_requireAuth; [|done]. intros _.
    unfold get_qr_settings. by case_match.
  - apply users_wf_requireAuth; [|done]. intros _.
    unfold patch_qr_settings, updateQrSettings.
    destruct (db_update _ _ _ _) as [[rows returned]|err];
      cbn [mbind result_bind]; [by case_match|done].
  - apply users_wf_requireAuth; [|done]. intros _.
    unfold delete_qr_settings, deleteQrSettings.
    destruct (db_delete _ _) as [rows rowCount]. by case_match.
  - unfold post_register.
    destruct (parse registrationSchema (req_body req)) as [userData|err];
      cbn [mbind result_bind]; [|by destruct err].
    destruct (getUserByUsername _ st); [done|].
    destruct (getUserByEmail _ st); [done|].
    destruct (as_string (userData !! "password")) as [password|err];
      cbn [mbind result_bind]; [|by destruct err].
    rewrite hashPassword_eq. cbn [mbind result_bind].
    unfold createUser, db_insert.
    set (user := inserted_row e users_table _).
    assert (Hwf' : users_wf (set_users st (users st ++ [user]))).
    { unfold users_wf. cbn [users set_users]. apply Forall_app. split; [done|].
      constructor; [apply inserted_row_dom|constructor]. }
    destruct (req_login e user _) as [st3|err] eqn:Hlogin; cbn [fst].
    + apply users_req_login in Hlogin.
      eapply users_wf_same; [|exact Hwf'].
      by rewrite Hlogin, users_session_destroy.
    + by apply users_wf_session_destroy.
  - unfold post_login.
    destruct (authenticate scrypt req st) as [[user|]|err]; [|done..].
    destruct (req_login e user _) as [st2|err] eqn:Hlogin; cbn [fst].
    + apply users_req_login in Hlogin.
      eapply users_wf_same; [|exact Hwf].
      by rewrite Hlogin, users_session_destroy.
    + by apply users_wf_session_destroy.
  - unfold post_logout, req_logout, session_regenerate. cbn [fst].
    by do 2 apply users_wf_session_destroy.
  - unfold get_user. by case_match.
Qed.

End InvariantFacts.

(** * Further properties of the code *)

(** ** Credential hasher *)

Module HasherMore.

Lemma length_toString_hex (buf : list byte) :
  String.length (toString_hex buf) = 2 * length buf.
Proof. induction buf as [|b buf IH]; cbn; [done|]. rewrite IH. lia. Qed.

Lemma length_string_app (s1 s2 : string) :
  String.length (s1 +:+ s2) = String.length s1 + String.length s2.
Proof.
  unfold String.app. induction s1 as [|c s1 IH]; cbn; [done|]. by rewrite IH.
Qed.

Lemma Buffer_from_hex_stops (c : ascii) (rest : string) :
  hex_value c = None → Buffer_from_hex (String c rest) = [].
Proof. intros Hc. destruct rest; cbn; [done|]. by rewrite Hc. Qed.

Lemma Buffer_from_hex_app_stops (buf : list byte) (c : ascii) (rest : string) :
  hex_value c = None →
  Buffer_from_hex (toString_hex buf +:+ String c rest) = buf.
Proof.
  intros Hc. unfold String.app.
  induction buf as [|b buf IH]; cbn [toString_hex String.append].
  - by apply Buffer_from_hex_stops.
  - rewrite hex_pair_decodes. by rewrite IH.
Qed.

End HasherMore.

Import HasherMore.

(** X1. Hexadecimal encoding and decoding of buffers: the text of a
    buffer has two characters per byte, decoding it gives the buffer back,
    and decoding stops silently at the first character that is not a
    hexadecimal digit, keeping what was decoded before it. *)
Theorem hex_round_trip (buf : list byte) :
  String.length (toString_hex buf) = 2 * length buf
  ∧ Buffer_from_hex (toString_hex buf) = buf
  ∧ (∀ c rest, hex_value c = None →
       Buffer_from_hex (toString_hex buf +:+ String c rest) = buf).
Proof.
  split; [apply length_toString_hex|].
  split; [apply Buffer_from_hex_toString|].
  intros c rest. apply Buffer_from_hex_app_stops.
Qed.

(** X2. Against a credential made by [hashPassword], [comparePasswords]
    answers whether the key derived from the supplied password with the
    stored salt equals the stored key: a wrong password is accepted only
    if the two derived keys collide. *)
Theorem comparePasswords_compares_keys
    (scrypt : string → string → nat → list byte)
    (supplied password : string) (salt : list byte) (h : string) :
  (∀ p s n, length (scrypt p s n) = n) →
  hashPassword scrypt salt password = Ok h →
  comparePasswords scrypt supplied h
  = Ok (bool_decide (scrypt password (toString_hex salt) 64
                     = scrypt supplied (toString_hex salt) 64)).
Proof.
  intros Hlen Hh. rewrite hashPassword_eq in Hh. injection Hh as <-.
  rewrite comparePasswords_hashed. unfold timingSafeEqual.
  by rewrite !Hlen, Nat.eqb_refl.
Qed.

Lemma comparePasswords_compares_keys_witness :
  (∀ p s n, length (toy_scrypt p s n) = n)
  ∧ hashPassword toy_scrypt [x01; x02] "secret1" = Ok secret1_hash
  ∧ comparePasswords toy_scrypt "secret2" secret1_hash
    = Ok (bool_decide (toy_scrypt "secret1" (toString_hex [x01; x02]) 64
                       = toy_scrypt "secret2" (toString_hex [x01; x02]) 64)).
Proof.
  split; [exact toy_scrypt_length|]. split; [reflexivity|].
  apply (comparePasswords_compares_keys toy_scrypt "secret2" "secret1"
           [x01; x02] secret1_hash toy_scrypt_length).
  reflexivity.
Defined.

(** X3. The credential that [hashPassword] stores for a 16-byte salt and
    a 64-byte key is 161 characters long and splits at '.' into exactly
    two parts, the key in hexadecimal and the salt in hexadecimal. *)
Theorem hashPassword_format
    (scrypt : string → string → nat → list byte)
    (password : string) (salt : list byte) (h : string) :
  (∀ p s n, length (scrypt p s n) = n) →
  length salt = 16%nat →
  hashPassword scrypt salt password = Ok h →
  String.length h = 161%nat
  ∧ split "." h
    = [ toString_hex (scrypt password (toString_hex salt) 64);
        toString_hex salt ].
Proof.
  intros Hlen Hsalt Hh. rewrite hashPassword_eq in Hh. injection Hh as <-.
  split.
  - rewrite !length_string_app, !length_toString_hex, Hlen, Hsalt.
    reflexivity.
  - by rewrite split_toString_hex_app, split_toString_hex.
Qed.

Lemma hashPassword_format_witness :
  (∀ p s n, length (toy_scrypt p s n) = n)
  ∧ String.length
      (default EmptyString
         (match hashPassword toy_scrypt (replicate 16 x0a) "secret1" with
          | Ok h => Some h | Throw _ => None end))
    = 161%nat.
Proof.
  split; [exact toy_scrypt_length|].
  apply (hashPassword_format toy_scrypt "secret1" (replicate 16 x0a) _
           toy_scrypt_length); reflexivity.
Defined.

(** ** Storage *)

Module StorageMore.

Lemma set_users_id (st : State) : set_users st (users st) = st.
Proof. by destruct st. Qed.

Lemma set_events_id (st : State) : set_events st (events st) = st.
Proof. by destruct st. Qed.

Lemma set_qrSettings_id (st : State) : set_qrSettings st (qrSettings st) = st.
Proof. by destruct st. Qed.

Lemma set_formSchemas_id (st : State) : set_formSchemas st (formSchemas st) = st.
Proof. by destruct st. Qed.

Lemma set_registrations_id (st : State) :
  set_registrations st (registrations st) = st.
Proof. by destruct st. Qed.

#[global] Instance desc_total (column : string) : Total (desc column).
Proof.
  intros r1 r2. unfold desc.
  destruct (timestamp_of column r1), (timestamp_of column r2); try tauto.
  lia.
Qed.

#[global] Instance desc_transitive (column : string) : Transitive (desc column).
Proof.
  intros r1 r2 r3. unfold desc.
  destruct (timestamp_of column r1), (timestamp_of column r2),
    (timestamp_of column r3); try tauto.
  lia.
Qed.

Lemma orderBy_desc_sorted (column : string) (rows : list obj) :
  StronglySorted (desc column) (orderBy (desc column) rows)
  ∧ orderBy (desc column) rows ≡ₚ rows.
Proof.
  unfold orderBy. split.
  - apply StronglySorted_merge_sort; apply _.
  - apply merge_sort_Permutation.
Qed.

Section Delete.
Context (P : obj → Prop) `{!∀ r, Decision (P r)}.

Lemma filter_none_selected (rows : list obj) :
  filter P rows = [] → filter (λ r, ¬ P r) rows = rows.
Proof.
  induction rows as [|r rows IH]; [done|].
  rewrite !filter_cons. case_decide as Hr; [done|].
  intros Hnone. rewrite decide_True by done. by rewrite IH.
Qed.

Lemma filter_nil_iff (rows : list obj) :
  filter P rows = [] ↔ ¬ ∃ r, r ∈ rows ∧ P r.
Proof.
  split.
  - intros Hnil (r & Hin & Hr).
    assert (r ∈ filter P rows) as Hf by by apply list_elem_of_filter.
    rewrite Hnil in Hf. by apply not_elem_of_nil in Hf.
  - intros Hnone. destruct (filter P rows) as [|r l] eqn:Hf; [done|].
    exfalso. apply Hnone. exists r.
    assert (r ∈ filter P rows) as Hin by (rewrite Hf; left).
    apply list_elem_of_filter in Hin. tauto.
Qed.

End Delete.

Lemma db_delete_outcome (id : string) (rows : list obj) :
  delete_outcome id rows
    (db_delete (eq "id" (Some (VStr id))) rows).1
    (bool_decide (0 < (db_delete (eq "id" (Some (VStr id))) rows).2)).
Proof.
  unfold db_delete, delete_outcome. cbn [fst snd].
  split; [apply sublist_filter|]. split; [|split].
  - intros r. rewrite list_elem_of_filter. unfold eq. tauto.
  - rewrite bool_decide_eq_true. split.
    + intros Hlen. destruct (filter _ rows) as [|r l] eqn:Hf; [cbn in Hlen; lia|].
      assert (r ∈ filter (eq "id" (Some (VStr id))) rows) as Hin
        by (rewrite Hf; left).
      apply list_elem_of_filter in Hin as [Hr Hin]. by exists r.
    + intros (r & Hin & Hr).
      assert (r ∈ filter (eq "id" (Some (VStr id))) rows) as Hf
        by by apply list_elem_of_filter.
      destruct (filter _ rows); [by apply not_elem_of_nil in Hf|cbn; lia].
  - rewrite bool_decide_eq_false. intros Hlen.
    apply filter_none_selected.
    destruct (filter _ rows); [done|cbn in Hlen; lia].
Qed.

(** The first row selected after an update that keeps the selecting
    property of every row. *)
Lemma head_filter_fmap (P : obj → Prop) `{!∀ r, Decision (P r)}
    (f : obj → obj) (rows : list obj) :
  (∀ r, P (f r) ↔ P r) →
  head (filter P (f <$> rows)) = f <$> head (filter P rows).
Proof.
  intros Hf. induction rows as [|r rows IH]; [done|].
  rewrite fmap_cons, !filter_cons.
  destruct (decide (P r)) as [Hr|Hr].
  - rewrite decide_True by by apply Hf. done.
  - rewrite decide_False by by rewrite Hf. done.
Qed.

Lemma head_filter_app_fresh (P : obj → Prop) `{!∀ r, Decision (P r)}
    (rows : list obj) (r : obj) :
  filter P rows = [] → P r → head (filter P (rows ++ [r])) = Some r.
Proof.
  intros Hnone Hr. rewrite filter_app, Hnone.
  by rewrite filter_cons_True.
Qed.

End StorageMore.

Import StorageMore.

(** X4. The list methods return all rows of their table, newest first:
    the result is a rearrangement of the table in which every row is at
    least as recent (by createdAt, for registrations by registeredAt) as
    all rows after it, rows without a time first. *)
Theorem lists_are_newest_first (st : State) :
  (getAllUsers st ≡ₚ users st
   ∧ StronglySorted (desc "createdAt") (getAllUsers st))
  ∧ (getAllEvents st ≡ₚ events st
     ∧ StronglySorted (desc "createdAt") (getAllEvents st))
  ∧ (getAllRegistrations st ≡ₚ registrations st
     ∧ StronglySorted (desc "registeredAt") (getAllRegistrations st)).
Proof.
  unfold getAllUsers, getAllEvents, getAllRegistrations.
  repeat split; apply orderBy_desc_sorted.
Qed.

(** X5. The filtered list methods return exactly the rows of the given
    owner (events) or event (registrations), each as often as the table
    has it, newest first. *)
Theorem filtered_lists_are_exact (id : string) (st : State) :
  (getEventsByUser id st
     ≡ₚ filter (eq "userId" (Some (VStr id))) (events st)
   ∧ (∀ r, r ∈ getEventsByUser id st
           ↔ r ∈ events st ∧ r !! "userId" = Some (VStr id))
   ∧ StronglySorted (desc "createdAt") (getEventsByUser id st))
  ∧ (getRegistrationsByEvent id st
       ≡ₚ filter (eq "eventId" (Some (VStr id))) (registrations st)
     ∧ (∀ r, r ∈ getRegistrationsByEvent id st
             ↔ r ∈ registrations st ∧ r !! "eventId" = Some (VStr id))
     ∧ StronglySorted (desc "registeredAt") (getRegistrationsByEvent id st)).
Proof.
  unfold getEventsByUser, getRegistrationsByEvent.
  split; (split; [apply orderBy_desc_sorted|]);
    (split; [|apply orderBy_desc_sorted]); intros r;
    rewrite (proj2 (orderBy_desc_sorted _ _)), list_elem_of_filter;
    unfold eq; tauto.
Qed.

(** X6. Every delete method removes the rows with the given id and no
    other row, keeps the order of the rest, and returns true exactly when
    a row had the id; when none had, it returns false and the state is
    unchanged. *)
Theorem deletes_remove_by_id (id : string) (st : State) :
  (∃ rows', (deleteUser id st).1 = set_users st rows'
            ∧ delete_outcome id (users st) rows' (deleteUser id st).2)
  ∧ (∃ rows', (deleteEvent id st).1 = set_events st rows'
              ∧ delete_outcome id (events st) rows' (deleteEvent id st).2)
  ∧ (∃ rows', (deleteQrSettings id st).1 = set_qrSettings st rows'
              ∧ delete_outcome id (qrSettings st) rows'
                  (deleteQrSettings id st).2)
  ∧ (∃ rows', (deleteFormSchema id st).1 = set_formSchemas st rows'
              ∧ delete_outcome id (formSchemas st) rows'
                  (deleteFormSchema id st).2)
  ∧ (∃ rows', (deleteRegistration id st).1 = set_registrations st rows'
              ∧ delete_outcome id (registrations st) rows'
                  (deleteRegistration id st).2)
  ∧ ((deleteUser id st).2 = false → (deleteUser id st).1 = st)
  ∧ ((deleteEvent id st).2 = false → (deleteEvent id st).1 = st)
  ∧ ((deleteQrSettings id st).2 = false → (deleteQrSettings id st).1 = st)
  ∧ ((deleteFormSchema id st).2 = false → (deleteFormSchema id st).1 = st)
  ∧ ((deleteRegistration id st).2 = false → (deleteRegistration id st).1 = st).
Proof.
  pose proof (db_delete_outcome id (users st)) as Hu.
  pose proof (db_delete_outcome id (events st)) as He.
  pose proof (db_delete_outcome id (qrSettings st)) as Hq.
  pose proof (db_delete_outcome id (formSchemas st)) as Hf.
  pose proof (db_delete_outcome id (registrations st)) as Hr.
  unfold deleteUser, deleteEvent, deleteQrSettings, deleteFormSchema,
    deleteRegistration.
  destruct (db_delete _ (users st)) as [rows1 n1].
  destruct (db_delete _ (events st)) as [rows2 n2].
  destruct (db_delete _ (qrSettings st)) as [rows3 n3].
  destruct (db_delete _ (formSchemas st)) as [rows4 n4].
  destruct (db_delete _ (registrations st)) as [rows5 n5].
  cbn [fst snd] in *.
  repeat split; eauto.
  - intros Hfalse. destruct Hu as (_ & _ & _ & Hsame).
    rewrite (Hsame Hfalse). apply set_users_id.
  - intros Hfalse. destruct He as (_ & _ & _ & Hsame).
    rewrite (Hsame Hfalse). apply set_events_id.
  - intros Hfalse. destruct Hq as (_ & _ & _ & Hsame).
    rewrite (Hsame Hfalse). apply set_qrSettings_id.
  - intros Hfalse. destruct Hf as (_ & _ & _ & Hsame).
    rewrite (Hsame Hfalse). apply set_formSchemas_id.
  - intros Hfalse. destruct Hr as (_ & _ & _ & Hsame).
    rewrite (Hsame Hfalse). apply set_registrations_id.
Qed.

Lemma deletes_remove_by_id_witness :
  (deleteEvent "ev-0" sample_state).2 = false
  ∧ (deleteEvent "ev-0" sample_state).1 = sample_state.
Proof.
  split; [vm_compute; reflexivity|].
  apply (deletes_remove_by_id "ev-0" sample_state).
  vm_compute. reflexivity.
Defined.

Module EventMore.

Lemma insertEventSchema_strips (input eventData : obj) (k : string) :
  parse insertEventSchema input = Ok eventData →
  k ∈ ["id"; "qrCodeUrl"; "registrationUrl"; "createdAt"; "updatedAt"] →
  eventData !! k = None.
Proof.
  intros Hparse Hk. rewrite (parse_Ok_lookup _ _ _ k Hparse).
  rewrite decide_False; [done|].
  repeat (apply elem_of_cons in Hk as [->|Hk]; [by_evaluation|]).
  by apply not_elem_of_nil in Hk.
Qed.

Lemma partial_insertEventSchema_strips (input eventData : obj) (k : string) :
  parse (partial insertEventSchema) input = Ok eventData →
  k ∈ ["id"; "qrCodeUrl"; "registrationUrl"; "createdAt"; "updatedAt"] →
  eventData !! k = None.
Proof.
  intros Hparse Hk. rewrite (parse_Ok_lookup _ _ _ k Hparse).
  rewrite decide_False; [done|].
  repeat (apply elem_of_cons in Hk as [->|Hk]; [by_evaluation|]).
  by apply not_elem_of_nil in Hk.
Qed.

Lemma created_event_lookup (objectToString : val → string) (e : env)
    (eventData : obj) (st : State) (k : string) (d : coldefault) :
  col k d ∈ events_table → k ≠ "qrCodeUrl" → k ≠ "registrationUrl" →
  (createEvent objectToString e eventData st).2 !! k
  = Some (default (default_value e d) (eventData !! k)).
Proof.
  intros Hcol Hq Hr. unfold createEvent, db_insert. cbn [snd].
  rewrite (inserted_row_lookup _ _ _ k d);
    [|apply events_columns_NoDup|done].
  by rewrite !lookup_insert_ne.
Qed.

End EventMore.

Import EventMore.

(** X7. An event created through [POST /api/events] gets the generated
    id, whatever id the body carries; when no older event has that id,
    [GET /api/events/:id] with it answers the very event that the creation
    answered. *)
Theorem created_event_can_be_fetched (objectToString : val → string)
    (e : env) (req : request) (st : State) (eventData : obj) :
  parse insertEventSchema (req_body req) = Ok eventData →
  getEvent (uuid e) st = None →
  ∃ event,
    post_events objectToString e req st
    = (set_events st (events st ++ [event]),
       {| status := 201; body := Json event |})
    ∧ event !! "id" = Some (VStr (uuid e))
    ∧ get_events_id (uuid e) (set_events st (events st ++ [event]))
      = (set_events st (events st ++ [event]),
         {| status := 200; body := Json event |}).
Proof.
  intros Hparse Hfresh.
  exists (createEvent objectToString e eventData st).2.
  assert (Hid : (createEvent objectToString e eventData st).2 !! "id"
                = Some (VStr (uuid e))).
  { rewrite (created_event_lookup _ _ _ _ "id" DefaultUuid);
      [|by_evaluation|done..].
    by rewrite (insertEventSchema_strips _ _ "id" Hparse) by by_evaluation. }
  split; [|split; [exact Hid|]].
  - unfold post_events. rewrite Hparse. reflexivity.
  - unfold get_events_id, getEvent. cbn [events set_events].
    unfold getEvent in Hfresh. apply head_None in Hfresh.
    by rewrite head_filter_app_fresh.
Qed.

Lemma created_event_can_be_fetched_witness :
  ∃ event,
    post_events sample_toString later_env
      (request_of POST_events fair_body None) sample_state
    = (set_events sample_state (events sample_state ++ [event]),
       {| status := 201; body := Json event |})
    ∧ event !! "id" = Some (VStr "u-9")
    ∧ get_events_id "u-9"
        (set_events sample_state (events sample_state ++ [event]))
      = (set_events sample_state (events sample_state ++ [event]),
         {| status := 200; body := Json event |}).
Proof.
  apply (created_event_can_be_fetched sample_toString later_env
           (request_of POST_events fair_body None) sample_state
           {[ "userId" := VStr "u-3"; "name" := VStr "Autumn Fair";
              "isActive" := VBool false ]});
    vm_compute; reflexivity.
Defined.

(** X8. [PATCH /api/events/:id] never changes the id, the creation time,
    the QR code URL or the registration URL of an event, whatever the body
    holds (so the registration URL stays the one derived at creation even
    when the body moves the event to another owner), and it always sets
    updatedAt to the time of the request. *)
Theorem patch_events_keeps_identity (e : env) (req : request) (id : string)
    (st st' : State) (event event' : obj) :
  getEvent id st = Some event →
  patch_events e req id st = (st', {| status := 200; body := Json event' |}) →
  event' !! "id" = event !! "id"
  ∧ event' !! "createdAt" = event !! "createdAt"
  ∧ event' !! "qrCodeUrl" = event !! "qrCodeUrl"
  ∧ event' !! "registrationUrl" = event !! "registrationUrl"
  ∧ event' !! "updatedAt" = Some (VDate (now e)).
Proof.
  intros Hget. unfold patch_events.
  destruct (parse (partial insertEventSchema) (req_body req))
    as [eventData|err] eqn:Hparse; cbn [mbind result_bind];
    [|destruct err; discriminate].
  destruct (updateEvent_outcome e id eventData st)
    as (rows' & returned & -> & _ & Hreturned).
  unfold getEvent in Hget. rewrite Hget in Hreturned.
  destruct Hreturned as (event'' & -> & Hpatched).
  intros [= _ <-].
  assert (Hkeep : ∀ k,
            k ∈ ["id"; "qrCodeUrl"; "registrationUrl"; "createdAt"; "updatedAt"] →
            k ≠ "updatedAt" →
            event'' !! k = event !! k).
  { intros k Hk Hne. rewrite (Hpatched k).
    rewrite decide_False by (by intros [? _]).
    rewrite (partial_insertEventSchema_strips _ _ k Hparse Hk).
    by case_decide. }
  split; [apply Hkeep; [by_evaluation|done]|].
  split; [apply Hkeep; [by_evaluation|done]|].
  split; [apply Hkeep; [by_evaluation|done]|].
  split; [apply Hkeep; [by_evaluation|done]|].
  rewrite (Hpatched "updatedAt"). by rewrite decide_True by eauto.
Qed.

Lemma patch_events_keeps_identity_witness :
  patch_events later_env (request_of (PATCH_events "ev-1") fair_body None)
    "ev-1" sample_state
  = ((patch_events later_env (request_of (PATCH_events "ev-1") fair_body None)
        "ev-1" sample_state).1,
     {| status := 200;
        body := Json (<["updatedAt" := VDate 2000]>
                        (<["isActive" := VBool false]>
                           (<["name" := VStr "Autumn Fair"]>
                              (default ∅ (head (events sample_state)))))) |})
  ∧ (<["updatedAt" := VDate 2000]>
       (<["isActive" := VBool false]>
          (<["name" := VStr "Autumn Fair"]>
             (default ∅ (head (events sample_state))))))
      !! "registrationUrl"
    = default ∅ (head (events sample_state)) !! "registrationUrl".
Proof.
  assert (Hpatch :
    patch_events later_env (request_of (PATCH_events "ev-1") fair_body None)
      "ev-1" sample_state
    = ((patch_events later_env
          (request_of (PATCH_events "ev-1") fair_body None)
          "ev-1" sample_state).1,
       {| status := 200;
          body := Json (<["updatedAt" := VDate 2000]>
                          (<["isActive" := VBool false]>
                             (<["name" := VStr "Autumn Fair"]>
                                (default ∅ (head (events sample_state)))))) |})).
  { vm_compute. reflexivity. }
  split; [exact Hpatch|].
  apply (patch_events_keeps_identity later_env
           (request_of (PATCH_events "ev-1") fair_body None) "ev-1"
           sample_state _ (default ∅ (head (events sample_state))) _
           eq_refl Hpatch).
Defined.

(** ** Statistics and the export counter *)

Module StatsMore.

Lemma export_requests (e : env) (inputs : list obj) (s : Storage) :
  foldl (λ s input, (registerOpenRoutes e POST_export input s).1) s inputs
  = {| db := db s; exportCount := exportCount s + length inputs |}.
Proof.
  revert s. induction inputs as [|input inputs IH]; intros s; cbn [foldl].
  - destruct s. cbn. f_equal. lia.
  - rewrite IH. cbn. f_equal. lia.
Qed.

End StatsMore.

Import StatsMore.

(** X9. The statistics never count more active events than events, and
    creating an event through [POST /api/events] raises the number of
    events by one and the number of active events by one exactly when the
    body leaves isActive out or sets it to true; the other counts stay. *)
Theorem stats_follow_events (objectToString : val → string) (e : env)
    (req : request) (s : Storage) (eventData : obj) :
  parse insertEventSchema (req_body req) = Ok eventData →
(activeQRs (getStats s) ≤ totalEvents (getStats s))%nat
  ∧ totalEvents
      (getStats {| db := (post_events objectToString e req (db s)).1;
                   exportCount := exportCount s |})
    = S (totalEvents (getStats s))
  ∧ activeQRs
      (getStats {| db := (post_events objectToString e req (db s)).1;
                   exportCount := exportCount s |})
    = activeQRs (getStats s)
      + (if bool_decide (req_body req !! "isActive" = None
                         ∨ req_body req !! "isActive" = Some (VBool true))
         then 1 else 0)
  ∧ totalUsers
      (getStats {| db := (post_events objectToString e req (db s)).1;
                   exportCount := exportCount s |})
    = totalUsers (getStats s)
  ∧ totalRegistrations
      (getStats {| db := (post_events objectToString e req (db s)).1;
                   exportCount := exportCount s |})
    = totalRegistrations (getStats s)
  ∧ exports
      (getStats {| db := (post_events objectToString e req (db s)).1;
                   exportCount := exportCount s |})
    = exports (getStats s).
Proof.
  intros Hparse. split.
  { unfold getStats. cbn. apply length_filter. }
  unfold post_events. rewrite Hparse.
  pose proof (created_event_lookup objectToString e eventData (db s)
                "isActive" (DefaultConst (VBool true))
                ltac:(by_evaluation) ltac:(done) ltac:(done)) as Hactive.
  unfold createEvent, db_insert in *. cbn [fst snd] in *.
  unfold getStats. cbn [totalEvents activeQRs totalUsers totalRegistrations
    exports db exportCount events users registrations set_events].
  repeat split.
  - rewrite length_app. cbn. lia.
  - rewrite filter_app, length_app. f_equal.
    rewrite (parse_Ok_lookup _ _ _ "isActive" Hparse) in Hactive.
    rewrite decide_True in Hactive by by_evaluation.
    assert (Hfield : nullish "isActive" ZBoolean ∈ insertEventSchema).
    { apply list_elem_of_In. cbn. repeat first [left; reflexivity | right]. }
    pose proof (parse_Ok_valid _ _ _ _ Hparse Hfield) as Hvalid.
    cbn [zf_name nullish] in Hvalid.
    rewrite filter_cons, filter_nil.
    destruct (req_body req !! "isActive") as [[]|] eqn:Hbody;
      cbn in Hvalid; try done; cbn [default] in Hactive.
    + rewrite decide_False by (unfold eq; rewrite Hactive; done).
      by rewrite bool_decide_eq_false_2 by (intros [?|?]; done).
    + destruct b.
      * rewrite decide_True by (unfold eq; rewrite Hactive; done).
        by rewrite bool_decide_eq_true_2 by (by right).
      * rewrite decide_False by (unfold eq; rewrite Hactive; done).
        by rewrite bool_decide_eq_false_2 by (intros [?|[=]]; done).
    + rewrite decide_True by (unfold eq; rewrite Hactive; done).
      by rewrite bool_decide_eq_true_2 by (by left).
Qed.

Lemma stats_follow_events_witness :
  activeQRs
    (getStats {| db := (post_events sample_toString later_env
                          (request_of POST_events fair_body None)
                          (db sample_storage)).1;
                 exportCount := exportCount sample_storage |})
  = activeQRs (getStats sample_storage)
    + (if bool_decide (fair_body !! "isActive" = None
                       ∨ fair_body !! "isActive" = Some (VBool true))
       then 1 else 0).
Proof.
  apply (stats_follow_events sample_toString later_env
           (request_of POST_events fair_body None) sample_storage
           {[ "userId" := VStr "u-3"; "name" := VStr "Autumn Fair";
              "isActive" := VBool false ]}).
  vm_compute. reflexivity.
Defined.

(** X10. [POST /api/export] answers 200 for any body, adds one to the
    export counter and touches nothing in the database: after any number
    of such requests the statistics show the old export count plus that
    number and all other counts as before. *)
Theorem exports_are_counted (e : env) (inputs : list obj) (s : Storage) :
  (∀ input, (registerOpenRoutes e POST_export input s).2
            = Plain (message 200 "Export count incremented"))
  ∧ db (foldl (λ s input, (registerOpenRoutes e POST_export input s).1)
          s inputs) = db s
  ∧ exports
      (getStats
         (foldl (λ s input, (registerOpenRoutes e POST_export input s).1)
            s inputs))
    = exports (getStats s) + length inputs.
Proof.
  rewrite export_requests. repeat split.
Qed.

(** ** Registrations *)

Module RegistrationMore.

Lemma col_eta (c : column) : col (col_name c) (col_default c) = c.
Proof. by destruct c. Qed.

(** Two inserts of the same object agree on every property whose default
    does not depend on the environment. *)
Lemma inserted_row_same (e1 e2 : env) (t : list column) (o : obj) (k : string) :
  (∀ d, col k d ∈ t → default_value e1 d = default_value e2 d) →
  inserted_row e1 t o !! k = inserted_row e2 t o !! k.
Proof.
  unfold inserted_row. induction t as [|c t IH]; intros Hsame; [done|].
  rewrite !fmap_cons, !list_to_map_cons, !lookup_insert.
  case_decide as Hk.
  - subst k. do 2 f_equal. apply Hsame. rewrite col_eta. left.
  - apply IH. intros d Hd. apply Hsame. by right.
Qed.

Lemma registrations_defaults (e1 e2 : env) (k : string) (d : coldefault) :
  k ≠ "id" → k ≠ "registeredAt" → col k d ∈ registrations_table →
  default_value e1 d = default_value e2 d.
Proof.
  intros Hid Hreg Hin. unfold registrations_table in Hin.
  repeat (apply elem_of_cons in Hin as [Heq|Hin];
          [injection Heq as -> ->; done|]).
  by apply not_elem_of_nil in Hin.
Qed.

Lemma partial_parse_empty (input : obj) :
  (∀ k, k ∈ zf_name <$> insertRegistrationSchema → input !! k = None) →
  parse (partial insertRegistrationSchema) input = Ok ∅.
Proof.
  intros Hnone. unfold parse.
  assert (Hvalid :
    forallb (λ f, zvalid f (input !! zf_name f))
      (partial insertRegistrationSchema) = true).
  { apply forallb_forall. intros f Hf. apply list_elem_of_In in Hf.
    rewrite Hnone.
    - unfold partial in Hf. apply list_elem_of_fmap in Hf as (f' & -> & _).
      reflexivity.
    - unfold partial in Hf. apply list_elem_of_fmap in Hf as (f' & -> & Hf').
      apply list_elem_of_fmap. by exists f'. }
  rewrite Hvalid. f_equal. apply map_eq. intros k.
  rewrite lookup_empty, map_lookup_filter.
  destruct (input !! k) as [v|] eqn:Hk; cbn [mbind option_bind]; [|done].
  rewrite option_guard_False; [done|].
  cbn [fst]. intros Hin. rewrite Hnone in Hk; [done|].
  unfold partial in Hin. rewrite <- list_fmap_compose in Hin.
  exact Hin.
Qed.

End RegistrationMore.

Import RegistrationMore.

(** X11. Registrations are not deduplicated: the same valid body posted
    twice to [POST /api/registrations] is answered 201 both times and
    leaves two new rows at the end of the table, which agree on every
    property except the generated id and the registration time. *)
Theorem registrations_are_not_deduplicated (e1 e2 : env) (input : obj)
    (st : State) (registrationData : obj) :
  parse_registration insertRegistrationSchema input = Ok registrationData →
  ∃ row1 row2,
    post_registrations e1 input st
    = (set_registrations st (registrations st ++ [row1]),
       {| status := 201; body := Json row1 |})
    ∧ post_registrations e2 input
        (set_registrations st (registrations st ++ [row1]))
      = (set_registrations st (registrations st ++ [row1; row2]),
         {| status := 201; body := Json row2 |})
    ∧ (∀ k, k ≠ "id" → k ≠ "registeredAt" → row1 !! k = row2 !! k).
Proof.
  intros Hparse.
  exists (inserted_row e1 registrations_table registrationData),
         (inserted_row e2 registrations_table registrationData).
  split; [|split].
  - unfold post_registrations. rewrite Hparse. reflexivity.
  - unfold post_registrations. rewrite Hparse.
    unfold createRegistration, db_insert.
    cbn [registrations set_registrations]. by rewrite <- app_assoc.
  - intros k Hid Hreg. apply inserted_row_same. intros d.
    by apply registrations_defaults.
Qed.

Lemma registrations_are_not_deduplicated_witness :
  ∃ row1 row2,
    post_registrations sample_env attendee_body sample_state
    = (set_registrations sample_state (registrations sample_state ++ [row1]),
       {| status := 201; body := Json row1 |})
    ∧ post_registrations later_env attendee_body
        (set_registrations sample_state (registrations sample_state ++ [row1]))
      = (set_registrations sample_state
           (registrations sample_state ++ [row1; row2]),
         {| status := 201; body := Json row2 |})
    ∧ (∀ k, k ≠ "id" → k ≠ "registeredAt" → row1 !! k = row2 !! k).
Proof.
  apply (registrations_are_not_deduplicated sample_env later_env attendee_body
           sample_state attendee_body).
  vm_compute. reflexivity.
Defined.

(** X12. [PATCH /api/registrations/:id] with a body that names none of
    the updatable properties is answered 500 "Failed to update
    registration" and changes nothing, whether or not a registration has
    the id: the update has nothing to set and is rejected before any row
    is looked up. *)
Theorem patch_registrations_needs_a_property (id : string) (input : obj)
    (st : State) :
  (∀ k, k ∈ ["eventId"; "name"; "phone"; "position"; "email"; "customData"] →
        input !! k = None) →
  patch_registrations id input st
  = (st, message 500 "Failed to update registration").
Proof.
  intros Hnone. unfold patch_registrations, parse_registration.
  rewrite partial_parse_empty.
  - rewrite (Hnone "customData") by by_evaluation.
    cbn [mbind result_bind]. unfold updateRegistration.
    by rewrite db_update_Throw.
  - intros k Hk. apply Hnone. cbn in Hk.
    repeat (apply elem_of_cons in Hk as [->|Hk]; [by_evaluation|]).
    by apply not_elem_of_nil in Hk.
Qed.

Lemma patch_registrations_needs_a_property_witness :
  patch_registrations "r-1" {[ "id" := VStr "r-2" ]} sample_state
  = (sample_state, message 500 "Failed to update registration").
Proof.
  apply patch_registrations_needs_a_property.
  intros k Hk.
  repeat (apply elem_of_cons in Hk as [->|Hk]; [reflexivity|]).
  by apply not_elem_of_nil in Hk.
Defined.

(** ** Registration, login and logout *)

Module AuthMore.

Lemma zvalid_required_string (name : string) (lo : nat) (hi : option nat)
    (v : option val) :
  zvalid (required name (ZString lo hi)) v = true
  ↔ ∃ s, v = Some (VStr s)
         ∧ (lo ≤ String.length s)%nat
         ∧ match hi with
           | Some h => (String.length s ≤ h)%nat
           | None => True
           end.
Proof.
  unfold zvalid, required. cbn [zf_optional zf_nullable zf_type].
  destruct v as [[| | |s| |]|]; try (split; [done|by intros (? & [=] & _)]).
  rewrite andb_true_iff, Nat.leb_le. split.
  - intros [Hlo Hhi]. exists s. split; [done|]. split; [done|].
    destruct hi; [by apply Nat.leb_le|done].
  - intros (s' & [= <-] & Hlo & Hhi). split; [done|].
    destruct hi; [by apply Nat.leb_le|done].
Qed.

Lemma registrationSchema_valid_iff (input : obj) :
  (∃ userData, parse registrationSchema input = Ok userData)
  ↔ valid_registration input.
Proof.
  unfold parse, registrationSchema, valid_registration. cbn [forallb].
  cbn [zf_name required].
  destruct (zvalid (required "username" (ZString 0 (Some 255)))
              (input !! "username")) eqn:Hu;
    [apply zvalid_required_string in Hu as (u & Hu & _ & Hulen)|].
  2:{ split; [by intros [? ?]|].
      intros (u & m & p & Hu' & _ & _ & Hulen & _).
      assert (zvalid (required "username" (ZString 0 (Some 255)))
                (input !! "username") = true) as Hu''
        by (apply zvalid_required_string; exists u; repeat split; [done|lia|done]).
      congruence. }
  destruct (zvalid (required "email" (ZString 0 (Some 255)))
              (input !! "email")) eqn:Hm;
    [apply zvalid_required_string in Hm as (m & Hm & _ & Hmlen)|].
  2:{ split; [by intros [? ?]|].
      intros (u' & m & p & _ & Hm' & _ & _ & Hmlen & _).
      assert (zvalid (required "email" (ZString 0 (Some 255)))
                (input !! "email") = true) as Hm''
        by (apply zvalid_required_string; exists m; repeat split; [done|lia|done]).
      congruence. }
  destruct (zvalid (required "password" (ZString 6 None))
              (input !! "password")) eqn:Hp;
    [apply zvalid_required_string in Hp as (p & Hp & Hplen & _)|].
  2:{ split; [by intros [? ?]|].
      intros (u' & m' & p & _ & _ & Hp' & _ & _ & Hplen).
      assert (zvalid (required "password" (ZString 6 None))
                (input !! "password") = true) as Hp''
        by (apply zvalid_required_string; exists p; repeat split; done).
      congruence. }
  cbn [andb]. split; [intros _; eauto 10|eauto].
Qed.

Lemma parse_registrationSchema_Throw (input : obj) (err : error) :
  parse registrationSchema input = Throw err → err = ZodError.
Proof. unfold parse. case_match; [done|]. by intros [= <-]. Qed.

Section WithScrypt.
Variable scrypt : string → string → nat → list byte.

Lemma registered_user_lookup (e : env) (input userData : obj)
    (password : string) :
  parse registrationSchema input = Ok userData →
  registered_user scrypt e userData password !! "id" = Some (VStr (uuid e))
  ∧ registered_user scrypt e userData password !! "username"
    = input !! "username"
  ∧ registered_user scrypt e userData password !! "banned"
    = Some (VBool false)
  ∧ registered_user scrypt e userData password !! "password"
    = Some (VStr (toString_hex
                    (scrypt password (toString_hex (random16 e)) 64)
                  +:+ "." +:+ toString_hex (random16 e))).
Proof.
  intros Hparse. unfold registered_user. repeat split.
  - rewrite (inserted_row_lookup _ _ _ "id" DefaultUuid);
      [|apply users_columns_NoDup|by_evaluation].
    rewrite !lookup_insert_ne by done.
    rewrite (parse_Ok_lookup _ _ _ "id" Hparse).
    by rewrite decide_False by by_evaluation.
  - rewrite (inserted_row_lookup _ _ _ "username" NoDefault);
      [|apply users_columns_NoDup|by_evaluation].
    rewrite !lookup_insert_ne by done.
    rewrite (parse_Ok_lookup _ _ _ "username" Hparse).
    rewrite decide_True by by_evaluation.
    pose proof (proj1 (registrationSchema_valid_iff input)
                  (ex_intro _ _ Hparse)) as (u & m & p & Hu & _).
    by rewrite Hu.
  - rewrite (inserted_row_lookup _ _ _ "banned" (DefaultConst (VBool false)));
      [|apply users_columns_NoDup|by_evaluation].
    by simplify_map_eq.
  - rewrite (inserted_row_lookup _ _ _ "password" NoDefault);
      [|apply users_columns_NoDup|by_evaluation].
    by simplify_map_eq.
Qed.

Lemma post_register_created (e : env) (req : request) (st : State)
    (userData : obj) (password : string) :
  parse registrationSchema (req_body req) = Ok userData →
  getUserByUsername (userData !! "username") st = None →
  getUserByEmail (userData !! "email") st = None →
  userData !! "password" = Some (VStr password) →
  uuid e ≠ EmptyString →
  post_register scrypt e req st
  = (set_sessions
       (session_destroy req
          (set_users st (users st ++ [registered_user scrypt e userData password])))
       (<[sessionID e := VStr (uuid e)]>
          (sessions
             (session_destroy req
                (set_users st
                   (users st ++ [registered_user scrypt e userData password]))))),
     {| status := 201;
        body := Json (user_json (registered_user scrypt e userData password)) |}).
Proof.
  intros Hparse Hname Hmail Hpass Huuid. unfold post_register.
  rewrite Hparse. cbn [mbind result_bind]. rewrite Hname, Hmail, Hpass.
  cbn [as_string mbind result_bind]. rewrite hashPassword_eq.
  cbn [mbind result_bind]. unfold createUser, db_insert.
  fold (registered_user scrypt e userData password).
  unfold req_login, session_regenerate.
  destruct (registered_user_lookup e (req_body req) userData password Hparse)
    as (Hid & _).
  rewrite Hid. cbn [truthy].
  destruct (String.eqb_spec (uuid e) EmptyString) as [?|_]; [done|].
  reflexivity.
Qed.

End WithScrypt.

End AuthMore.

Import AuthMore.

(** X13. A registration whose username, or else whose email, is already
    in the user table is answered 400 with "Username already exists", or
    else "Email already exists", and leaves the state as it was: no row
    and no session is created. *)
Theorem register_rejects_duplicates
    (scrypt : string → string → nat → list byte)
    (e : env) (req : request) (st : State) :
  valid_registration (req_body req) →
  (is_Some (getUserByUsername (req_body req !! "username") st) →
   post_register scrypt e req st = (st, message 400 "Username already exists"))
  ∧ (getUserByUsername (req_body req !! "username") st = None →
     is_Some (getUserByEmail (req_body req !! "email") st) →
     post_register scrypt e req st = (st, message 400 "Email already exists")).
Proof.
  intros Hvalid.
  apply registrationSchema_valid_iff in Hvalid as [userData Hparse].
  assert (Hname : userData !! "username" = req_body req !! "username").
  { rewrite (parse_Ok_lookup _ _ _ "username" Hparse).
    by rewrite decide_True by by_evaluation. }
  assert (Hmail : userData !! "email" = req_body req !! "email").
  { rewrite (parse_Ok_lookup _ _ _ "email" Hparse).
    by rewrite decide_True by by_evaluation. }
  unfold post_register. rewrite Hparse. cbn [mbind result_bind].
  rewrite Hname, Hmail. split.
  - by intros [user ->].
  - by intros -> [user ->].
Qed.

Lemma register_rejects_duplicates_witness :
  post_register toy_scrypt sample_env
    (request_of POST_register
       (<["username" := VStr "carol"]> erin_body) None) sample_state
  = (sample_state, message 400 "Username already exists").
Proof.
  apply (register_rejects_duplicates toy_scrypt sample_env
           (request_of POST_register
              (<["username" := VStr "carol"]> erin_body) None) sample_state).
  - exists "carol", "erin@x.com", "secret3". repeat split; cbn; lia.
  - vm_compute. eauto.
Defined.

(** X14. A registration body that the schema does not accept (a
    username, email or password that is missing or not a string, a
    username or email longer than 255 characters, a password shorter than
    6) is answered 400 "Invalid user data" and leaves the state as it
    was. *)
Theorem register_validates_input
    (scrypt : string → string → nat → list byte)
    (e : env) (req : request) (st : State) :
  ¬ valid_registration (req_body req) →
  post_register scrypt e req st = (st, invalid "Invalid user data").
Proof.
  intros Hinvalid. unfold post_register.
  destruct (parse registrationSchema (req_body req)) as [userData|err]
    eqn:Hparse; cbn [mbind result_bind].
  - exfalso. apply Hinvalid, registrationSchema_valid_iff. eauto.
  - by rewrite (parse_registrationSchema_Throw _ _ Hparse).
Qed.

Lemma register_validates_input_witness :
  ¬ valid_registration short_password_body
  ∧ post_register toy_scrypt sample_env
      (request_of POST_register short_password_body None) sample_state
    = (sample_state, invalid "Invalid user data").
Proof.
  assert (Hinvalid : ¬ valid_registration short_password_body).
  { intros (u & m & p & _ & _ & Hp & _ & _ & Hlen).
    vm_compute in Hp. injection Hp as <-. cbn in Hlen. lia. }
  split; [exact Hinvalid|].
  apply (register_validates_input toy_scrypt sample_env
           (request_of POST_register short_password_body None) sample_state
           Hinvalid).
Defined.

Module LoginMore.

Section WithScrypt.
Variable scrypt : string → string → nat → list byte.

Lemma truthy_string (s : string) : s ≠ EmptyString → truthy (Some (VStr s)) = true.
Proof. intros Hs. cbn. by destruct (String.eqb_spec s EmptyString). Qed.

Lemma post_login_success (e : env) (req : request) (st : State) (user : obj)
    (u p stored id : string) :
  req_body req !! "username" = Some (VStr u) → u ≠ EmptyString →
  req_body req !! "password" = Some (VStr p) → p ≠ EmptyString →
  getUserByUsername (Some (VStr u)) st = Some user →
  truthy (user !! "banned") = false →
  user !! "password" = Some (VStr stored) →
  comparePasswords scrypt p stored = Ok true →
  user !! "id" = Some (VStr id) → id ≠ EmptyString →
  post_login scrypt e req st
  = (set_sessions st (sessions_after_login e req (VStr id) (sessions st)),
     {| status := 200; body := Json (user_json user) |}).
Proof.
  intros Hu Hune Hp Hpne Hget Hbanned Hstored Hcmp Hid Hidne.
  unfold post_login, authenticate, verify.
  rewrite Hu, Hp, !truthy_string by done. cbn [andb].
  rewrite Hget, Hbanned, Hstored. cbn [as_string mbind result_bind].
  rewrite Hcmp. cbn [mbind result_bind].
  unfold req_login. rewrite Hid, truthy_string by done. cbn [orb].
  unfold session_regenerate, session_destroy, sessions_after_login.
  by destruct (req_cookie req).
Qed.

Lemma registered_state (e : env) (req : request) (st : State) (user : obj) :
  set_sessions
    (session_destroy req (set_users st (users st ++ [user])))
    (<[sessionID e := VStr (uuid e)]>
       (sessions (session_destroy req (set_users st (users st ++ [user])))))
  = set_sessions (set_users st (users st ++ [user]))
      (sessions_after_login e req (VStr (uuid e)) (sessions st)).
Proof.
  unfold session_destroy, sessions_after_login. by destruct (req_cookie req).
Qed.

(** A successful registration, with the state it leaves. *)
Lemma post_register_success (e : env) (req : request) (st : State) :
  valid_registration (req_body req) →
  getUserByUsername (req_body req !! "username") st = None →
  getUserByEmail (req_body req !! "email") st = None →
  uuid e ≠ EmptyString →
  ∃ userData password,
    parse registrationSchema (req_body req) = Ok userData
    ∧ req_body req !! "password" = Some (VStr password)
    ∧ post_register scrypt e req st
      = (set_sessions
           (set_users st
              (users st ++ [registered_user scrypt e userData password]))
           (sessions_after_login e req (VStr (uuid e)) (sessions st)),
         {| status := 201;
            body := Json (user_json
                            (registered_user scrypt e userData password)) |}).
Proof.
  intros Hvalid Hname Hmail Huuid.
  pose proof Hvalid as (u & m & p & Hu & Hm & Hp & _).
  apply registrationSchema_valid_iff in Hvalid as [userData Hparse].
  exists userData, p. split; [done|]. split; [done|].
  rewrite (post_register_created scrypt e req st userData p); try done.
  - by rewrite registered_state.
  - rewrite (parse_Ok_lookup _ _ _ "username" Hparse).
    by rewrite decide_True by by_evaluation.
  - rewrite (parse_Ok_lookup _ _ _ "email" Hparse).
    by rewrite decide_True by by_evaluation.
  - rewrite (parse_Ok_lookup _ _ _ "password" Hparse).
    by rewrite decide_True by by_evaluation.
Qed.

End WithScrypt.

End LoginMore.

Import LoginMore.

(** X15. After a successful registration (a valid body with a
    non-empty username, username and email not yet taken), a login with
    the same username and password is answered 200 with the same user
    object that the registration answered, whatever session the login
    request comes with. *)
Theorem register_then_login
    (scrypt : string → string → nat → list byte)
    (e e2 : env) (req : request) (st : State) (cookie : option string) :
  valid_registration (req_body req) →
  req_body req !! "username" ≠ Some (VStr EmptyString) →
  getUserByUsername (req_body req !! "username") st = None →
  getUserByEmail (req_body req !! "email") st = None →
  uuid e ≠ EmptyString →
  status (post_register scrypt e req st).2 = 201%nat
  ∧ (post_login scrypt e2 (with_cookie req cookie)
       (post_register scrypt e req st).1).2
    = {| status := 200; body := body (post_register scrypt e req st).2 |}.
Proof.
  intros Hvalid Hnonempty Hname Hmail Huuid.
  pose proof Hvalid as (u & m & p & Hu & Hm & Hp & _ & _ & Hplen).
  destruct (post_register_success scrypt e req st Hvalid Hname Hmail Huuid)
    as (userData & p' & Hparse & Hp' & ->).
  assert (p' = p) as -> by congruence.
  cbn [fst snd status body]. split; [done|].
  destruct (registered_user_lookup scrypt e (req_body req) userData p Hparse)
    as (Hid & Husername & Hbanned & Hpassword).
  erewrite (post_login_success scrypt e2 (with_cookie req cookie) _
              (registered_user scrypt e userData p) u p _ (uuid e));
    try done.
  - intros ->. by rewrite Hu in Hnonempty.
  - intros ->. cbn in Hplen. lia.
  - unfold getUserByUsername. cbn [users set_sessions set_users].
    apply head_filter_app_fresh.
    + rewrite Hu in Hname. by apply head_None in Hname.
    + unfold eq. by rewrite Husername.
  - by rewrite Hbanned.
  - rewrite comparePasswords_hashed. apply timingSafeEqual_refl.
Qed.

Lemma register_then_login_witness :
  status (post_register toy_scrypt later_env
            (request_of POST_register erin_body None) sample_state).2
  = 201%nat
  ∧ (post_login toy_scrypt sample_env
       (with_cookie (request_of POST_register erin_body None) (Some "s-3"))
       (post_register toy_scrypt later_env
          (request_of POST_register erin_body None) sample_state).1).2
    = {| status := 200;
         body := body (post_register toy_scrypt later_env
                         (request_of POST_register erin_body None)
                         sample_state).2 |}.
Proof.
  apply (register_then_login toy_scrypt later_env sample_env
           (request_of POST_register erin_body None) sample_state (Some "s-3")).
  - exists "erin", "erin@x.com", "secret3". repeat split; cbn; lia.
  - vm_compute. discriminate.
  - vm_compute. reflexivity.
  - vm_compute. reflexivity.
  - discriminate.
Defined.

(** X16. A successful registration logs the new user in under the
    freshly generated session id: the session the request came with is
    removed from the store, and, when no older user has the generated user
    id, [GET /api/user] with the new session id answers the same user
    object that the registration answered. *)
Theorem register_starts_session
    (scrypt : string → string → nat → list byte)
    (e : env) (req : request) (st : State) :
  valid_registration (req_body req) →
  getUserByUsername (req_body req !! "username") st = None →
  getUserByEmail (req_body req !! "email") st = None →
  uuid e ≠ EmptyString →
  getUser (Some (VStr (uuid e))) st = None →
  sessions (post_register scrypt e req st).1
    = sessions_after_login e req (VStr (uuid e)) (sessions st)
  ∧ (∀ sid, req_cookie req = Some sid → sid ≠ sessionID e →
       sessions (post_register scrypt e req st).1 !! sid = None)
  ∧ get_user (with_cookie req (Some (sessionID e)))
      (post_register scrypt e req st).1
    = ((post_register scrypt e req st).1,
       {| status := 200; body := body (post_register scrypt e req st).2 |}).
Proof.
  intros Hvalid Hname Hmail Huuid Hfresh.
  destruct (post_register_success scrypt e req st Hvalid Hname Hmail Huuid)
    as (userData & p & Hparse & Hp & ->).
  cbn [fst snd body sessions set_sessions]. split; [done|]. split.
  - intros sid Hcookie Hne. unfold sessions_after_login.
    rewrite Hcookie, lookup_insert_ne by done. apply lookup_delete_eq.
  - unfold get_user, req_user, with_cookie.
    cbn [req_cookie sessions set_sessions mbind option_bind].
    assert (Hs : sessions_after_login e req (VStr (uuid e)) (sessions st)
                 !! sessionID e = Some (VStr (uuid e)))
      by (unfold sessions_after_login; apply lookup_insert_eq).
    rewrite Hs. cbn [mbind option_bind].
    destruct (registered_user_lookup scrypt e (req_body req) userData p Hparse)
      as (Hid & _).
    unfold getUser. cbn [users set_sessions set_users].
    rewrite head_filter_app_fresh; [done| |by unfold eq].
    by apply head_None in Hfresh.
Qed.

Lemma register_starts_session_witness :
  get_user (with_cookie (request_of POST_register erin_body (Some "s-3"))
              (Some (sessionID later_env)))
    (post_register toy_scrypt later_env
       (request_of POST_register erin_body (Some "s-3")) sample_state).1
  = ((post_register toy_scrypt later_env
        (request_of POST_register erin_body (Some "s-3")) sample_state).1,
     {| status := 200;
        body := body (post_register toy_scrypt later_env
                        (request_of POST_register erin_body (Some "s-3"))
                        sample_state).2 |}).
Proof.
  apply (register_starts_session toy_scrypt later_env
           (request_of POST_register erin_body (Some "s-3")) sample_state).
  - exists "erin", "erin@x.com", "secret3". repeat split; cbn; lia.
  - vm_compute. reflexivity.
  - vm_compute. reflexivity.
  - discriminate.
  - vm_compute. reflexivity.
Defined.

(** X17. The empty username can be registered but never logs in: the
    registration schema accepts it, so that a registration with it
    succeeds, while every login request whose username is the empty
    string is answered 401 "Invalid credentials", whatever the password
    and the state. *)
Theorem empty_username_cannot_log_in
    (scrypt : string → string → nat → list byte)
    (e : env) (req : request) (st : State) :
  req_body req !! "username" = Some (VStr EmptyString) →
  post_login scrypt e req st = (st, message 401 "Invalid credentials")
  ∧ (valid_registration (req_body req) →
     getUserByUsername (req_body req !! "username") st = None →
     getUserByEmail (req_body req !! "email") st = None →
     uuid e ≠ EmptyString →
     status (post_register scrypt e req st).2 = 201%nat).
Proof.
  intros Hempty. split.
  - unfold post_login, authenticate. by rewrite Hempty.
  - intros Hvalid Hname Hmail Huuid.
    destruct (post_register_success scrypt e req st Hvalid Hname Hmail Huuid)
      as (userData & p & _ & _ & ->).
    reflexivity.
Qed.

Lemma empty_username_cannot_log_in_witness :
  post_login toy_scrypt sample_env
    (request_of POST_login nameless_body None)
    (post_register toy_scrypt later_env
       (request_of POST_register nameless_body None) sample_state).1
  = ((post_register toy_scrypt later_env
        (request_of POST_register nameless_body None) sample_state).1,
     message 401 "Invalid credentials")
  ∧ status (post_register toy_scrypt later_env
              (request_of POST_register nameless_body None)
              sample_state).2 = 201%nat.
Proof.
  assert (Hlogin : req_body (request_of POST_login nameless_body None)
                     !! "username" = Some (VStr EmptyString))
    by (vm_compute; reflexivity).
  assert (Hregister : req_body (request_of POST_register nameless_body None)
                        !! "username" = Some (VStr EmptyString))
    by (vm_compute; reflexivity).
  split.
  - apply (empty_username_cannot_log_in toy_scrypt sample_env _ _ Hlogin).
  - apply (empty_username_cannot_log_in toy_scrypt later_env _ sample_state
             Hregister).
    + exists EmptyString, "erin@x.com", "secret3". repeat split; cbn; lia.
    + vm_compute. reflexivity.
    + vm_compute. reflexivity.
    + discriminate.
Defined.

(** X18. A successful login (existing user, not banned, matching
    password) answers 200 with the user object and moves the login to the
    freshly generated session id: that id is bound to the user, the session
    id the request came with is bound to nothing, every other session and
    all tables are as before. *)
Theorem login_regenerates_session
    (scrypt : string → string → nat → list byte)
    (e : env) (req : request) (st : State) (user : obj)
    (u p stored id : string) :
  req_body req !! "username" = Some (VStr u) → u ≠ EmptyString →
  req_body req !! "password" = Some (VStr p) → p ≠ EmptyString →
  getUserByUsername (Some (VStr u)) st = Some user →
  truthy (user !! "banned") = false →
  user !! "password" = Some (VStr stored) →
  comparePasswords scrypt p stored = Ok true →
  user !! "id" = Some (VStr id) → id ≠ EmptyString →
  (post_login scrypt e req st).2
    = {| status := 200; body := Json (user_json user) |}
  ∧ (∃ s, (post_login scrypt e req st).1 = set_sessions st s
          ∧ s !! sessionID e = Some (VStr id)
          ∧ (∀ sid, req_cookie req = Some sid → sid ≠ sessionID e →
               s !! sid = None)
          ∧ (∀ sid, req_cookie req ≠ Some sid → sid ≠ sessionID e →
               s !! sid = sessions st !! sid)).
Proof.
  intros Hu Hune Hp Hpne Hget Hbanned Hstored Hcmp Hid Hidne.
  rewrite (post_login_success scrypt e req st user u p stored id) by done.
  cbn [fst snd]. split; [done|].
  exists (sessions_after_login e req (VStr id) (sessions st)).
  unfold sessions_after_login. split; [done|].
  split; [by rewrite lookup_insert_eq|]. split.
  - intros sid -> Hne. rewrite lookup_insert_ne by done. apply lookup_delete_eq.
  - intros sid Hcookie Hne. rewrite lookup_insert_ne by done.
    destruct (req_cookie req) as [sid'|]; [|done].
    rewrite lookup_delete_ne; [done|]. congruence.
Qed.

Lemma login_regenerates_session_witness :
  (post_login toy_scrypt later_env
     (request_of POST_login (credentials "carol" "secret1") (Some "s-3"))
     sample_state).2
  = {| status := 200;
       body := Json (user_json (user_row "u-3" "carol" "user" false 3)) |}.
Proof.
  apply (login_regenerates_session toy_scrypt later_env
           (request_of POST_login (credentials "carol" "secret1") (Some "s-3"))
           sample_state (user_row "u-3" "carol" "user" false 3)
           "carol" "secret1" secret1_hash "u-3");
    try discriminate; vm_compute; reflexivity.
Defined.

(** X19. Logout always answers 200; afterwards the session the request
    came with is bound to no user, so that [GET /api/user] with it answers
    401; all other sessions and all tables are untouched, and a second
    logout changes nothing more. *)
Theorem logout_ends_the_session (req : request) (st : State) :
  (post_logout req st).2 = {| status := 200; body := Text "OK" |}
  ∧ get_user req (post_logout req st).1
    = ((post_logout req st).1, {| status := 401; body := Text "Unauthorized" |})
  ∧ (∃ s, (post_logout req st).1 = set_sessions st s
          ∧ ∀ sid, req_cookie req ≠ Some sid → s !! sid = sessions st !! sid)
  ∧ (post_logout req (post_logout req st).1).1 = (post_logout req st).1.
Proof.
  unfold post_logout, req_logout, session_regenerate, session_destroy,
    get_user, req_user.
  destruct (req_cookie req) as [sid|] eqn:Hcookie; cbn [fst snd sessions set_sessions].
  - repeat split.
    + cbn [mbind option_bind]. by rewrite delete_delete_eq, lookup_delete_eq.
    + exists (delete sid (sessions st)). split.
      * by rewrite delete_delete_eq.
      * intros sid' Hne. rewrite lookup_delete_ne; [done|]. congruence.
    + by rewrite !delete_delete_eq.
  - repeat split. exists (sessions st). split; [by destruct st|done].
Qed.

(** ** User administration *)

Module AdminMore.

Lemma flag_assignment (e : env) (b : bool) (r : obj) :
  set_clause users_table
    (<["updatedAt" := VDate (now e)]> {[ "banned" := VBool b ]}) ∪ r
  = flagged e b r.
Proof.
  unfold flagged. rewrite set_clause_id.
  - by rewrite <- insert_union_l, <- insert_union_singleton_l.
  - intros k [v Hv].
    destruct (decide (k = "updatedAt")) as [->|]; [by_evaluation|].
    rewrite lookup_insert_ne in Hv by done.
    apply lookup_singleton_Some in Hv as [<- _]. by_evaluation.
Qed.

Lemma flag_update (e : env) (b : bool) (id : string) (rows : list obj) :
  db_update users_table
    (<["updatedAt" := VDate (now e)]> {[ "banned" := VBool b ]})
    (eq "id" (Some (VStr id))) rows
  = Ok ((λ r, if bool_decide (r !! "id" = Some (VStr id))
              then flagged e b r else r) <$> rows,
        flagged e b <$> filter (eq "id" (Some (VStr id))) rows).
Proof.
  rewrite db_update_Ok.
  - f_equal. f_equal.
    + apply list_fmap_ext. intros _ r _.
      case_decide as Hid; rewrite eq_id_iff in Hid.
      * rewrite bool_decide_eq_true_2 by done. apply flag_assignment.
      * by rewrite bool_decide_eq_false_2.
    + apply list_fmap_ext. intros _ r _. apply flag_assignment.
  - apply (set_clause_nonempty _ _ "banned"); [by_evaluation|].
    by rewrite lookup_insert_ne, lookup_singleton_eq.
Qed.

Lemma flagged_lookup_ne (e : env) (b : bool) (r : obj) (k : string) :
  k ≠ "updatedAt" → k ≠ "banned" → flagged e b r !! k = r !! k.
Proof. intros. unfold flagged. by rewrite !lookup_insert_ne. Qed.

(** Looking a user up by a column other than the two that a ban writes,
    after the ban or unban of the user with id [id]. *)
Lemma lookup_after_flag (e : env) (b : bool) (id : string) (column : string)
    (value : option val) (rows : list obj) :
  column ≠ "updatedAt" → column ≠ "banned" →
  head (filter (eq column value)
          ((λ r, if bool_decide (r !! "id" = Some (VStr id))
                 then flagged e b r else r) <$> rows))
  = (λ r, if bool_decide (r !! "id" = Some (VStr id))
          then flagged e b r else r)
      <$> head (filter (eq column value) rows).
Proof.
  intros Hu Hb. apply head_filter_fmap. intros r.
  case_bool_decide; [|done].
  unfold eq. destruct value as [[]|]; try done;
    by rewrite flagged_lookup_ne.
Qed.

Lemma banUser_eq (e : env) (id : string) (st : State) :
  banUser e id st
  = Ok (set_users st
          ((λ r, if bool_decide (r !! "id" = Some (VStr id))
                 then flagged e true r else r) <$> users st),
        bool_decide (is_Some (getUser (Some (VStr id)) st))).
Proof.
  unfold banUser. rewrite flag_update. cbn [mbind result_bind].
  do 3 f_equal. rewrite length_fmap. unfold getUser.
  destruct (filter _ (users st)); cbn [length head].
  - rewrite (bool_decide_eq_false_2 (0 < 0)) by lia.
    symmetry. apply bool_decide_eq_false_2. by intros [? ?].
  - rewrite bool_decide_eq_true_2 by lia.
    symmetry. by apply bool_decide_eq_true_2.
Qed.

Lemma unbanUser_flagged (e : env) (id : string) (st : State) :
  unbanUser e id st
  = Ok (set_users st
          ((λ r, if bool_decide (r !! "id" = Some (VStr id))
                 then flagged e false r else r) <$> users st),
        bool_decide (is_Some (getUser (Some (VStr id)) st))).
Proof. apply unbanUser_eq. Qed.

Lemma targets_self_false (req : request) (st : State) (user : obj) (id : string) :
  req_user req st = Some user → user !! "id" ≠ Some (VStr id) →
  targets_self req id st = false.
Proof.
  intros Hu Hid. unfold targets_self. rewrite Hu. cbn.
  by apply bool_decide_eq_false_2.
Qed.

(** The user of a request is found by the id its session stores. *)
Lemma req_user_Some (req : request) (st : State) (user : obj) :
  req_user req st = Some user ↔
  ∃ sid id, req_cookie req = Some sid ∧ sessions st !! sid = Some id
            ∧ getUser (Some id) st = Some user.
Proof.
  unfold req_user. destruct (req_cookie req) as [sid|]; cbn.
  - destruct (sessions st !! sid) as [id|] eqn:Hs; cbn.
    + split; [eauto|]. intros (sid' & id' & [= <-] & Hs' & Hget).
      rewrite Hs in Hs'. by injection Hs' as <-.
    + split; [done|]. intros (sid' & id' & [= <-] & Hs' & _). congruence.
  - split; [done|]. by intros (? & ? & ? & _).
Qed.

End AdminMore.

Import AdminMore.

(** X20. A route for user administration answers 401 or 403 exactly when
    the session of the request is not that of an existing, not banned user
    with role admin; in that case the user table is left as it was. *)
Theorem admin_routes_need_an_admin
    (scrypt : string → string → nat → list byte)
    (objectToString : val → string)
    (e : env) (req : request) (st : State) :
  admin_route (req_route req) →
  ((status (registerRoutes scrypt objectToString e req st).2 = 401%nat
    ∨ status (registerRoutes scrypt objectToString e req st).2 = 403%nat)
   ↔ ¬ ∃ user, req_user req st = Some user
               ∧ truthy (user !! "banned") = false
               ∧ user !! "role" = Some (VStr "admin"))
  ∧ ((¬ ∃ user, req_user req st = Some user
                ∧ truthy (user !! "banned") = false
                ∧ user !! "role" = Some (VStr "admin")) →
     users (registerRoutes scrypt objectToString e req st).1 = users st).
Proof.
  intros Hroute.
  destruct (req_user req st) as [user|] eqn:Huser.
  2:{ assert (Hno : ¬ ∃ user : obj, None = Some user
                              ∧ truthy (user !! "banned") = false
                              ∧ user !! "role" = Some (VStr "admin"))
        by (by intros (? & ? & _)).
      unfold registerRoutes.
      destruct (req_route req); try done;
        rewrite requireAdmin_unauthenticated by done; cbn; tauto. }
  destruct (truthy (user !! "banned")) eqn:Hbanned.
  { assert (Hno : ¬ ∃ user' : obj, Some user = Some user'
                               ∧ truthy (user' !! "banned") = false
                               ∧ user' !! "role" = Some (VStr "admin"))
      by (intros (? & [= <-] & ? & _); congruence).
    unfold registerRoutes.
    destruct (req_route req); try done;
      rewrite (requireAdmin_banned _ _ _ user) by done;
      cbn [fst snd status message]; rewrite users_session_destroy; tauto. }
  destruct (decide (user !! "role" = Some (VStr "admin"))) as [Hrole|Hrole].
  - assert (Hyes : ∃ user' : obj, Some user = Some user'
                            ∧ truthy (user' !! "banned") = false
                            ∧ user' !! "role" = Some (VStr "admin"))
      by eauto.
    split; [|tauto].
    split; [|tauto]. intros Hstatus. exfalso.
    unfold registerRoutes in Hstatus.
    destruct (req_route req) as [|id|id|id| | | | | | | | | | | | |];
      try done;
      rewrite (requireAdmin_admin _ _ _ user) in Hstatus by done.
    + cbn in Hstatus. destruct Hstatus; done.
    + unfold patch_users_ban in Hstatus. rewrite banUser_eq in Hstatus.
      destruct (targets_self req id st);
        [cbn in Hstatus; destruct Hstatus; done|].
      destruct (bool_decide _); cbn in Hstatus; destruct Hstatus; done.
    + unfold patch_users_unban in Hstatus. rewrite unbanUser_eq in Hstatus.
      destruct (bool_decide _); cbn in Hstatus; destruct Hstatus; done.
    + unfold delete_users in Hstatus.
      destruct (targets_self req id st);
        [cbn in Hstatus; destruct Hstatus; done|].
      destruct (deleteUser id st) as [st1 []];
        cbn in Hstatus; destruct Hstatus; done.
  - assert (Hno : ¬ ∃ user' : obj, Some user = Some user'
                             ∧ truthy (user' !! "banned") = false
                             ∧ user' !! "role" = Some (VStr "admin"))
      by (intros (? & [= <-] & _ & ?); done).
    unfold registerRoutes.
    destruct (req_route req); try done; unfold requireAdmin;
      rewrite Huser, Hbanned, decide_True by done; cbn; tauto.
Qed.

Lemma admin_routes_need_an_admin_witness :
  status (registerRoutes toy_scrypt sample_toString sample_env
            (request_of (DELETE_users "u-0") ∅ (Some "s-3")) sample_state).2
  = 403%nat.
Proof.
  destruct (admin_routes_need_an_admin toy_scrypt sample_toString sample_env
              (request_of (DELETE_users "u-0") ∅ (Some "s-3")) sample_state I)
    as [[_ Hno] _].
  destruct Hno as [H401|H403].
  - intros (user & Huser & _ & Hrole).
    vm_compute in Huser. injection Huser as <-. vm_compute in Hrole.
    discriminate.
  - vm_compute in H401. discriminate.
  - exact H403.
Defined.

Module BanMore.

Lemma getUser_target_id (id : string) (st : State) (target : obj) :
  getUser (Some (VStr id)) st = Some target → target !! "id" = Some (VStr id).
Proof. intros Hget. by apply head_filter_Some in Hget as [Hid _]. Qed.

(** The target of a ban or unban, looked up afterwards by id. *)
Lemma getUser_after_flag (e : env) (b : bool) (id : string) (st : State)
    (target : obj) :
  getUser (Some (VStr id)) st = Some target →
  getUser (Some (VStr id))
    (set_users st
       ((λ r, if bool_decide (r !! "id" = Some (VStr id))
              then flagged e b r else r) <$> users st))
  = Some (flagged e b target).
Proof.
  intros Hget. pose proof (getUser_target_id id st target Hget) as Hid.
  unfold getUser in *. cbn [users set_users].
  rewrite lookup_after_flag by done. rewrite Hget. cbn.
  by rewrite bool_decide_eq_true_2.
Qed.

Lemma getUserByUsername_after_flag (e : env) (b : bool) (id : string)
    (username : option val) (st : State) (target : obj) :
  getUserByUsername username st = Some target →
  target !! "id" = Some (VStr id) →
  getUserByUsername username
    (set_users st
       ((λ r, if bool_decide (r !! "id" = Some (VStr id))
              then flagged e b r else r) <$> users st))
  = Some (flagged e b target).
Proof.
  intros Hget Hid. unfold getUserByUsername in *. cbn [users set_users].
  rewrite lookup_after_flag by done. rewrite Hget. cbn.
  by rewrite bool_decide_eq_true_2.
Qed.

Lemma flagged_banned (e : env) (b : bool) (r : obj) :
  truthy (flagged e b r !! "banned") = b.
Proof.
  unfold flagged. rewrite lookup_insert_ne by done.
  by rewrite lookup_insert_eq.
Qed.

End BanMore.

Import BanMore.

(** X21. A ban takes effect at once: when an administrator bans another,
    existing user, the answer is 200, the user's row gets banned = true and
    a new updatedAt and nothing else changes; from then on every gated
    request that comes with a session of that user is answered 403 (and
    loses the session), and every login with the user's username is
    answered 401 "Invalid credentials". *)
Theorem ban_takes_effect
    (scrypt : string → string → nat → list byte)
    (objectToString : val → string)
    (e : env) (req : request) (st : State) (admin target : obj) (id : string) :
  req_route req = PATCH_users_ban id →
  req_user req st = Some admin →
  truthy (admin !! "banned") = false →
  admin !! "role" = Some (VStr "admin") →
  admin !! "id" ≠ Some (VStr id) →
  getUser (Some (VStr id)) st = Some target →
  (registerRoutes scrypt objectToString e req st).2
    = message 200 "User banned successfully"
  ∧ getUser (Some (VStr id)) (registerRoutes scrypt objectToString e req st).1
    = Some (flagged e true target)
  ∧ sessions (registerRoutes scrypt objectToString e req st).1 = sessions st
  ∧ (∀ e' req' sid,
       req_cookie req' = Some sid → sessions st !! sid = Some (VStr id) →
       gated (req_route req') →
       (registerRoutes scrypt objectToString e' req'
          (registerRoutes scrypt objectToString e req st).1).2
       = message 403 "Access denied")
  ∧ (∀ e' req',
       getUserByUsername (req_body req' !! "username") st = Some target →
       (post_login scrypt e' req'
          (registerRoutes scrypt objectToString e req st).1).2
       = message 401 "Invalid credentials").
Proof.
  intros Hroute Hadmin Hbanned Hrole Hother Hget.
  pose proof (getUser_target_id id st target Hget) as Hid.
  assert (Hban : registerRoutes scrypt objectToString e req st
                 = (set_users st
                      ((λ r, if bool_decide (r !! "id" = Some (VStr id))
                             then flagged e true r else r) <$> users st),
                    message 200 "User banned successfully")).
  { unfold registerRoutes. rewrite Hroute.
    rewrite (requireAdmin_admin _ _ _ admin) by done.
    unfold patch_users_ban.
    rewrite (targets_self_false req st admin id) by done.
    rewrite banUser_eq, Hget. by rewrite bool_decide_eq_true_2. }
  rewrite Hban. cbn [fst snd].
  split; [done|]. split; [by apply getUser_after_flag|]. split; [done|].
  split.
  - intros e' req' sid Hcookie Hsession Hgated.
    assert (Huser' : req_user req'
                       (set_users st
                          ((λ r, if bool_decide (r !! "id" = Some (VStr id))
                                 then flagged e true r else r) <$> users st))
                     = Some (flagged e true target)).
    { apply req_user_Some. exists sid, (VStr id).
      split; [done|]. split; [done|]. by apply getUser_after_flag. }
    unfold registerRoutes.
    destruct (req_route req'); try done;
      first [ by rewrite (requireAuth_banned _ _ _ _ Huser' (flagged_banned _ _ _))
            | by rewrite (requireAdmin_banned _ _ _ _ Huser' (flagged_banned _ _ _)) ].
  - intros e' req' Hname.
    unfold post_login, authenticate.
    destruct (truthy (req_body req' !! "username")
              && truthy (req_body req' !! "password")); [|done].
    unfold verify.
    rewrite (getUserByUsername_after_flag e true id _ st target Hname Hid).
    by rewrite flagged_banned.
Qed.

Lemma ban_takes_effect_witness :
  (registerRoutes toy_scrypt sample_toString sample_env
     (request_of (PATCH_users_ban "u-3") ∅ (Some "s-0")) sample_state).2
  = message 200 "User banned successfully"
  ∧ (registerRoutes toy_scrypt sample_toString later_env
       (request_of GET_users ∅ (Some "s-3"))
       (registerRoutes toy_scrypt sample_toString sample_env
          (request_of (PATCH_users_ban "u-3") ∅ (Some "s-0")) sample_state).1).2
    = message 403 "Access denied".
Proof.
  destruct (ban_takes_effect toy_scrypt sample_toString sample_env
              (request_of (PATCH_users_ban "u-3") ∅ (Some "s-0")) sample_state
              (user_row "u-0" "root" "admin" false 1)
              (user_row "u-3" "carol" "user" false 3) "u-3"
              eq_refl ltac:(vm_compute; reflexivity) eq_refl eq_refl
              ltac:(vm_compute; discriminate) ltac:(vm_compute; reflexivity))
    as (Hanswer & _ & _ & Hgate & _).
  split; [exact Hanswer|].
  apply (Hgate later_env (request_of GET_users ∅ (Some "s-3")) "s-3");
    [reflexivity|vm_compute; reflexivity|exact I].
Defined.

(** X22. An unban gives access back: when an administrator unbans an
    existing user, the answer is 200, the user's row gets banned = false
    and a new updatedAt, and a request that comes with a session of that
    user passes [requireAuth] again and reaches the handler behind it. *)
Theorem unban_restores_access
    (scrypt : string → string → nat → list byte)
    (objectToString : val → string)
    (e : env) (req : request) (st : State) (admin target : obj) (id : string) :
  req_route req = PATCH_users_unban id →
  req_user req st = Some admin →
  truthy (admin !! "banned") = false →
  admin !! "role" = Some (VStr "admin") →
  getUser (Some (VStr id)) st = Some target →
  (registerRoutes scrypt objectToString e req st).2
    = message 200 "User unbanned successfully"
  ∧ getUser (Some (VStr id)) (registerRoutes scrypt objectToString e req st).1
    = Some (flagged e false target)
  ∧ (∀ req' sid next,
       req_cookie req' = Some sid → sessions st !! sid = Some (VStr id) →
       requireAuth req' next (registerRoutes scrypt objectToString e req st).1
       = next (registerRoutes scrypt objectToString e req st).1).
Proof.
  intros Hroute Hadmin Hbanned Hrole Hget.
  assert (Hunban : registerRoutes scrypt objectToString e req st
                   = (set_users st
                        ((λ r, if bool_decide (r !! "id" = Some (VStr id))
                               then flagged e false r else r) <$> users st),
                      message 200 "User unbanned successfully")).
  { unfold registerRoutes. rewrite Hroute.
    rewrite (requireAdmin_admin _ _ _ admin) by done.
    unfold patch_users_unban.
    rewrite unbanUser_flagged, Hget. by rewrite bool_decide_eq_true_2. }
  rewrite Hunban. cbn [fst snd].
  split; [done|]. split; [by apply getUser_after_flag|].
  intros req' sid next Hcookie Hsession.
  assert (Huser' : req_user req'
                     (set_users st
                        ((λ r, if bool_decide (r !! "id" = Some (VStr id))
                               then flagged e false r else r) <$> users st))
                   = Some (flagged e false target)).
  { apply req_user_Some. exists sid, (VStr id).
    split; [done|]. split; [done|]. by apply getUser_after_flag. }
  unfold requireAuth. by rewrite Huser', flagged_banned.
Qed.

Lemma unban_restores_access_witness :
  (registerRoutes toy_scrypt sample_toString sample_env
     (request_of (PATCH_users_unban "u-2") ∅ (Some "s-0")) sample_state).2
  = message 200 "User unbanned successfully"
  ∧ getUser (Some (VStr "u-2"))
      (registerRoutes toy_scrypt sample_toString sample_env
         (request_of (PATCH_users_unban "u-2") ∅ (Some "s-0")) sample_state).1
    = Some (flagged sample_env false (user_row "u-2" "bob" "user" true 2)).
Proof.
  destruct (unban_restores_access toy_scrypt sample_toString sample_env
              (request_of (PATCH_users_unban "u-2") ∅ (Some "s-0")) sample_state
              (user_row "u-0" "root" "admin" false 1)
              (user_row "u-2" "bob" "user" true 2) "u-2"
              eq_refl ltac:(vm_compute; reflexivity) eq_refl eq_refl
              ltac:(vm_compute; reflexivity))
    as (Hanswer & Hrow & _).
  split; [exact Hanswer|exact Hrow].
Defined.

(** ** QR settings *)

(** X23. QR settings are looked up by event and the oldest ones win: an
    active user's POST /api/qr-settings is answered 201 with the new row,
    whatever the body holds; afterwards GET's lookup for the event named in
    the body finds the new row only when the event had no settings before,
    and otherwise still the earlier ones; the lookup for any other event is
    as before. *)
Theorem qr_settings_first_wins
    (scrypt : string → string → nat → list byte)
    (objectToString : val → string)
    (e : env) (req : request) (st : State) (user : obj) (eventId : string) :
  req_route req = POST_qr_settings →
  req_user req st = Some user →
  truthy (user !! "banned") = false →
  req_body req !! "eventId" = Some (VStr eventId) →
  (registerRoutes scrypt objectToString e req st).2
    = {| status := 201;
         body := Json (inserted_row e qrSettings_table (req_body req)) |}
  ∧ getQrSettings eventId (registerRoutes scrypt objectToString e req st).1
    = Some (default (inserted_row e qrSettings_table (req_body req))
                    (getQrSettings eventId st))
  ∧ ∀ other, other ≠ eventId →
      getQrSettings other (registerRoutes scrypt objectToString e req st).1
      = getQrSettings other st.
Proof.
  intros Hroute Huser Hactive Hevent.
  assert (Hrow : inserted_row e qrSettings_table (req_body req) !! "eventId"
                 = Some (VStr eventId)).
  { rewrite (inserted_row_lookup _ _ _ "eventId" NoDefault);
      [by rewrite Hevent| |]; by_evaluation. }
  assert (Hpost : registerRoutes scrypt objectToString e req st
                  = (set_qrSettings st
                       (qrSettings st
                        ++ [inserted_row e qrSettings_table (req_body req)]),
                     {| status := 201;
                        body := Json (inserted_row e qrSettings_table
                                        (req_body req)) |})).
  { unfold registerRoutes. rewrite Hroute.
    unfold requireAuth. rewrite Huser, Hactive. done. }
  rewrite Hpost. cbn [fst snd]. split; [done|].
  unfold getQrSettings. cbn [qrSettings set_qrSettings]. split.
  - rewrite filter_app.
    destruct (filter (eq "eventId" (Some (VStr eventId))) (qrSettings st))
      as [|old olds]; [|done].
    by rewrite filter_cons_True.
  - intros other Hother. rewrite filter_app.
    rewrite (filter_cons_False (eq "eventId" (Some (VStr other)))).
    + by rewrite app_nil_r.
    + unfold eq. rewrite Hrow. congruence.
Qed.

Lemma qr_settings_first_wins_witness :
  getQrSettings "ev-1"
    (registerRoutes toy_scrypt sample_toString sample_env
       (request_of POST_qr_settings qr_body (Some "s-3")) sample_state).1
  = Some (inserted_row sample_env qrSettings_table qr_body).
Proof.
  destruct (qr_settings_first_wins toy_scrypt sample_toString sample_env
              (request_of POST_qr_settings qr_body (Some "s-3")) sample_state
              (user_row "u-3" "carol" "user" false 3) "ev-1"
              eq_refl ltac:(vm_compute; reflexivity) eq_refl eq_refl)
    as (_ & Hget & _).
  exact Hget.
Defined.

(** ** Session settings *)

(** X24. [setupAuth] refuses to start exactly when NODE_ENV is production
    and SESSION_SECRET is unset, empty or the placeholder; when it starts,
    the secret in use is SESSION_SECRET or else the placeholder and never
    empty, so in production it is never the placeholder; the cookie is
    Secure exactly in production, HttpOnly, SameSite lax, and lives 24
    hours. *)
Theorem setupAuth_settings (NODE_ENV SESSION_SECRET : option string) :
  (SessionSetup.setupAuth NODE_ENV SESSION_SECRET = None
   ↔ NODE_ENV = Some "production"
     ∧ (SESSION_SECRET = None ∨ SESSION_SECRET = Some EmptyString
        ∨ SESSION_SECRET = Some SessionSetup.placeholder_secret))
  ∧ ∀ options, SessionSetup.setupAuth NODE_ENV SESSION_SECRET = Some options →
      SessionSetup.secret options ≠ EmptyString
      ∧ (SESSION_SECRET = Some (SessionSetup.secret options)
         ∨ SessionSetup.secret options = SessionSetup.placeholder_secret)
      ∧ (NODE_ENV = Some "production" →
         SessionSetup.secret options ≠ SessionSetup.placeholder_secret)
      ∧ (SessionSetup.cookie_secure options = true
         ↔ NODE_ENV = Some "production")
      ∧ SessionSetup.cookie_httpOnly options = true
      ∧ SessionSetup.cookie_sameSite options = "lax"
      ∧ SessionSetup.cookie_maxAge options = 86400000%Z.
Proof.
  assert (Hunset : ∀ x, SessionSetup.unset x = true
                        ↔ x = None ∨ x = Some EmptyString).
  { intros [s|]; cbn.
    - rewrite String.eqb_eq. split; [intros ->; by right|].
      by intros [|[= ->]].
    - split; [by left|done]. }
  unfold SessionSetup.setupAuth, SessionSetup.is_production. split.
  - case_bool_decide as Hprod; cbn [andb].
    + destruct (SessionSetup.unset SESSION_SECRET) eqn:Hu; cbn [orb].
      * apply Hunset in Hu. split; [intros _|done].
        split; [done|]. destruct Hu; auto.
      * case_bool_decide as Hp; [split; [intros _; auto|done]|].
        split; [done|]. intros (_ & [H|[H|H]]); [| |done];
          assert (SessionSetup.unset SESSION_SECRET = true)
            by (apply Hunset; auto); congruence.
    + split; [done|]. by intros [? _].
  - intros options.
    case_bool_decide as Hprod; cbn [andb].
    + destruct (SessionSetup.unset SESSION_SECRET) eqn:Hu; cbn [orb]; [done|].
      case_bool_decide as Hp; [done|]. intros [= <-]. cbn.
      destruct SESSION_SECRET as [s|]; [|done]. cbn in *.
      apply String.eqb_neq in Hu.
      repeat split; auto. intros _ ->. done.
    + intros [= <-]. cbn.
      destruct (SessionSetup.unset SESSION_SECRET) eqn:Hu.
      * repeat split; auto; done.
      * destruct SESSION_SECRET as [s|]; [|done]. cbn in *.
        apply String.eqb_neq in Hu. repeat split; auto; done.
Qed.

(** ** The form builder *)

Module BuilderMore.

Import FormBuilder.

Lemma defined_fields (l : list (option FormField)) :
  Forall is_Some l → ∃ fs, l = Some <$> fs.
Proof.
  induction 1 as [|x l [f ->] _ [fs ->]]; [by exists []|].
  by exists (f :: fs).
Qed.

Lemma defined_fields_Forall (fs : list FormField) :
  Forall is_Some (Some <$> fs : list (option FormField)).
Proof. apply Forall_fmap, Forall_forall. by eauto. Qed.

Lemma field_ids_defined (fs : list FormField) :
  field_ids (Some <$> fs) = id <$> fs.
Proof.
  unfold field_ids. induction fs as [|f fs IH]; [done|].
  cbn. by rewrite IH.
Qed.

Lemma filter_other_defined (fieldId : string) (fs : list FormField) :
  filter_other fieldId (Some <$> fs)
  = Ok (Some <$> filter (λ f, id f ≠ fieldId) fs).
Proof.
  induction fs as [|f fs IH]; [done|].
  cbn [fmap list_fmap filter_other id_of mbind result_bind].
  change (list_fmap _ _ Some fs) with (Some <$> fs). rewrite IH.
  cbn [mbind result_bind]. rewrite filter_cons.
  destruct (String.eqb_spec (id f) fieldId) as [Heq|Hne].
  - by rewrite decide_False by auto.
  - by rewrite decide_True by auto.
Qed.

Lemma filter_other_undefined (fieldId : string) (l : list (option FormField)) :
  None ∈ l → filter_other fieldId l = Throw TypeError.
Proof.
  induction l as [|x l IH]; [by intros ?%elem_of_nil|].
  intros [<-|Hin]%elem_of_cons; [done|].
  cbn [filter_other]. destruct x as [f|]; [|done].
  cbn [id_of mbind result_bind]. by rewrite IH.
Qed.

Lemma map_update_defined (fieldId : string) (updates : Updates)
    (fs : list FormField) :
  map_update fieldId updates (Some <$> fs)
  = Ok (Some <$> ((λ f, if String.eqb (id f) fieldId
                        then spread f updates else f) <$> fs)).
Proof.
  induction fs as [|f fs IH]; [done|].
  cbn [fmap list_fmap map_update id_of mbind result_bind].
  change (list_fmap _ _ Some fs) with (Some <$> fs). rewrite IH.
  cbn [mbind result_bind]. by destruct (String.eqb (id f) fieldId).
Qed.

Lemma defined_or_not (l : list (option FormField)) :
  Forall is_Some l ∨ None ∈ l.
Proof.
  induction l as [|[f|] l [IH|IH]].
  - by left.
  - left. constructor; [by eexists|done].
  - right. by right.
  - right. left.
  - right. left.
Qed.

Lemma Some_elem_of (f : FormField) (fs : list FormField) :
  Some f ∈ (Some <$> fs : list (option FormField)) ↔ f ∈ fs.
Proof.
  rewrite list_elem_of_fmap. split; [by intros (? & [= <-] & ?)|eauto].
Qed.

(** The list after the two [splice] calls, for a [source] within it. *)
Lemma reorder_spec (source destination : nat) (l : list (option FormField))
    (x : option FormField) :
  l !! source = Some x →
  reorder source destination l ≡ₚ l
  ∧ reorder source destination l !! landing destination l = Some x
  ∧ delete (landing destination l) (reorder source destination l)
    = delete source l.
Proof.
  intros Hx. pose proof (lookup_lt_Some _ _ _ Hx) as Hlt.
  unfold reorder, landing. rewrite Hx. cbn [default].
  set (rest := delete source l).
  assert (Hlen : length rest = length l - 1)
    by (unfold rest; rewrite length_delete; eauto).
  rewrite <- Hlen.
  assert (Htake : take destination rest = take (destination `min` length rest) rest).
  { destruct (decide (destination ≤ length rest)%nat).
    - by rewrite Nat.min_l.
    - rewrite Nat.min_r by lia. rewrite take_ge by lia. by rewrite firstn_all. }
  assert (Hdrop : drop destination rest = drop (destination `min` length rest) rest).
  { destruct (decide (destination ≤ length rest)%nat).
    - by rewrite Nat.min_l.
    - rewrite Nat.min_r by lia. rewrite drop_ge by lia. by rewrite drop_all. }
  rewrite Htake, Hdrop.
  set (k := destination `min` length rest).
  assert (Hk : length (take k rest) = k)
    by (rewrite length_take; unfold k; lia).
  split; [|split].
  - rewrite <- Permutation_middle, take_drop. unfold rest.
    symmetry. by apply delete_Permutation.
  - rewrite <- Hk at 1. apply list_lookup_middle. done.
  - rewrite <- Hk at 1. rewrite delete_middle. apply take_drop.
Qed.

Lemma Permutation_defined (l : list (option FormField)) (fs : list FormField) :
  l ≡ₚ Some <$> fs → ∃ fs', l = Some <$> fs' ∧ fs' ≡ₚ fs.
Proof.
  intros Hp. destruct (defined_fields l) as [fs' ->].
  - rewrite Hp. apply defined_fields_Forall.
  - exists fs'. split; [done|].
    assert (Hid : ∀ gs : list FormField, omap (λ x, x) (Some <$> gs) = gs).
    { induction gs as [|g gs IH]; [done|]. cbn. by rewrite IH. }
    rewrite <- (Hid fs'), <- (Hid fs). by rewrite Hp.
Qed.

Lemma filter_defined (fieldId : string) (fs : list FormField) :
  (Some <$> filter (λ f, id f ≠ fieldId) fs : list (option FormField))
  = filter (λ x, id <$> x ≠ Some fieldId) (Some <$> fs).
Proof.
  induction fs as [|f fs IH]; [done|].
  rewrite fmap_cons, !filter_cons.
  destruct (decide (id f ≠ fieldId)) as [Hne|Heq].
  - rewrite decide_True by (cbn; congruence). by rewrite fmap_cons, IH.
  - rewrite decide_False by (cbn; intros H; apply Heq; congruence). done.
Qed.

Lemma spread_keeps_id (f : FormField) (updates : Updates) :
  set_id updates = None → id (spread f updates) = id f.
Proof. intros H. unfold spread. cbn. by rewrite H. Qed.

Lemma addField_fields (nanoid : string) (t : fieldType) (st : BuilderState) :
  ∃ f, addField nanoid t st
       = {| fields := fields st ++ [Some f]; selectedField := Some f |}
       ∧ id f = nanoid ∧ type f = t.
Proof. unfold addField. eexists. split; [reflexivity|done]. Qed.

Lemma addField_wf (nanoid : string) (t : fieldType) (st : BuilderState) :
  builder_wf st → nanoid ∉ field_ids (fields st) →
  builder_wf (addField nanoid t st).
Proof.
  intros (Hdef & Hnd & _) Hfresh.
  destruct (addField_fields nanoid t st) as (f & -> & Hid & _).
  split; [|split]; cbn [fields selectedField].
  - apply Forall_app. split; [done|]. by repeat constructor.
  - unfold field_ids in *. rewrite omap_app. cbn. rewrite Hid.
    apply NoDup_app. split; [done|]. split; [|apply NoDup_singleton].
    intros i Hi ->%list_elem_of_singleton. done.
  - intros ? [= <-]. apply elem_of_app. right. left.
Qed.

Lemma removeField_defined (fieldId : string) (st : BuilderState)
    (fs : list FormField) :
  fields st = Some <$> fs →
  removeField fieldId st
  = Ok {| fields := Some <$> filter (λ f, id f ≠ fieldId) fs;
          selectedField :=
            match selectedField st with
            | Some selected =>
                if String.eqb (id selected) fieldId then None else Some selected
            | None => None
            end |}.
Proof.
  intros Hfs. unfold removeField. by rewrite Hfs, filter_other_defined.
Qed.

Lemma removeField_wf (fieldId : string) (st : BuilderState) :
  builder_wf st → ∃ st', removeField fieldId st = Ok st' ∧ builder_wf st'.
Proof.
  intros (Hdef & Hnd & Hsel).
  destruct (defined_fields _ Hdef) as [fs Hfs].
  rewrite (removeField_defined _ _ fs Hfs). eexists. split; [done|].
  rewrite Hfs in Hnd, Hsel. rewrite field_ids_defined in Hnd.
  split; [|split]; cbn [fields selectedField].
  - apply defined_fields_Forall.
  - rewrite field_ids_defined.
    apply (sublist_NoDup _ (id <$> fs)); [done|].
    apply fmap_sublist, sublist_filter.
  - intros f Hf. destruct (selectedField st) as [selected|]; [|done].
    destruct (String.eqb_spec (id selected) fieldId) as [|Hne]; [done|].
    injection Hf as <-. apply Some_elem_of, list_elem_of_filter.
    split; [done|]. by apply Some_elem_of, Hsel.
Qed.

Lemma updateField_defined (fieldId : string) (updates : Updates)
    (st : BuilderState) (fs : list FormField) :
  fields st = Some <$> fs →
  updateField fieldId updates st
  = Ok {| fields := Some <$> ((λ f, if String.eqb (id f) fieldId
                                    then spread f updates else f) <$> fs);
          selectedField :=
            match selectedField st with
            | Some selected =>
                if String.eqb (id selected) fieldId
                then Some (spread selected updates) else Some selected
            | None => None
            end |}.
Proof.
  intros Hfs. unfold updateField. by rewrite Hfs, map_update_defined.
Qed.

Lemma updateField_wf (fieldId : string) (updates : Updates)
    (st : BuilderState) :
  builder_wf st → set_id updates = None →
  ∃ st', updateField fieldId updates st = Ok st' ∧ builder_wf st'.
Proof.
  intros (Hdef & Hnd & Hsel) Hid.
  destruct (defined_fields _ Hdef) as [fs Hfs].
  rewrite (updateField_defined _ _ _ fs Hfs). eexists. split; [done|].
  rewrite Hfs in Hnd, Hsel. rewrite field_ids_defined in Hnd.
  split; [|split]; cbn [fields selectedField].
  - apply defined_fields_Forall.
  - rewrite field_ids_defined, <- list_fmap_compose.
    erewrite list_fmap_ext; [exact Hnd|].
    intros _ f _. cbn. destruct (String.eqb (id f) fieldId); [|done].
    by apply spread_keeps_id.
  - intros f Hf. destruct (selectedField st) as [selected|]; [|done].
    specialize (Hsel selected eq_refl). apply Some_elem_of in Hsel.
    apply Some_elem_of, list_elem_of_fmap. exists selected.
    split; [|done].
    destruct (String.eqb (id selected) fieldId); by injection Hf as <-.
Qed.

Lemma reorder_wf (source destination : nat) (st : BuilderState) :
  builder_wf st → source < length (fields st) →
  builder_wf {| fields := reorder source destination (fields st);
                selectedField := selectedField st |}.
Proof.
  intros (Hdef & Hnd & Hsel) Hlt.
  destruct (lookup_lt_is_Some_2 _ _ Hlt) as [x Hx].
  destruct (reorder_spec source destination _ x Hx) as (Hperm & _).
  destruct (defined_fields _ Hdef) as [fs Hfs].
  rewrite Hfs in Hperm at 2.
  destruct (Permutation_defined _ _ Hperm) as (fs' & Hfs' & Hp).
  split; [|split]; cbn [fields selectedField].
  - rewrite Hfs'. apply defined_fields_Forall.
  - rewrite Hfs', field_ids_defined, Hp, <- field_ids_defined, <- Hfs. done.
  - intros f Hf. rewrite Hperm, <- Hfs. by apply Hsel.
Qed.

End BuilderMore.

Import BuilderMore.

(** X25. The form builder stays in order: when every element of the field
    list is a field, no two fields share an identifier and the selected
    field is one of them, the same holds after [addField] with a fresh
    identifier, after [removeField], after [updateField] with updates that
    leave the identifier alone, and after [handleDragEnd] for a drop whose
    source index is within the palette (a new field) or within the fields
    (a reordering); the three that can throw do not. *)
Theorem form_builder_stays_in_order (st : FormBuilder.BuilderState) :
  builder_wf st →
  (∀ nanoid t, nanoid ∉ field_ids (FormBuilder.fields st) →
     builder_wf (FormBuilder.addField nanoid t st))
  ∧ (∀ fieldId,
       ∃ st', FormBuilder.removeField fieldId st = Ok st' ∧ builder_wf st')
  ∧ (∀ fieldId updates, FormBuilder.set_id updates = None →
       ∃ st', FormBuilder.updateField fieldId updates st = Ok st'
              ∧ builder_wf st')
  ∧ (∀ nanoid drop,
       nanoid ∉ field_ids (FormBuilder.fields st) →
       (FormBuilder.drop_type drop = "add-field" →
        FormBuilder.source drop < length FormBuilder.FIELD_TYPES) →
       (FormBuilder.drop_type drop = "reorder-fields" →
        FormBuilder.source drop < length (FormBuilder.fields st)) →
       ∃ st', FormBuilder.handleDragEnd nanoid drop st = Ok st'
              ∧ builder_wf st').
Proof.
  intros Hwf. split; [|split; [|split]].
  - intros nanoid t. by apply addField_wf.
  - intros fieldId. by apply removeField_wf.
  - intros fieldId updates. by apply updateField_wf.
  - intros nanoid drop Hfresh Hadd Hreorder. unfold FormBuilder.handleDragEnd.
    destruct (FormBuilder.destination drop) as [dest|]; [|by eauto].
    destruct (String.eqb_spec (FormBuilder.drop_type drop) "add-field")
      as [Ha|_].
    { destruct (lookup_lt_is_Some_2 _ _ (Hadd Ha)) as [[t l] ->].
      eexists. split; [done|]. by apply addField_wf. }
    destruct (String.eqb_spec (FormBuilder.drop_type drop) "reorder-fields")
      as [Hr|_]; [|by eauto].
    eexists. split; [done|]. by apply reorder_wf, Hreorder.
Qed.

Lemma form_builder_stays_in_order_witness :
  ∃ st', FormBuilder.removeField "f-2" sample_builder = Ok st' ∧ builder_wf st'.
Proof.
  assert (Hwf : builder_wf sample_builder).
  { split; [|split].
    - repeat constructor; by eexists.
    - by_evaluation.
    - intros f [= <-]. cbn. right. left. }
  destruct (form_builder_stays_in_order sample_builder Hwf)
    as (_ & Hremove & _).
  exact (Hremove "f-2").
Defined.

(** X26. [removeField] removes by identifier: on a list of fields it does
    not throw, the fields left are exactly those with another identifier,
    in their order, and the selection is kept unless the selected field
    had the identifier; it throws only on a list with an undefined
    element, and then a TypeError. *)
Theorem removeField_removes_by_id (fieldId : string)
    (st : FormBuilder.BuilderState) :
  match FormBuilder.removeField fieldId st with
  | Ok st' =>
      Forall is_Some (FormBuilder.fields st)
      ∧ FormBuilder.fields st'
        = filter (λ x, FormBuilder.id <$> x ≠ Some fieldId)
            (FormBuilder.fields st)
      ∧ ∀ f, FormBuilder.selectedField st' = Some f
             ↔ FormBuilder.selectedField st = Some f
               ∧ FormBuilder.id f ≠ fieldId
  | Throw err => err = TypeError ∧ None ∈ FormBuilder.fields st
  end.
Proof.
  destruct (defined_or_not (FormBuilder.fields st)) as [Hdef|Hin].
  - destruct (defined_fields _ Hdef) as [fs Hfs].
    rewrite (removeField_defined _ _ fs Hfs).
    cbn [FormBuilder.fields FormBuilder.selectedField].
    split; [done|]. split.
    + rewrite Hfs. apply filter_defined.
    + intros f. destruct (FormBuilder.selectedField st) as [selected|].
      * destruct (String.eqb_spec (FormBuilder.id selected) fieldId) as [He|Hne].
        -- split; [done|]. by intros [[= <-] ?].
        -- split; [by intros [= <-]|by intros [? _]].
      * split; [done|by intros [? _]].
  - unfold FormBuilder.removeField.
    by rewrite filter_other_undefined.
Qed.

(** X27. A reordering drop moves one field and nothing else: for a source
    index within the fields, [handleDragEnd] keeps the selection and
    permutes the fields; the dragged field ends at the destination index,
    or last when that index is beyond the list; and taking it out again
    gives the list that taking it out of the old fields gives. *)
Theorem reordering_moves_one_field (nanoid : string)
    (drop : FormBuilder.DropResult) (st : FormBuilder.BuilderState)
    (destination : nat) :
  FormBuilder.destination drop = Some destination →
  FormBuilder.drop_type drop = "reorder-fields" →
  FormBuilder.source drop < length (FormBuilder.fields st) →
  ∃ st', FormBuilder.handleDragEnd nanoid drop st = Ok st'
    ∧ FormBuilder.selectedField st' = FormBuilder.selectedField st
    ∧ FormBuilder.fields st' ≡ₚ FormBuilder.fields st
    ∧ FormBuilder.fields st' !! landing destination (FormBuilder.fields st)
      = FormBuilder.fields st !! FormBuilder.source drop
    ∧ delete (landing destination (FormBuilder.fields st)) (FormBuilder.fields st')
      = delete (FormBuilder.source drop) (FormBuilder.fields st).
Proof.
  intros Hdest Htype Hlt.
  destruct (lookup_lt_is_Some_2 _ _ Hlt) as [x Hx].
  destruct (reorder_spec (FormBuilder.source drop) destination _ x Hx)
    as (Hperm & Hat & Hrest).
  unfold FormBuilder.handleDragEnd. rewrite Hdest, Htype. cbn.
  eexists. split; [done|]. cbn [FormBuilder.fields FormBuilder.selectedField].
  by rewrite Hx.
Qed.

Lemma reordering_moves_one_field_witness :
  ∃ st', FormBuilder.handleDragEnd "f-9" sample_drop sample_builder = Ok st'
    ∧ FormBuilder.selectedField st' = FormBuilder.selectedField sample_builder
    ∧ FormBuilder.fields st' ≡ₚ FormBuilder.fields sample_builder
    ∧ FormBuilder.fields st' !! landing 2 (FormBuilder.fields sample_builder)
      = FormBuilder.fields sample_builder !! FormBuilder.source sample_drop
    ∧ delete (landing 2 (FormBuilder.fields sample_builder))
        (FormBuilder.fields st')
      = delete (FormBuilder.source sample_drop)
          (FormBuilder.fields sample_builder).
Proof.
  apply (reordering_moves_one_field "f-9" sample_drop sample_builder 2);
    [reflexivity|reflexivity|].
  vm_compute. lia.
Defined.

(** X28. A drop from the palette adds the palette's field: for a source
    index within [FIELD_TYPES], [handleDragEnd] appends one field and
    selects it; the field has the new identifier, the type of that palette
    entry and its label followed by " Field", is not required, and has the
    two default options exactly when it is a select, radio or checkbox
    field. For an index outside the palette it throws a TypeError. *)
Theorem palette_drop_adds_field (nanoid : string)
    (drop : FormBuilder.DropResult) (st : FormBuilder.BuilderState)
    (destination : nat) :
  FormBuilder.destination drop = Some destination →
  FormBuilder.drop_type drop = "add-field" →
  match FormBuilder.FIELD_TYPES !! FormBuilder.source drop with
  | Some (t, l) =>
      ∃ f, FormBuilder.handleDragEnd nanoid drop st
           = Ok {| FormBuilder.fields := FormBuilder.fields st ++ [Some f];
                   FormBuilder.selectedField := Some f |}
        ∧ FormBuilder.id f = nanoid
        ∧ FormBuilder.type f = t
        ∧ FormBuilder.label f = l +:+ " Field"
        ∧ FormBuilder.required f = false
        ∧ FormBuilder.options f
          = if bool_decide (t ∈ [FormBuilder.select; FormBuilder.radio;
                                 FormBuilder.checkbox])
            then Some ["Option 1"; "Option 2"] else None
  | None => FormBuilder.handleDragEnd nanoid drop st = Throw TypeError
  end.
Proof.
  intros Hdest Htype. unfold FormBuilder.handleDragEnd.
  rewrite Hdest, Htype. cbn [String.eqb Ascii.eqb Bool.eqb].
  destruct (FormBuilder.source drop) as [|[|[|[|[|[|[|[|n]]]]]]]];
    cbn [lookup list_lookup FormBuilder.FIELD_TYPES]; [..|done];
    (eexists; split; [reflexivity|by vm_compute]).
Qed.

Lemma palette_drop_adds_field_witness :
  ∃ f, FormBuilder.handleDragEnd "f-9" palette_drop sample_builder
       = Ok {| FormBuilder.fields :=
                 FormBuilder.fields sample_builder ++ [Some f];
               FormBuilder.selectedField := Some f |}
    ∧ FormBuilder.id f = "f-9"
    ∧ FormBuilder.type f = FormBuilder.select
    ∧ FormBuilder.label f = "Dropdown Field"
    ∧ FormBuilder.required f = false
    ∧ FormBuilder.options f = Some ["Option 1"; "Option 2"].
Proof.
  exact (palette_drop_adds_field "f-9" palette_drop sample_builder 1
           eq_refl eq_refl).
Defined.
